(** * book-store: the catalog controllers

    A shallow embedding of [backend/controllers/bookController.js] (the
    book handlers [getBooks], [getBookById], [createBook],
    [updateBookById], [deleteBookById], [getAllBooks] and the author
    handlers [createAuthor], [updateAuthor], [deleteAuthor],
    [getAuthorById], [getAllAuthors]).

    Every handler is an [async (req, res, next)] function that reads and
    writes six Mongoose collections and one storage bucket.  A handler is
    modelled as a function from the request and the [World] (collections,
    bucket, id counter, clock, log of the writes done so far) to the
    [Response] it sends and the [World] it leaves.

    Conventions of the model:
    - a JavaScript number is an exact rational or [NaN]; rounding of
      IEEE doubles is not modelled;
    - an [ObjectId] is a natural number, and [req.params.id] is the id
      it denotes;
    - a numeric field of a request is the number [Number] reads from it,
      or is absent ([undefined]);
    - a string is held as the bytes of its UTF-8 encoding, and white
      space is the whole class [\s] of a regular expression;
    - a collection is the list of its documents in natural (insertion)
      order; [_id] is a key of the collection, so [findByIdAndDelete]
      removes the documents with that [_id];
    - schema validation of the Mongoose models (files that are not part
      of the controllers) is not modelled: [save] stores the document it
      is given;
    - [bucket.file(key).delete()] rejects when no object is stored under
      [key], as the storage service does;
    - a write to the bucket succeeds, and the signed URL of an object is
      what the storage service answers ([getSignedUrl], a parameter);
    - the promises a handler awaits one after the other run one after
      the other; the promises of [Promise.all] run in the order they
      were created;
    - a write stream that no code waits for finishes at a moment the
      model takes as a parameter ([Schedule]): [createBookWhen] is
      [createBook] under any schedule of its two such streams, and
      [createBook] is the handler when they finish in the order they
      were ended, before the record is saved;
    - the body of an update names no [_id]. *)

From Stdlib Require Import QArith Ascii String.
From stdpp Require Import base strings list gmap.
From Stdlib Require Import Sorting.Sorted Sorting.Permutation.

Close Scope Q_scope.
Local Open Scope string_scope.

(** ** JavaScript numbers *)

Inductive Num : Type :=
| Fin (q : Q)
| NaN.

Module JsNum.

(** [a - b], [a * b], [a / b]: [NaN] is absorbing.  The only divisor of
    the controllers is the literal [100]; division by zero (an infinity
    in JavaScript) is mapped to [NaN]. *)
Definition sub (a b : Num) : Num :=
  match a, b with
  | Fin x, Fin y => Fin (x - y)
  | _, _ => NaN
  end.

Definition mul (a b : Num) : Num :=
  match a, b with
  | Fin x, Fin y => Fin (x * y)
  | _, _ => NaN
  end.

Definition div (a b : Num) : Num :=
  match a, b with
  | Fin x, Fin y => if Qeq_bool y 0 then NaN else Fin (x / y)
  | _, _ => NaN
  end.

(** [ToNumber] of a value that may be [undefined]. *)
Definition ofOption (v : option Num) : Num :=
  match v with
  | Some n => n
  | None => NaN
  end.

(** [ToBoolean]: [0] and [NaN] are falsy. *)
Definition truthy (a : Num) : bool :=
  match a with
  | Fin x => negb (Qeq_bool x 0)
  | NaN => false
  end.

(** [a || b] *)
Definition or (a b : Num) : Num := if truthy a then a else b.

(** Equality of numbers as values ([1/2] and [2/4] are the same
    number); [NaN] is only related to itself here, which is the
    equality of stored documents, not [===]. *)
Definition eq (a b : Num) : Prop :=
  match a, b with
  | Fin x, Fin y => Qeq x y
  | NaN, NaN => True
  | _, _ => False
  end.

(** The order MongoDB sorts numbers by: [NaN] before every number. *)
Definition leb (a b : Num) : bool :=
  match a, b with
  | NaN, _ => true
  | Fin _, NaN => false
  | Fin x, Fin y => Qle_bool x y
  end.

(** The query operators [$gt], [$gte], [$lte] against a number. *)
Definition gt (a b : Num) : bool :=
  match a, b with
  | Fin x, Fin y => negb (Qle_bool x y)
  | _, _ => false
  end.

Definition gte (a b : Num) : bool :=
  match a, b with
  | Fin x, Fin y => Qle_bool y x
  | NaN, NaN => true
  | _, _ => false
  end.

Definition lte (a b : Num) : bool := gte b a.

Definition zero : Num := Fin 0.
Definition hundred : Num := Fin 100.

End JsNum.

Infix "==n" := JsNum.eq (at level 70, no associativity).

(** ** JavaScript strings *)

Module JsString.

Definition eqb_ascii (a b : ascii) : bool := Ascii.eqb a b.

(** A string is held as the bytes of its UTF-8 encoding, which is also
    how a string literal of this file is read.  The class [\s] of a
    regular expression, which is also what [trim] removes, has six
    members of one byte (tab, line feed, vertical tab, form feed,
    carriage return, space) and these of two and three bytes: U+00A0,
    U+1680, U+2000 to U+200A, U+2028, U+2029, U+202F, U+205F, U+3000 and
    U+FEFF. *)
Definition bytes (codes : list nat) : string :=
  List.fold_right (fun n s => String (ascii_of_nat n) s) EmptyString codes.

Definition whiteSpace : list string :=
  Eval cbv in
  List.map bytes
    ([[9]; [10]; [11]; [12]; [13]; [32];
      [194; 160];
      [225; 154; 128]]
     ++ List.map (fun z => [226; 128; z]) (List.seq 128 11)
     ++ [[226; 128; 168]; [226; 128; 169];
         [226; 128; 175];
         [226; 129; 159];
         [227; 128; 128];
         [239; 187; 191]])%list.

(** [s.startsWith(p)] *)
Fixpoint startsWith (p s : string) : bool :=
  match p, s with
  | EmptyString, _ => true
  | String a p', String b s' => eqb_ascii a b && startsWith p' s'
  | String _ _, EmptyString => false
  end.

(** The number of bytes of the white-space character a string starts
    with; [0] when it starts with none. *)
Definition spaceWidth (s : string) : nat :=
  match List.find (fun p => startsWith p s) whiteSpace with
  | Some p => String.length p
  | None => 0
  end.

(** [s.split(c)] for a one-character separator: never empty. *)
Fixpoint split (c : ascii) (s : string) : list string :=
  match s with
  | EmptyString => [EmptyString]
  | String a s' =>
      if eqb_ascii a c then EmptyString :: split c s'
      else match split c s' with
           | h :: t => String a h :: t
           | [] => [String a EmptyString]
           end
  end.

(** [arr.pop()] of a freshly split string, and [arr[0]]. *)
Definition pop (l : list string) : string := List.last l EmptyString.
Definition first (l : list string) : string := List.hd EmptyString l.

(** [skip] counts the bytes of the current white-space character that
    are still to be passed. *)
Fixpoint dropSpaces (skip : nat) (s : string) : string :=
  match s with
  | EmptyString => EmptyString
  | String a s' =>
      match skip with
      | S k => dropSpaces k s'
      | O =>
          match spaceWidth s with
          | S k => dropSpaces k s'
          | O => s
          end
      end
  end.

Definition trimStart (s : string) : string := dropSpaces 0 s.

Fixpoint onlySpaces (skip : nat) (s : string) : bool :=
  match s with
  | EmptyString => true
  | String a s' =>
      match skip with
      | S k => onlySpaces k s'
      | O =>
          match spaceWidth s with
          | S k => onlySpaces k s'
          | O => false
          end
      end
  end.

Definition allSpace (s : string) : bool := onlySpaces 0 s.

Fixpoint trimEnd (s : string) : string :=
  match s with
  | EmptyString => EmptyString
  | String a s' => if allSpace s then EmptyString else String a (trimEnd s')
  end.

Definition trim (s : string) : string := trimEnd (trimStart s).

(** [s.replace(/\s+/g, "_")]: every maximal run of white space becomes
    one underscore.  [inRun] tells that the underscore of the current
    run was written, [skip] as above. *)
Fixpoint replaceRuns (inRun : bool) (skip : nat) (s : string) : string :=
  match s with
  | EmptyString => EmptyString
  | String a s' =>
      match skip with
      | S k => replaceRuns true k s'
      | O =>
          match spaceWidth s with
          | S k =>
              if inRun then replaceRuns true k s'
              else String "_"%char (replaceRuns true k s')
          | O => String a (replaceRuns false 0 s')
          end
      end
  end.

Definition replaceSpaces (s : string) : string := replaceRuns false 0 s.

(** A string is truthy when it is not empty. *)
Definition truthy (s : string) : bool :=
  match s with
  | EmptyString => false
  | String _ _ => true
  end.

Definition truthyOpt (s : option string) : bool :=
  match s with
  | Some x => truthy x
  | None => false
  end.

End JsString.

(** ** Documents of the five collections

    The schemas are declared in [models/], outside the controllers; the
    fields below are the ones the controllers read or write. *)

Definition ObjectId : Type := nat.

(** [{ bookId }], the entries of [Author.books]. *)
Module BookRef.
Record t : Type := mk { bookId : ObjectId }.
End BookRef.

(** A line item of a cart, a favorites list or an order. *)
Module LineItem.
Record t : Type := mk { bookId : ObjectId; quantity : nat }.
End LineItem.

Module Book.
Record t : Type := mk {
  _id : ObjectId;
  title : string;
  description : string;
  price : Num;
  discountPercentage : Num;
  originalPrice : Num;
  discountedPrice : Num;
  category : string;
  author : string;
  sourcePath : string;
  coverImage : string;
  samplePdf : string;
  createdAt : nat
}.
End Book.

(** [book.toObject()], from which [sourcePath] may have been removed by
    [const { sourcePath, ...rest } = book.toObject()]. *)
Module BookObject.
Record t : Type := mk {
  _id : ObjectId;
  title : string;
  description : string;
  price : Num;
  discountPercentage : Num;
  originalPrice : Num;
  discountedPrice : Num;
  category : string;
  author : string;
  sourcePath : option string;
  coverImage : string;
  samplePdf : string;
  createdAt : nat
}.
End BookObject.

Module Author.
Record t : Type := mk {
  _id : ObjectId;
  name : string;
  image : option string;
  books : list BookRef.t
}.
End Author.

(** An author whose [books.bookId] paths were populated: every reference
    is replaced by the book it names, or by [null]. *)
Module PopulatedAuthor.
Record t : Type := mk {
  _id : ObjectId;
  name : string;
  image : option string;
  books : list (option Book.t)
}.
End PopulatedAuthor.

Module Category.
Record t : Type := mk {
  _id : ObjectId;
  title : string;
  books : list ObjectId
}.
End Category.

Module Cart.
Record t : Type := mk {
  _id : ObjectId;
  userId : ObjectId;
  items : list LineItem.t
}.
End Cart.

Module Favorites.
Record t : Type := mk {
  _id : ObjectId;
  userId : ObjectId;
  books : list LineItem.t
}.
End Favorites.

Module Order.
Record t : Type := mk {
  _id : ObjectId;
  userId : ObjectId;
  books : list LineItem.t
}.
End Order.

(** The interface the generic Mongoose calls need: a document has an
    [_id]. *)
Class Document (A : Type) : Type := docId : A -> ObjectId.

#[export] Instance Book_Document : Document Book.t := Book._id.
#[export] Instance Author_Document : Document Author.t := Author._id.
#[export] Instance Category_Document : Document Category.t := Category._id.
#[export] Instance Cart_Document : Document Cart.t := Cart._id.
#[export] Instance Favorites_Document : Document Favorites.t := Favorites._id.
#[export] Instance Order_Document : Document Order.t := Order._id.

Module Model.
Section Generic.
Context {A : Type} `{Document A}.

(** [Model.findOne(cond)]: the first document in natural order. *)
Definition findOne (cond : A -> bool) (coll : list A) : option A :=
  List.find cond coll.

(** [Model.find(cond)] *)
Definition find (cond : A -> bool) (coll : list A) : list A :=
  List.filter cond coll.

Definition hasId (id : ObjectId) (d : A) : bool := Nat.eqb (docId d) id.

(** [Model.findById(id)] *)
Definition findById (id : ObjectId) (coll : list A) : option A :=
  findOne (hasId id) coll.

(** [doc.save()] of a document that is in the collection: the stored
    copy is replaced.  Saving a new document appends it. *)
Definition replace (d : A) (coll : list A) : list A :=
  List.map (fun x => if hasId (docId d) x then d else x) coll.

Definition save (d : A) (coll : list A) : list A :=
  match findById (docId d) coll with
  | Some _ => replace d coll
  | None => coll ++ [d]
  end.

(** [Model.findByIdAndDelete(id)] *)
Definition deleteById (id : ObjectId) (coll : list A) : list A :=
  List.filter (fun x => negb (hasId id x)) coll.

(** [Model.updateMany(cond, update)] *)
Definition updateMany (cond : A -> bool) (update : A -> A) (coll : list A) : list A :=
  List.map (fun x => if cond x then update x else x) coll.
End Generic.
End Model.

(** ** The storage bucket *)

(** An uploaded file as multer hands it over. *)
Record File : Type := mkFile {
  originalname : string;
  mimetype : string;
  buffer : string
}.

Record Blob : Type := mkBlob {
  contentType : string;
  content : string
}.

(** ** Errors, responses and the world *)

Inductive JsError : Type :=
| TypeError (msg : string)
| StorageError (code : nat) (key : string)
| MongoError (msg : string)
| AppError (msg : string) (statusCode : nat).

Definition errorToString (e : JsError) : string :=
  match e with
  | TypeError msg => "TypeError: " ++ msg
  | StorageError _ key => "Error: No such object: " ++ key
  | MongoError msg => "MongoError: " ++ msg
  | AppError msg _ => "Error: " ++ msg
  end.

Inductive Body : Type :=
| ErrorBody (error : string)
| MessageBody (message : string)
| BookBody (book : BookObject.t)
| CreatedBody (book : BookObject.t) (author : string)
| PageBody (booksDataWithoutSourcePath : list BookObject.t)
           (totalPages : option Z) (currentPage : Z)
| BooksBody (books : list BookObject.t)
| AuthorBody (author : option Author.t)
| PopulatedBody (author : option PopulatedAuthor.t)
| AuthorsBody (authors : list Author.t).

(** What a handler does with [res] and [next]: [res.status(s).json(b)]
    or [next(e)]. *)
Inductive Response : Type :=
| Json (status : nat) (body : Body)
| Next (e : JsError).

(** The writes a handler performs, in the order it performs them. *)
Inductive Effect : Type :=
| BlobWritten (key : string)
| BlobDeleted (key : string)
| BookSaved (b : Book.t)
| BookDeleted (id : ObjectId)
| AuthorSaved (a : Author.t)
| AuthorDeleted (id : ObjectId)
| CategorySaved (c : Category.t)
| CategoryPushed (id : ObjectId) (bookId : ObjectId)
| AuthorPushed (id : ObjectId) (bookId : ObjectId)
| CartsPulled (bookId : ObjectId)
| FavoritesPulled (bookId : ObjectId)
| OrdersPulled (bookId : ObjectId).

Record World : Type := mkWorld {
  books : list Book.t;
  authors : list Author.t;
  categories : list Category.t;
  carts : list Cart.t;
  favorites : list Favorites.t;
  orders : list Order.t;
  bucket : gmap string Blob;
  nextId : ObjectId;
  clock : nat;
  effects : list Effect
}.

Definition setBooks (f : list Book.t -> list Book.t) (w : World) : World :=
  mkWorld (f (books w)) (authors w) (categories w) (carts w) (favorites w)
          (orders w) (bucket w) (nextId w) (clock w) (effects w).
Definition setAuthors (f : list Author.t -> list Author.t) (w : World) : World :=
  mkWorld (books w) (f (authors w)) (categories w) (carts w) (favorites w)
          (orders w) (bucket w) (nextId w) (clock w) (effects w).
Definition setCategories (f : list Category.t -> list Category.t) (w : World) : World :=
  mkWorld (books w) (authors w) (f (categories w)) (carts w) (favorites w)
          (orders w) (bucket w) (nextId w) (clock w) (effects w).
Definition setCarts (f : list Cart.t -> list Cart.t) (w : World) : World :=
  mkWorld (books w) (authors w) (categories w) (f (carts w)) (favorites w)
          (orders w) (bucket w) (nextId w) (clock w) (effects w).
Definition setFavorites (f : list Favorites.t -> list Favorites.t) (w : World) : World :=
  mkWorld (books w) (authors w) (categories w) (carts w) (f (favorites w))
          (orders w) (bucket w) (nextId w) (clock w) (effects w).
Definition setOrders (f : list Order.t -> list Order.t) (w : World) : World :=
  mkWorld (books w) (authors w) (categories w) (carts w) (favorites w)
          (f (orders w)) (bucket w) (nextId w) (clock w) (effects w).
Definition setBucket (f : gmap string Blob -> gmap string Blob) (w : World) : World :=
  mkWorld (books w) (authors w) (categories w) (carts w) (favorites w)
          (orders w) (f (bucket w)) (nextId w) (clock w) (effects w).
Definition tick (w : World) : World :=
  mkWorld (books w) (authors w) (categories w) (carts w) (favorites w)
          (orders w) (bucket w) (S (nextId w)) (S (clock w)) (effects w).
Definition logEffect (e : Effect) (w : World) : World :=
  mkWorld (books w) (authors w) (categories w) (carts w) (favorites w)
          (orders w) (bucket w) (nextId w) (clock w) (effects w ++ [e]).

(** ** Handler bodies

    A statement of an [async] handler either completes normally, leaves
    the handler through [return res...], or throws (a rejected [await]
    throws at the [await]). *)

Inductive Completion (A : Type) : Type :=
| Normal (a : A)
| Returned (r : Response)
| Thrown (e : JsError).
Arguments Normal {A} a.
Arguments Returned {A} r.
Arguments Thrown {A} e.

Definition Action (A : Type) : Type := World -> Completion A * World.

Definition pure {A} (a : A) : Action A := fun w => (Normal a, w).

Definition andThen {A B} (m : Action A) (k : A -> Action B) : Action B :=
  fun w =>
    match m w with
    | (Normal a, w') => k a w'
    | (Returned r, w') => (Returned r, w')
    | (Thrown e, w') => (Thrown e, w')
    end.

Definition throw {A} (e : JsError) : Action A := fun w => (Thrown e, w).
Definition respond {A} (r : Response) : Action A := fun w => (Returned r, w).
Definition read {A} (f : World -> A) : Action A := fun w => (Normal (f w), w).
Definition write (e : Effect) (f : World -> World) : Action unit :=
  fun w => (Normal tt, logEffect e (f w)).

Notation "'let*' x ':=' m 'in' k" := (andThen m (fun x => k))
  (at level 10, x name, m at level 100, k at level 200).
Notation "'await' m 'in' k" := (andThen m (fun _ => k))
  (at level 10, m at level 100, k at level 200).

(** [try { body } catch (error) { next(handler(error)) }] *)
Definition tryCatch (body : Action Response) (onError : JsError -> JsError)
  : World -> Response * World :=
  fun w =>
    match body w with
    | (Normal r, w') => (r, w')
    | (Returned r, w') => (r, w')
    | (Thrown e, w') => (Next (onError e), w')
    end.

(** ** Values shared by the handlers *)

Definition toObject (b : Book.t) : BookObject.t :=
  BookObject.mk (Book._id b) (Book.title b) (Book.description b) (Book.price b)
    (Book.discountPercentage b) (Book.originalPrice b) (Book.discountedPrice b)
    (Book.category b) (Book.author b) (Some (Book.sourcePath b))
    (Book.coverImage b) (Book.samplePdf b) (Book.createdAt b).

(** [const { sourcePath, ...rest } = obj] *)
Definition withoutSourcePath (o : BookObject.t) : BookObject.t :=
  BookObject.mk (BookObject._id o) (BookObject.title o) (BookObject.description o)
    (BookObject.price o) (BookObject.discountPercentage o)
    (BookObject.originalPrice o) (BookObject.discountedPrice o)
    (BookObject.category o) (BookObject.author o) None
    (BookObject.coverImage o) (BookObject.samplePdf o) (BookObject.createdAt o).

(** [url.split("/").pop().split("?")[0].trim()] *)
Definition fileNameOfUrl (url : string) : string :=
  JsString.trim
    (JsString.first (JsString.split "?" (JsString.pop (JsString.split "/" url)))).

(** The object [bucket.file(`${folder}/${name}`)] names. *)
Definition objectKey (folder name : string) : string := folder ++ "/" ++ name.

(** [req.files]: multer's object of arrays, with a key for every field
    that came with at least one file. *)
Record Files : Type := mkFiles {
  file : option (list File);
  cover : option (list File);
  sample : option (list File)
}.

(** [arr[0]] where [arr] may be [undefined]. *)
Definition index0 (arr : option (list File)) : Action (option File) :=
  match arr with
  | None => throw (TypeError "Cannot read properties of undefined (reading '0')")
  | Some l => pure (List.head l)
  end.

(** [await bucket.file(key).delete()] *)
Definition deleteObject (key : string) : Action unit :=
  fun w =>
    match bucket w !! key with
    | Some _ => write (BlobDeleted key) (setBucket (delete key)) w
    | None => throw (StorageError 404 key) w
    end.

(** [createWriteStream] followed by [end(buffer)] and the [finish]
    event. *)
Definition writeObject (key : string) (f : File) : Action unit :=
  write (BlobWritten key)
        (setBucket (insert key (mkBlob (mimetype f) (buffer f)))).

(** [new Model(...)]: a fresh [_id], and the time of creation. *)
Definition newDocument : Action (ObjectId * nat) :=
  fun w => (Normal (nextId w, clock w), tick w).

(** A promise that was created but not yet awaited: its rejection is a
    value until [Promise.all] is awaited. *)
Definition settle {A} (m : Action A) : Action (JsError + A) :=
  fun w =>
    match m w with
    | (Normal a, w') => (Normal (inr a), w')
    | (Returned r, w') => (Returned r, w')
    | (Thrown e, w') => (Normal (inl e), w')
    end.

(** [await Promise.all(promises)] *)
Fixpoint awaitAll {A} (settled : list (JsError + A)) : Action (list A) :=
  match settled with
  | [] => pure []
  | inl e :: _ => throw e
  | inr a :: rest => let* xs := awaitAll rest in pure (a :: xs)
  end.

(** ** Sorting and paging of a query *)

Section Sorting.
Context {A : Type} (le : A -> A -> bool).

Fixpoint insertSorted (x : A) (l : list A) : list A :=
  match l with
  | [] => [x]
  | y :: l' => if le x y then x :: l else y :: insertSorted x l'
  end.

Definition sortWith (l : list A) : list A := List.fold_right insertSorted [] l.
End Sorting.

Inductive SortKey : Type := createdAtKey | discountedPriceKey.

(** The [sort] object: empty, or one key with [1] or [-1]. *)
Definition SortSpec : Type := option (SortKey * bool).

Definition keyLeb (k : SortKey) (a b : Book.t) : bool :=
  match k with
  | createdAtKey => (Book.createdAt a <=? Book.createdAt b)%nat
  | discountedPriceKey => JsNum.leb (Book.discountedPrice a) (Book.discountedPrice b)
  end.

Definition applySort (sort : SortSpec) (l : list Book.t) : list Book.t :=
  match sort with
  | None => l
  | Some (k, true) => sortWith (keyLeb k) l
  | Some (k, false) => sortWith (fun a b => keyLeb k b a) l
  end.

(** [.limit(n)]: [0] is no limit, a negative limit is its absolute
    value. *)
Definition applyLimit (n : Z) (l : list Book.t) : list Book.t :=
  if (n =? 0)%Z then l else List.firstn (Z.to_nat (Z.abs n)) l.

(** [Math.ceil(a / b)]; not a finite number when [b] is [0]. *)
Definition ceilDiv (a b : Z) : option Z :=
  if (b =? 0)%Z then None else Some (- ((- a) / b))%Z.

(** ** The book handlers *)

(** [req.query] of [getBooks].  A price bound is a present, non-empty
    parameter read by [Number]; [page] and [limit] are integers. *)
Record BooksQuery : Type := mkQuery {
  q_author : option string;
  q_category : option string;
  q_minPrice : option Num;
  q_maxPrice : option Num;
  q_search : option string;
  q_sortBy : option string;
  q_page : option Z;
  q_limit : option Z
}.

(** The [filter] object handed to [Book.find]. *)
Record BookFilter : Type := mkFilter {
  f_author : option string;
  f_category : option string;
  f_discountedPrice : option (option Num * option Num);
  f_title : option string;
  f_discountPercentage : option Num
}.

(** [req.body] of [createBook]. *)
Record BookFields : Type := mkBookFields {
  r_title : string;
  r_description : string;
  r_price : option Num;
  r_category : string;
  r_authorName : string;
  r_discountPercentage : option Num
}.

(** [req.body] of [updateBookById]: [authorName] and any subset of the
    fields of a book.  [_id] is not among them: whether the [_id] of a
    loaded document can be reassigned, and which document [save] then
    writes, is decided by Mongoose, not by the controllers. *)
Record BookUpdate : Type := mkBookUpdate {
  u_title : option string;
  u_description : option string;
  u_price : option Num;
  u_category : option string;
  u_authorName : option string;
  u_author : option string;
  u_discountPercentage : option Num;
  u_sourcePath : option string;
  u_coverImage : option string;
  u_samplePdf : option string;
  u_originalPrice : option Num;
  u_discountedPrice : option Num;
  u_createdAt : option nat
}.

(** [req.body] of [updateAuthor]. *)
Record AuthorUpdate : Type := mkAuthorUpdate {
  a_name : option string;
  a_image : option string
}.

(** ** The write streams of [createBook]

    [createBook] opens and ends three write streams (lines 153-180) and
    listens to the [finish] event of the first one only (line 182).
    Nothing waits for the streams of the cover and of the sample: each
    of them finishes when the storage service is done with it, which
    may be before the first stream finishes, between two steps of its
    listener, or after the answer was sent. *)
Inductive Moment : Type :=
| BeforeListener
| BeforeSave
| BeforeCategoryPush
| BeforeAuthorPush
| BeforeAnswer
| AfterAnswer.

Definition Moment_eqb (m n : Moment) : bool :=
  match m, n with
  | BeforeListener, BeforeListener
  | BeforeSave, BeforeSave
  | BeforeCategoryPush, BeforeCategoryPush
  | BeforeAuthorPush, BeforeAuthorPush
  | BeforeAnswer, BeforeAnswer
  | AfterAnswer, AfterAnswer => true
  | _, _ => false
  end.

(** When the two streams finish, and which one first when they finish
    at the same moment. *)
Record Schedule : Type := mkSchedule {
  coverFinishes : Moment;
  sampleFinishes : Moment;
  sampleFirst : bool
}.

(** The two streams finish in the order they were ended, while the
    listener gets the signed URLs. *)
Definition inOrder : Schedule := mkSchedule BeforeSave BeforeSave false.

(** The [finish] event of a write stream: the object is in the bucket. *)
Definition streamFinished (key : string) (f : File) (w : World) : World :=
  logEffect (BlobWritten key)
    (setBucket (insert key (mkBlob (mimetype f) (buffer f))) w).

(** The [finish] events that a schedule puts at a moment. *)
Definition finishedAt (s : Schedule) (m : Moment)
           (coverKey : string) (coverFile : File)
           (sampleKey : string) (sampleFile : File) (w : World) : World :=
  let coverDone w :=
    if Moment_eqb (coverFinishes s) m then streamFinished coverKey coverFile w else w in
  let sampleDone w :=
    if Moment_eqb (sampleFinishes s) m then streamFinished sampleKey sampleFile w else w in
  if sampleFirst s then coverDone (sampleDone w) else sampleDone (coverDone w).

Section Controllers.

(** The storage service's answer to [file.getSignedUrl(...)] for the
    object stored under a key. *)
Variable getSignedUrl : string -> string.

(** [{ $regex: pattern, $options: "i" }] against a title. *)
Variable regexTest : string -> string -> bool.

Definition optTest {A} (cond : option A) (p : A -> bool) : bool :=
  match cond with
  | Some c => p c
  | None => true
  end.

Definition matchesFilter (f : BookFilter) (b : Book.t) : bool :=
  optTest (f_author f) (fun a => String.eqb (Book.author b) a)
  && optTest (f_category f) (fun c => String.eqb (Book.category b) c)
  && optTest (f_discountedPrice f) (fun r =>
       optTest (fst r) (fun lo => JsNum.gte (Book.discountedPrice b) lo)
       && optTest (snd r) (fun hi => JsNum.lte (Book.discountedPrice b) hi))
  && optTest (f_title f) (fun pat => regexTest pat (Book.title b))
  && optTest (f_discountPercentage f) (fun z => JsNum.gt (Book.discountPercentage b) z).

Definition ifTruthy (s : option string) : option string :=
  if JsString.truthyOpt s then s else None.

(** Lines 23-33: the filter before the [switch]. *)
Definition baseFilter (q : BooksQuery) : BookFilter :=
  mkFilter (ifTruthy (q_author q)) (ifTruthy (q_category q))
    (match q_minPrice q, q_maxPrice q with
     | None, None => None
     | lo, hi => Some (lo, hi)
     end)
    (ifTruthy (q_search q))
    None.

Definition onSale (f : BookFilter) : BookFilter :=
  mkFilter (f_author f) (f_category f) (f_discountedPrice f) (f_title f)
           (Some JsNum.zero).

(** Lines 34-54: the [switch] on [sortBy]. *)
Definition sortCase (sortBy : string) (f : BookFilter) : BookFilter * SortSpec :=
  if String.eqb sortBy "oldest" then (f, Some (createdAtKey, true))
  else if String.eqb sortBy "newest" then (f, Some (createdAtKey, false))
  else if String.eqb sortBy "on-sale" then (onSale f, Some (discountedPriceKey, true))
  else if String.eqb sortBy "price-low-to-high" then (f, Some (discountedPriceKey, true))
  else if String.eqb sortBy "price-high-to-low" then (f, Some (discountedPriceKey, false))
  else (f, None).

Definition getBooks (q : BooksQuery) : World -> Response * World :=
  tryCatch
    (let sortBy := default "default" (q_sortBy q) in
     let page := default 1%Z (q_page q) in
     let limit := default 12%Z (q_limit q) in
     let '(filter, sort) := sortCase sortBy (baseFilter q) in
     let* totalBooks := read (fun w => length (Model.find (matchesFilter filter) (books w))) in
     let totalPages := ceilDiv (Z.of_nat totalBooks) limit in
     let skip := ((page - 1) * limit)%Z in
     let* found :=
       (if (skip <? 0)%Z then throw (MongoError "Skip value must be non-negative")
        else read (fun w =>
               applyLimit limit
                 (List.skipn (Z.to_nat skip)
                    (applySort sort (Model.find (matchesFilter filter) (books w)))))) in
     let booksDataWithoutSourcePath :=
       List.map (fun book => withoutSourcePath (toObject book)) found in
     pure (Json 200 (PageBody booksDataWithoutSourcePath totalPages page)))
    (fun error => error).

(** Lines 93-103: the two loops with their [break]s. *)
Fixpoint scanItems (id : ObjectId) (items : list LineItem.t) : bool :=
  match items with
  | [] => false
  | bookItem :: rest =>
      if Nat.eqb (LineItem.bookId bookItem) id then true else scanItems id rest
  end.

Fixpoint scanOrders (id : ObjectId) (os : list Order.t) : bool :=
  match os with
  | [] => false
  | order :: rest =>
      if scanItems id (Order.books order) then true else scanOrders id rest
  end.

(** [req.user] is the authenticated user's id, when there is one. *)
Definition getBookById (id : ObjectId) (user : option ObjectId)
  : World -> Response * World :=
  tryCatch
    (let* book := read (fun w => Model.findById id (books w)) in
     match book with
     | None => respond (Json 404 (ErrorBody "Book not found"))
     | Some book =>
         match user with
         | None => pure (Json 200 (BookBody (withoutSourcePath (toObject book))))
         | Some userId =>
             let* orders := read (fun w =>
               Model.find (fun o => Nat.eqb (Order.userId o) userId) (orders w)) in
             let hasOrderedBook := scanOrders id orders in
             if hasOrderedBook
             then pure (Json 200 (BookBody (toObject book)))
             else pure (Json 200 (BookBody (withoutSourcePath (toObject book))))
         end
     end)
    (fun error => error).

(** An upload that is waited for (lines 477-495 of [createAuthor], and
    the books stream of [createBook]): the sanitized name, the object,
    the stream, [end(buffer)] and the [finish] event. *)
Definition uploadAs (folder : string) (f : File) : Action string :=
  let key := objectKey folder (JsString.replaceSpaces (originalname f)) in
  await writeObject key f in
  pure key.

(** Lines 133-151: the three files and the two documents the handler
    looks up before it opens a stream. *)
Definition createBookChecks (body : BookFields) (files : Files)
  : Action (File * File * File * Author.t * Category.t) :=
  let* bookFile := index0 (file files) in
  let* coverImageFile := index0 (cover files) in
  let* samplePdfFile := index0 (sample files) in
  match bookFile, coverImageFile, samplePdfFile with
  | Some bookFile, Some coverImageFile, Some samplePdfFile =>
      let* author := read (fun w =>
        Model.findOne (fun a => String.eqb (Author.name a) (r_authorName body))
                      (authors w)) in
      match author with
      | None => respond (Json 404 (ErrorBody "Author not found"))
      | Some author =>
          let* categoryDoc := read (fun w =>
            Model.findOne (fun c => String.eqb (Category.title c) (r_category body))
                          (categories w)) in
          match categoryDoc with
          | None => respond (Json 404 (ErrorBody "Category not found"))
          | Some categoryDoc =>
              pure (bookFile, coverImageFile, samplePdfFile, author, categoryDoc)
          end
      end
  | _, _, _ =>
      respond (Json 400 (ErrorBody "All files (book, cover, sample) must be provided"))
  end.

(** Lines 130-131 and 153-224: the three streams and the listener of
    the [finish] event of the books stream, which gets the signed URLs,
    saves the record, pushes its id on the two lists and answers.  The
    listener runs after the handler returned, outside its [try]; none of
    its steps fails in this model.  The streams of the cover and of the
    sample finish when [s] says. *)
Definition createBookStreams (s : Schedule) (body : BookFields)
           (bookFile coverImageFile samplePdfFile : File)
           (author : Author.t) (categoryDoc : Category.t)
  : World -> Response * World :=
  fun w =>
    let price := JsNum.ofOption (r_price body) in
    let originalPrice := price in
    let discountedPrice :=
      JsNum.sub price
        (JsNum.mul price
           (JsNum.div (JsNum.ofOption (r_discountPercentage body)) JsNum.hundred)) in
    let firebaseBookFile :=
      objectKey "books" (JsString.replaceSpaces (originalname bookFile)) in
    let firebaseCoverFile :=
      objectKey "covers" (JsString.replaceSpaces (originalname coverImageFile)) in
    let firebaseSampleFile :=
      objectKey "samples" (JsString.replaceSpaces (originalname samplePdfFile)) in
    let others m :=
      finishedAt s m firebaseCoverFile coverImageFile firebaseSampleFile samplePdfFile in
    let w := others BeforeListener w in
    let w := streamFinished firebaseBookFile bookFile w in
    let w := others BeforeSave w in
    let bookUrl := getSignedUrl firebaseBookFile in
    let coverUrl := getSignedUrl firebaseCoverFile in
    let sampleUrl := getSignedUrl firebaseSampleFile in
    let newBook :=
      Book.mk (nextId w) (r_title body) (r_description body)
        originalPrice
        (JsNum.or (JsNum.ofOption (r_discountPercentage body)) JsNum.zero)
        originalPrice discountedPrice
        (r_category body) (Author.name author)
        bookUrl coverUrl sampleUrl (clock w) in
    let w := logEffect (BookSaved newBook) (setBooks (Model.save newBook) (tick w)) in
    let w := others BeforeCategoryPush w in
    let w :=
      logEffect (CategoryPushed (Category._id categoryDoc) (Book._id newBook))
        (setCategories
           (Model.updateMany (Model.hasId (Category._id categoryDoc))
              (fun c => Category.mk (Category._id c) (Category.title c)
                          (Category.books c ++ [Book._id newBook])))
           w) in
    let w := others BeforeAuthorPush w in
    let w :=
      logEffect (AuthorPushed (Author._id author) (Book._id newBook))
        (setAuthors
           (Model.updateMany (Model.hasId (Author._id author))
              (fun a => Author.mk (Author._id a) (Author.name a) (Author.image a)
                          (Author.books a ++ [BookRef.mk (Book._id newBook)])))
           w) in
    let w := others BeforeAnswer w in
    (Json 201 (CreatedBody (toObject newBook) (Author.name author)), w).

(** [createBook] under a schedule of the two streams it does not wait
    for: the [try] block with its [catch] (line 230), then the
    listener. *)
Definition createBookWhen (s : Schedule) (body : BookFields) (files : Files)
  : World -> Response * World :=
  fun w =>
    match createBookChecks body files w with
    | (Normal (bookFile, coverImageFile, samplePdfFile, author, categoryDoc), w') =>
        createBookStreams s body bookFile coverImageFile samplePdfFile
                          author categoryDoc w'
    | (Returned r, w') => (r, w')
    | (Thrown error, w') => (Next error, w')
    end.

(** [createBook] when the two streams finish in the order they were
    ended: the world it leaves has the three objects. *)
Definition createBook (body : BookFields) (files : Files)
  : World -> Response * World :=
  createBookWhen inOrder body files.

(** [uploadFileToFirebase(file, folder)]; [file] is [arr[0]], which is
    [undefined] for an empty array. *)
Definition uploadFileToFirebase (f : option File) (folder : string) : Action string :=
  match f with
  | None => throw (TypeError "Cannot read properties of undefined (reading 'originalname')")
  | Some f =>
      let sanitizedFilename := JsString.trim (JsString.replaceSpaces (originalname f)) in
      let key := objectKey folder sanitizedFilename in
      await writeObject key f in
      pure (getSignedUrl key)
  end.

(** One of the three [if (req.files[slot] && book.slot)] blocks of
    [updateBookById]: the delete promise and the upload promise it
    creates. *)
Definition replaceSlot (folder : string) (slot : option (list File)) (previous : string)
  : Action (option ((JsError + unit) * (JsError + string))) :=
  match slot with
  | Some arr =>
      if JsString.truthy previous then
        let* deleted := settle (deleteObject (objectKey folder (fileNameOfUrl previous))) in
        let* uploaded := settle (uploadFileToFirebase (List.head arr) folder) in
        pure (Some (deleted, uploaded))
      else pure None
  | None => pure None
  end.

Definition promisesOf {A B} (slots : list (option (A * B))) : list A * list B :=
  (List.map fst (omap id slots), List.map snd (omap id slots)).

(** The url an upload promise stored in [req.body], when the slot had
    one. *)
Definition uploadedUrl (slot : option ((JsError + unit) * (JsError + string)))
           (fromBody : option string) : option string :=
  match slot with
  | Some (_, inr url) => Some url
  | _ => fromBody
  end.

(** [{ ...req.body, originalPrice: originalPrice, discountedPrice:
    discountedPrice }]: the two later keys replace the body's own. *)
Definition withPrices (body : BookUpdate) (originalPrice discountedPrice : Num)
  : BookUpdate :=
  mkBookUpdate (u_title body) (u_description body) (u_price body) (u_category body)
    (u_authorName body) (u_author body) (u_discountPercentage body)
    (u_sourcePath body) (u_coverImage body) (u_samplePdf body)
    (Some originalPrice) (Some discountedPrice) (u_createdAt body).

(** [Object.assign(book, source)]: every key of [source] that is a
    field of a book is set on the document. *)
Definition objectAssign (book : Book.t) (source : BookUpdate) : Book.t :=
  Book.mk (Book._id book)
    (default (Book.title book) (u_title source))
    (default (Book.description book) (u_description source))
    (default (Book.price book) (u_price source))
    (default (Book.discountPercentage book) (u_discountPercentage source))
    (default (Book.originalPrice book) (u_originalPrice source))
    (default (Book.discountedPrice book) (u_discountedPrice source))
    (default (Book.category book) (u_category source))
    (default (Book.author book) (u_author source))
    (default (Book.sourcePath book) (u_sourcePath source))
    (default (Book.coverImage book) (u_coverImage source))
    (default (Book.samplePdf book) (u_samplePdf source))
    (default (Book.createdAt book) (u_createdAt source)).

(** [Object.assign(book, { ...req.body, originalPrice, discountedPrice })] *)
Definition assign (book : Book.t) (body : BookUpdate)
           (originalPrice discountedPrice : Num) : Book.t :=
  objectAssign book (withPrices body originalPrice discountedPrice).

(** [req.body.author = author.name] *)
Definition setAuthorField (v : string) (b : BookUpdate) : BookUpdate :=
  mkBookUpdate (u_title b) (u_description b) (u_price b) (u_category b)
    (u_authorName b) (Some v) (u_discountPercentage b)
    (u_sourcePath b) (u_coverImage b) (u_samplePdf b)
    (u_originalPrice b) (u_discountedPrice b) (u_createdAt b).

(** [req.body.sourcePath = url] and its two copies. *)
Definition setUrls (src cov sam : option string) (b : BookUpdate) : BookUpdate :=
  mkBookUpdate (u_title b) (u_description b) (u_price b) (u_category b)
    (u_authorName b) (u_author b) (u_discountPercentage b) src cov sam
    (u_originalPrice b) (u_discountedPrice b) (u_createdAt b).

Definition updateBookById (id : ObjectId) (body : BookUpdate) (files : option Files)
  : World -> Response * World :=
  tryCatch
    (let* book := read (fun w => Model.findById id (books w)) in
     match book with
     | None => respond (Json 404 (ErrorBody "Book not found"))
     | Some book =>
         let* body :=
           (if JsString.truthyOpt (u_authorName body) then
              let* author := read (fun w =>
                Model.findOne
                  (fun a => String.eqb (Author.name a) (default "" (u_authorName body)))
                  (authors w)) in
              match author with
              | None => respond (Json 404 (ErrorBody "Author not found"))
              | Some author => pure (setAuthorField (Author.name author) body)
              end
            else pure body) in
         let originalPrice :=
           match u_price body with
           | Some p => p
           | None => Book.price book
           end in
         let discountedPrice :=
           JsNum.sub originalPrice
             (JsNum.div
                (JsNum.mul originalPrice
                   (JsNum.or (JsNum.ofOption (u_discountPercentage body))
                             (Book.discountPercentage book)))
                JsNum.hundred) in
         let* body :=
           match files with
           | Some files =>
               let* s1 := replaceSlot "books" (file files) (Book.sourcePath book) in
               let* s2 := replaceSlot "covers" (cover files) (Book.coverImage book) in
               let* s3 := replaceSlot "samples" (sample files) (Book.samplePdf book) in
               let '(deletePromises, uploadPromises) := promisesOf [s1; s2; s3] in
               await awaitAll deletePromises in
               await awaitAll uploadPromises in
               pure (setUrls (uploadedUrl s1 (u_sourcePath body))
                             (uploadedUrl s2 (u_coverImage body))
                             (uploadedUrl s3 (u_samplePdf body)) body)
           | None => pure body
           end in
         let book' := assign book body originalPrice discountedPrice in
         await write (BookSaved book') (setBooks (Model.save book')) in
         pure (Json 200 (BookBody (toObject book')))
     end)
    (fun error => AppError ("Failed to update book: " ++ errorToString error) 500).

Definition pullItems (id : ObjectId) (items : list LineItem.t) : list LineItem.t :=
  List.filter (fun i => negb (Nat.eqb (LineItem.bookId i) id)) items.

Definition hasItem (id : ObjectId) (items : list LineItem.t) : bool :=
  List.existsb (fun i => Nat.eqb (LineItem.bookId i) id) items.

(** The three deletions of lines 401-423 (and of 584-608). *)
Definition deleteBlobs (b : Book.t) : Action unit :=
  await deleteObject (objectKey "books" (fileNameOfUrl (Book.sourcePath b))) in
  await deleteObject (objectKey "covers" (fileNameOfUrl (Book.coverImage b))) in
  deleteObject (objectKey "samples" (fileNameOfUrl (Book.samplePdf b))).

Definition deleteBookById (id : ObjectId) : World -> Response * World :=
  tryCatch
    (let* book := read (fun w => Model.findById id (books w)) in
     match book with
     | None => respond (Json 404 (ErrorBody "Book not found"))
     | Some book =>
         let* category := read (fun w =>
           Model.findOne (fun c => String.eqb (Category.title c) (Book.category book))
                         (categories w)) in
         await match category with
               | Some category =>
                   let category' :=
                     Category.mk (Category._id category) (Category.title category)
                       (List.filter (fun b => negb (Nat.eqb b (Book._id book)))
                                    (Category.books category)) in
                   write (CategorySaved category') (setCategories (Model.save category'))
               | None => pure tt
               end in
         let* author := read (fun w =>
           Model.findOne (fun a => String.eqb (Author.name a) (Book.author book))
                         (authors w)) in
         await match author with
               | Some author =>
                   let author' :=
                     Author.mk (Author._id author) (Author.name author) (Author.image author)
                       (List.filter
                          (fun b => negb (Nat.eqb (BookRef.bookId b) (Book._id book)))
                          (Author.books author)) in
                   write (AuthorSaved author') (setAuthors (Model.save author'))
               | None => pure tt
               end in
         await write (CartsPulled (Book._id book))
                 (setCarts (Model.updateMany
                    (fun c => hasItem (Book._id book) (Cart.items c))
                    (fun c => Cart.mk (Cart._id c) (Cart.userId c)
                                (pullItems (Book._id book) (Cart.items c))))) in
         await write (FavoritesPulled (Book._id book))
                 (setFavorites (Model.updateMany
                    (fun f => hasItem (Book._id book) (Favorites.books f))
                    (fun f => Favorites.mk (Favorites._id f) (Favorites.userId f)
                                (pullItems (Book._id book) (Favorites.books f))))) in
         await write (OrdersPulled (Book._id book))
                 (setOrders (Model.updateMany
                    (fun o => hasItem (Book._id book) (Order.books o))
                    (fun o => Order.mk (Order._id o) (Order.userId o)
                                (pullItems (Book._id book) (Order.books o))))) in
         await deleteBlobs book in
         await write (BookDeleted (Book._id book))
                 (setBooks (Model.deleteById (Book._id book))) in
         pure (Json 200 (MessageBody "Book and related data deleted"))
     end)
    (fun error => AppError ("Failed to delete book: " ++ errorToString error) 500).

Definition getAllBooks : World -> Response * World :=
  tryCatch
    (let* books := read books in
     pure (Json 200 (BooksBody (List.map toObject books))))
    (fun error => error).

(** [Book.find().select("-sourcePath")] *)
Definition getAllBookswithoutSource : World -> Response * World :=
  tryCatch
    (let* books := read books in
     pure (Json 200 (BooksBody (List.map (fun b => withoutSourcePath (toObject b)) books))))
    (fun error => error).

(** ** The author handlers *)

(** [for (const x of xs) { await body(x) }] *)
Fixpoint forEach {A} (xs : list A) (body : A -> Action unit) : Action unit :=
  match xs with
  | [] => pure tt
  | x :: rest => await body x in forEach rest body
  end.

Definition createAuthor (name : option string) (files : option Files)
  : World -> Response * World :=
  tryCatch
    (let* image :=
       match files with
       | None => throw (TypeError "Cannot read properties of undefined (reading 'file')")
       | Some files =>
           match file files with
           | Some arr => pure (List.head arr)
           | None => pure None
           end
       end in
     if negb (JsString.truthyOpt name)
     then respond (Json 400 (ErrorBody "Author name must be provided"))
     else
       let* imageUrl :=
         match image with
         | Some image =>
             let* firebaseImageFile := uploadAs "authors" image in
             pure (Some (getSignedUrl firebaseImageFile))
         | None => pure None
         end in
       let* fresh := newDocument in
       let newAuthor := Author.mk (fst fresh) (default "" name) imageUrl [] in
       await write (AuthorSaved newAuthor) (setAuthors (Model.save newAuthor)) in
       pure (Json 201 (AuthorBody (Some newAuthor))))
    (fun error => AppError ("Failed to create author: " ++ errorToString error) 500).

(** [author.findByIdAndUpdate(id, req.body, { new: true })] *)
Definition applyAuthorUpdate (body : AuthorUpdate) (a : Author.t) : Author.t :=
  Author.mk (Author._id a) (default (Author.name a) (a_name body))
    (match a_image body with
     | Some url => Some url
     | None => Author.image a
     end)
    (Author.books a).

Definition updateAuthor (id : ObjectId) (body : AuthorUpdate) (files : option Files)
  : World -> Response * World :=
  tryCatch
    (let* authorData := read (fun w => Model.findById id (authors w)) in
     match authorData with
     | None => respond (Json 404 (ErrorBody "Author not found"))
     | Some authorData =>
         let* body :=
           match files with
           | Some files =>
               match file files with
               | Some arr =>
                   match List.head arr with
                   | Some imageFile =>
                       await (if JsString.truthyOpt (Author.image authorData)
                              then deleteObject
                                     (objectKey "authors"
                                        (fileNameOfUrl (default "" (Author.image authorData))))
                              else pure tt) in
                       let* firebaseImageFile := uploadAs "authors" imageFile in
                       pure (mkAuthorUpdate (a_name body)
                               (Some (getSignedUrl firebaseImageFile)))
                   | None => pure body
                   end
               | None => pure body
               end
           | None => pure body
           end in
         await write (AuthorSaved (applyAuthorUpdate body authorData))
                 (setAuthors (Model.updateMany (Model.hasId id) (applyAuthorUpdate body))) in
         let* updatedAuthor := read (fun w => Model.findById id (authors w)) in
         pure (Json 200 (AuthorBody updatedAuthor))
     end)
    (fun error => AppError ("Failed to update author" ++ errorToString error) 500).

(** Lines 584-610: the body of the loop over the author's books. *)
Definition deleteOwned (b : Book.t) : Action unit :=
  await deleteBlobs b in
  write (BookDeleted (Book._id b)) (setBooks (Model.deleteById (Book._id b))).

Definition deleteAuthor (id : ObjectId) : World -> Response * World :=
  tryCatch
    (let* authorData := read (fun w => Model.findById id (authors w)) in
     match authorData with
     | None => respond (Json 404 (ErrorBody "Author not found"))
     | Some authorData =>
         let* books := read (fun w =>
           Model.find (fun b => String.eqb (Book.author b) (Author.name authorData))
                      (books w)) in
         await forEach books deleteOwned in
         let authorData' :=
           Author.mk (Author._id authorData) (Author.name authorData)
                     (Author.image authorData) [] in
         await write (AuthorSaved authorData') (setAuthors (Model.save authorData')) in
         await write (AuthorDeleted id) (setAuthors (Model.deleteById id)) in
         pure (Json 200 (MessageBody "Author and their books deleted successfully"))
     end)
    (fun error => AppError ("Failed to delete author and books: " ++ errorToString error) 500).

(** [.populate({ path: "books.bookId", model: "Book" })] *)
Definition populate (w : World) (a : Author.t) : PopulatedAuthor.t :=
  PopulatedAuthor.mk (Author._id a) (Author.name a) (Author.image a)
    (List.map (fun r => Model.findById (BookRef.bookId r) (books w)) (Author.books a)).

Definition getAuthorById (id : ObjectId) : World -> Response * World :=
  tryCatch
    (let* authorData := read (fun w =>
       option_map (populate w) (Model.findById id (authors w))) in
     pure (Json 200 (PopulatedBody authorData)))
    (fun error => AppError ("Failed to get author: " ++ errorToString error) 500).

Definition getAllAuthors : World -> Response * World :=
  tryCatch
    (let* getAllAuthors := read authors in
     pure (Json 200 (AuthorsBody getAllAuthors)))
    (fun error => AppError ("Failed to get authors" ++ errorToString error) 500).

End Controllers.

(** ** Notions of the specification *)

(** Pricing, as the specification words it:
    [salePrice = listPrice * (1 - discountPercent/100)]. *)
Definition specSalePrice (listPrice discountPercent : Num) : Num :=
  JsNum.mul listPrice
    (JsNum.sub (Fin 1) (JsNum.div discountPercent JsNum.hundred)).

(** A purchase: an order of the requester with a line item for the book. *)
Definition purchased (w : World) (user : option ObjectId) (id : ObjectId) : Prop :=
  exists u order item,
    user = Some u /\ In order (orders w) /\ Order.userId order = u /\
    In item (Order.books order) /\ LineItem.bookId item = id.

(** The objects a book's three slots name in the bucket. *)
Definition blobKeys (b : Book.t) : list string :=
  [ objectKey "books" (fileNameOfUrl (Book.sourcePath b));
    objectKey "covers" (fileNameOfUrl (Book.coverImage b));
    objectKey "samples" (fileNameOfUrl (Book.samplePdf b)) ].

Definition stored (w : World) (key : string) : Prop := is_Some (bucket w !! key).

(** The two denormalized relations: a book is in an author's list
    exactly when it carries the author's name, and in a category's list
    exactly when it carries the category's title. *)
Definition authorsSynced (w : World) : Prop :=
  forall a b, In a (authors w) -> In b (books w) ->
    (In (BookRef.mk (Book._id b)) (Author.books a) <-> Book.author b = Author.name a).

Definition categoriesSynced (w : World) : Prop :=
  forall c b, In c (categories w) -> In b (books w) ->
    (In (Book._id b) (Category.books c) <-> Book.category b = Category.title c).

Definition referencesSynced (w : World) : Prop :=
  authorsSynced w /\ categoriesSynced w.

(** What [getBooks] answers for a query, given the full list of the
    books the query selects, in the order the query asks for: the page
    [page] of that list, without [sourcePath]. *)
Definition pageOf (q : BooksQuery) (full : list Book.t) : list BookObject.t :=
  let page := default 1%Z (q_page q) in
  let limit := default 12%Z (q_limit q) in
  List.map (fun b => withoutSourcePath (toObject b))
    (applyLimit limit (List.skipn (Z.to_nat ((page - 1) * limit)) full)).

(** [getBooks] answers query [q] with a page of the books that satisfy
    [keep], ordered by [order]. *)
Definition answersWith (regexTest : string -> string -> bool)
           (q : BooksQuery) (w : World)
           (keep : Book.t -> bool) (order : Book.t -> Book.t -> Prop) : Prop :=
  exists full,
    Permutation full (List.filter keep (books w)) /\
    StronglySorted order full /\
    getBooks regexTest q w
    = (Json 200 (PageBody (pageOf q full)
                   (ceilDiv (Z.of_nat (length full)) (default 12%Z (q_limit q)))
                   (default 1%Z (q_page q))),
       w).

Definition salePriceAscending (a b : Book.t) : Prop :=
  JsNum.leb (Book.discountedPrice a) (Book.discountedPrice b) = true.

Definition salePriceDescending (a b : Book.t) : Prop :=
  JsNum.leb (Book.discountedPrice b) (Book.discountedPrice a) = true.

(** The world after [bucket.file(key).delete()] resolved. *)
Definition dropBlob (key : string) (w : World) : World :=
  logEffect (BlobDeleted key) (setBucket (delete key) w).

Definition dropBlobs (keys : list string) (w : World) : World :=
  List.fold_left (fun w key => dropBlob key w) keys w.

(** The world after [Book.findByIdAndDelete(b._id)]. *)
Definition dropBook (b : Book.t) (w : World) : World :=
  logEffect (BookDeleted (Book._id b)) (setBooks (Model.deleteById (Book._id b)) w).

(** Two worlds with the same documents: they differ at most in the
    bucket and in the log. *)
Definition sameDocuments (w w' : World) : Prop :=
  books w' = books w /\ authors w' = authors w /\ categories w' = categories w /\
  carts w' = carts w /\ favorites w' = favorites w /\ orders w' = orders w.

(** Lines 369-399 of [deleteBookById] as one step: the world after the
    book was taken out of its category's list, its author's list, and
    every cart, favorites list and order. *)
Definition pullFromCategory (book : Book.t) (w : World) : World :=
  match Model.findOne (fun c => String.eqb (Category.title c) (Book.category book))
                      (categories w) with
  | Some category =>
      let category' :=
        Category.mk (Category._id category) (Category.title category)
          (List.filter (fun b => negb (Nat.eqb b (Book._id book)))
                       (Category.books category)) in
      logEffect (CategorySaved category') (setCategories (Model.save category') w)
  | None => w
  end.

Definition pullFromAuthor (book : Book.t) (w : World) : World :=
  match Model.findOne (fun a => String.eqb (Author.name a) (Book.author book))
                      (authors w) with
  | Some author =>
      let author' :=
        Author.mk (Author._id author) (Author.name author) (Author.image author)
          (List.filter (fun b => negb (Nat.eqb (BookRef.bookId b) (Book._id book)))
                       (Author.books author)) in
      logEffect (AuthorSaved author') (setAuthors (Model.save author') w)
  | None => w
  end.

Definition pullFromLineItems (book : Book.t) (w : World) : World :=
  logEffect (OrdersPulled (Book._id book))
    (setOrders (Model.updateMany
       (fun o => hasItem (Book._id book) (Order.books o))
       (fun o => Order.mk (Order._id o) (Order.userId o)
                   (pullItems (Book._id book) (Order.books o))))
    (logEffect (FavoritesPulled (Book._id book))
      (setFavorites (Model.updateMany
         (fun f => hasItem (Book._id book) (Favorites.books f))
         (fun f => Favorites.mk (Favorites._id f) (Favorites.userId f)
                     (pullItems (Book._id book) (Favorites.books f))))
      (logEffect (CartsPulled (Book._id book))
        (setCarts (Model.updateMany
           (fun c => hasItem (Book._id book) (Cart.items c))
           (fun c => Cart.mk (Cart._id c) (Cart.userId c)
                       (pullItems (Book._id book) (Cart.items c))))
         w))))).

Definition pullReferences (book : Book.t) (w : World) : World :=
  pullFromLineItems book (pullFromAuthor book (pullFromCategory book w)).

(** The books [deleteAuthor] enumerates: those that carry the author's
    name. *)
Definition ownedBooks (a : Author.t) (w : World) : list Book.t :=
  Model.find (fun b => String.eqb (Book.author b) (Author.name a)) (books w).

(** The world after the loop of [deleteAuthor] went through [owned]
    without a rejection. *)
Definition dropOwned (owned : list Book.t) (w : World) : World :=
  List.fold_left (fun w b => dropBook b (dropBlobs (blobKeys b) w)) owned w.

(** The world after lines 614-618: the list is cleared and saved, the
    author is deleted. *)
Definition clearedAuthor (a : Author.t) : Author.t :=
  Author.mk (Author._id a) (Author.name a) (Author.image a) [].

Definition dropAuthor (a : Author.t) (w : World) : World :=
  logEffect (AuthorDeleted (Author._id a))
    (setAuthors (Model.deleteById (Author._id a))
       (logEffect (AuthorSaved (clearedAuthor a))
          (setAuthors (Model.save (clearedAuthor a)) w))).



(** [_id] is a key of the book collection. *)
Definition uniqueBookIds (w : World) : Prop :=
  NoDup (List.map Book._id (books w)).

(** What the two listings show. *)
Definition listedBooks (regexTest : string -> string -> bool) (q : BooksQuery)
           (w : World) : list BookObject.t :=
  match fst (getBooks regexTest q w) with
  | Json _ (PageBody items _ _) => items
  | _ => []
  end.

Definition listedAuthors (w : World) : list Author.t :=
  match fst (getAllAuthors w) with
  | Json _ (AuthorsBody items) => items
  | _ => []
  end.


(** A 4xx answer carrying [{ error }]. *)
Definition isValidationError (r : Response) : Prop :=
  match r with
  | Json status (ErrorBody _) => 400 <= status < 500
  | _ => False
  end.

(** ** A small catalog used by the examples *)

Module Sample.

Definition signer (key : string) : string :=
  "https://storage.example/v0/b/store/o/" ++ key ++ "?GoogleAccessId=svc&Expires=16447017600&Signature=abc".

Definition regex (pattern title : string) : bool :=
  match index 0 pattern title with
  | Some _ => true
  | None => false
  end.

Definition pdf (name : string) : File := mkFile name "application/pdf" "%PDF".
Definition png (name : string) : File := mkFile name "image/png" "PNG".

Definition blobOf (f : File) : Blob := mkBlob (mimetype f) (buffer f).

Definition ann : Author.t := Author.mk 1 "Ann" None [BookRef.mk 10].
Definition bob : Author.t := Author.mk 2 "Bob" None [].
Definition fiction : Category.t := Category.mk 3 "Fiction" [10].

Definition dune : Book.t :=
  Book.mk 10 "Dune" "A desert planet" (Fin 20) (Fin 50) (Fin 20) (Fin 10)
    "Fiction" "Ann"
    (signer "books/dune.pdf") (signer "covers/dune.png") (signer "samples/dune_sample.pdf")
    0.

Definition world : World :=
  mkWorld [dune] [ann; bob] [fiction]
    [Cart.mk 20 7 [LineItem.mk 10 1; LineItem.mk 99 2]]
    [Favorites.mk 21 7 [LineItem.mk 10 1]]
    [Order.mk 22 7 [LineItem.mk 10 1]; Order.mk 23 8 [LineItem.mk 99 1]]
    (<["books/dune.pdf" := blobOf (pdf "dune.pdf")]>
       (<["covers/dune.png" := blobOf (png "dune.png")]>
          (<["samples/dune_sample.pdf" := blobOf (pdf "dune_sample.pdf")]> ∅)))
    100 1 [].

(** The query scenario of the specification: A (price 10, no
    discount, created first) and B (price 20, discount 50, created
    second). *)
Definition bookA : Book.t :=
  Book.mk 31 "A" "" (Fin 10) (Fin 0) (Fin 10) (Fin 10) "Fiction" "Ann"
    (signer "books/a.pdf") (signer "covers/a.png") (signer "samples/a.pdf") 1.
Definition bookB : Book.t :=
  Book.mk 32 "B" "" (Fin 20) (Fin 50) (Fin 20) (Fin 10) "Fiction" "Ann"
    (signer "books/b.pdf") (signer "covers/b.png") (signer "samples/b.pdf") 2.

Definition shelf : World :=
  mkWorld [bookA; bookB] [ann] [fiction] [] [] [] ∅ 100 3 [].

Definition sortedBy (sortBy : string) : BooksQuery :=
  mkQuery None None None None None (Some sortBy) None None.



(** The sample catalog after the cover of Dune was lost from the
    bucket. *)
Definition coverLost : World := setBucket (delete "covers/dune.png") world.

Definition allFiles : Files :=
  mkFiles (Some [pdf "emma.pdf"]) (Some [png "emma.png"]) (Some [pdf "emma sample.pdf"]).

Definition emma (discount : option Num) : BookFields :=
  mkBookFields "Emma" "A novel" (Some (Fin 10)) "Fiction" "Ann" discount.

Definition discountOnly (d : Num) : BookUpdate :=
  mkBookUpdate None None None None None None (Some d) None None None None None None.

Definition authorOnly (name : string) : BookUpdate :=
  mkBookUpdate None None None None (Some name) None None None None None None None None.

End Sample.

(** ** Further notions: characters of a name *)

(** [s.includes(c)] for one character. *)
Fixpoint hasChar (c : ascii) (s : string) : bool :=
  match s with
  | EmptyString => false
  | String a s' => JsString.eqb_ascii a c || hasChar c s'
  end.

(** [/\s/.test(s)] *)
Fixpoint anySpace (s : string) : bool :=
  match s with
  | EmptyString => false
  | String a s' => negb (Nat.eqb (JsString.spaceWidth s) 0) || anySpace s'
  end.

(** A signed URL ends in the object's name followed by a query that has
    no slash: [<base>/<name>?<query>]. *)
Definition signsLikeStorage (getSignedUrl : string -> string) : Prop :=
  forall folder name,
    exists base query,
      getSignedUrl (objectKey folder name) = base ++ "/" ++ name ++ "?" ++ query /\
      hasChar "/" query = false.

(** The key [createBook] and [createAuthor] upload a file under, and the
    blob they store. *)
Definition uploadKey (folder : string) (f : File) : string :=
  objectKey folder (JsString.replaceSpaces (originalname f)).

Definition blobOfFile (f : File) : Blob := mkBlob (mimetype f) (buffer f).

(** The record [createBook] builds from the request, the three files and
    the author it found, in a world whose next id and clock are read. *)
Definition createdBook (getSignedUrl : string -> string) (body : BookFields)
           (bookFile coverFile sampleFile : File) (author : Author.t) (w : World)
  : Book.t :=
  Book.mk (nextId w) (r_title body) (r_description body)
    (JsNum.ofOption (r_price body))
    (JsNum.or (JsNum.ofOption (r_discountPercentage body)) JsNum.zero)
    (JsNum.ofOption (r_price body))
    (JsNum.sub (JsNum.ofOption (r_price body))
       (JsNum.mul (JsNum.ofOption (r_price body))
          (JsNum.div (JsNum.ofOption (r_discountPercentage body)) JsNum.hundred)))
    (r_category body) (Author.name author)
    (getSignedUrl (uploadKey "books" bookFile))
    (getSignedUrl (uploadKey "covers" coverFile))
    (getSignedUrl (uploadKey "samples" sampleFile))
    (clock w).

(** The writes the listener of [createBook] waits for: every write but
    those of the streams of the cover and of the sample. *)
Definition awaited (coverKey sampleKey : string) (e : Effect) : bool :=
  match e with
  | BlobWritten key => negb (String.eqb key coverKey || String.eqb key sampleKey)
  | _ => true
  end.

(** The same query for another page. *)
Definition withPage (p : Z) (q : BooksQuery) : BooksQuery :=
  mkQuery (q_author q) (q_category q) (q_minPrice q) (q_maxPrice q) (q_search q)
    (q_sortBy q) (Some p) (q_limit q).

(** All the books a query selects, in the order it asks for: what
    [Book.find(filter).sort(sort)] yields before [skip] and [limit]. *)
Definition selected (regexTest : string -> string -> bool) (q : BooksQuery)
           (w : World) : list Book.t :=
  let fs := sortCase (default "default" (q_sortBy q)) (baseFilter q) in
  applySort (snd fs) (Model.find (matchesFilter regexTest (fst fs)) (books w)).

Definition redacted (b : Book.t) : BookObject.t := withoutSourcePath (toObject b).

(** The body of a [BooksBody] answer. *)
Definition booksOf (r : Response) : list BookObject.t :=
  match r with
  | Json _ (BooksBody items) => items
  | _ => []
  end.

(** ** More of the sample catalog *)

Module Fixtures.

(** One book per page. *)
Definition onePerPage : BooksQuery :=
  mkQuery None None None None None (Some "oldest") None (Some 1%Z).

Definition newCover : File := mkFile "dune  new cover.png" "image/png" "PNG2".

Definition coverOnly : Files := mkFiles None (Some [newCover]) None.

Definition portraitFile : File := mkFile "ann portrait.png" "image/png" "PNG3".

Definition portraitOnly : Files := mkFiles (Some [portraitFile]) None None.





(** The stream of the sample finishes first; the stream of the cover
    finishes after the answer was sent. *)
Definition coverLate : Schedule := mkSchedule AfterAnswer BeforeListener true.

(** An update that names a price and a creation time, and brings its
    own values for the two computed prices. *)
Definition repriced : BookUpdate :=
  mkBookUpdate None None (Some (Fin 30)) None None None None None None None
    (Some (Fin 1)) (Some (Fin 2)) (Some 7).

(** Thirteen books on sale at half price, stored from the dearest to
    the cheapest, after one book that is not on sale. *)
Definition saleBook (n : nat) : Book.t :=
  Book.mk (40 + n) "Sale" ""
    (Fin (inject_Z (Z.of_nat (100 - n)))) (Fin 50)
    (Fin (inject_Z (Z.of_nat (100 - n)))) (Fin (Qmake (Z.of_nat (100 - n)) 2))
    "Fiction" "Ann"
    (Sample.signer "books/sale.pdf") (Sample.signer "covers/sale.png")
    (Sample.signer "samples/sale.pdf") (10 + n).

Definition sale : World :=
  mkWorld (Sample.bookA :: List.map saleBook (List.seq 0 13))
    [Sample.ann] [Sample.fiction] [] [] [] ∅ 200 30 [].

End Fixtures.

(** * Properties *)

(** ** File names *)

Example fileNameOfUrl_signed :
  fileNameOfUrl (Sample.signer "books/dune.pdf") = "dune.pdf".
Proof. reflexivity. Qed.

Example replaceSpaces_runs :
  JsString.replaceSpaces "my  big book.pdf" = "my_big_book.pdf".
Proof. reflexivity. Qed.

Example trim_both_ends : JsString.trim "  a b.pdf " = "a b.pdf".
Proof. reflexivity. Qed.

(** ** Reading a book or an author *)

Section Reads.

Lemma scanItems_spec (id : ObjectId) (items : list LineItem.t) :
  scanItems id items = true <->
  exists item, In item items /\ LineItem.bookId item = id.
Proof.
  induction items as [|it rest IH]; simpl.
  - split; [discriminate | intros (? & [] & _)].
  - destruct (Nat.eqb_spec (LineItem.bookId it) id) as [Heq|Hne].
    + split; [intros _; exists it; auto | reflexivity].
    + rewrite IH. split.
      * intros (x & Hin & Hx). exists x. auto.
      * intros (x & [->|Hin] & Hx); [contradiction | exists x; auto].
Qed.

Lemma scanOrders_spec (id : ObjectId) (os : list Order.t) :
  scanOrders id os = true <->
  exists order item,
    In order os /\ In item (Order.books order) /\ LineItem.bookId item = id.
Proof.
  induction os as [|o rest IH]; simpl.
  - split; [discriminate | intros (? & ? & [] & _)].
  - destruct (scanItems id (Order.books o)) eqn:Hscan.
    + apply scanItems_spec in Hscan as (item & Hin & Hid).
      split; [intros _; exists o, item; auto | reflexivity].
    + rewrite IH. split.
      * intros (x & item & Hin & Hrest). exists x, item. auto.
      * intros (x & item & [->|Hin] & Hitem & Hid).
        -- assert (scanItems id (Order.books x) = true) as Habs
             by (apply scanItems_spec; eauto).
           congruence.
        -- exists x, item. auto.
Qed.

Lemma scanOrders_purchased (w : World) (u : ObjectId) (id : ObjectId) :
  scanOrders id (Model.find (fun o => Nat.eqb (Order.userId o) u) (orders w)) = true
  <-> purchased w (Some u) id.
Proof.
  rewrite scanOrders_spec. unfold purchased, Model.find. split.
  - intros (order & item & Hin & Hitem & Hid).
    apply filter_In in Hin as [Hin Hu]. apply Nat.eqb_eq in Hu.
    exists u, order, item. auto.
  - intros (u' & order & item & Hu & Hin & Huser & Hitem & Hid).
    injection Hu as <-. exists order, item. split; [|auto].
    apply filter_In. split; [assumption | now apply Nat.eqb_eq].
Qed.

(** C5: [getBookById] answers an existing book with its representation;
    the cover and the sample are always in it, and [sourcePath] is in it
    exactly when the requester has an order with a line item for this
    book (so never without a requester). *)
Theorem getBookById_projection (id : ObjectId) (user : option ObjectId)
        (w : World) (book : Book.t) :
  Model.findById id (books w) = Some book ->
  exists o,
    getBookById id user w = (Json 200 (BookBody o), w) /\
    BookObject.coverImage o = Book.coverImage book /\
    BookObject.samplePdf o = Book.samplePdf book /\
    (user = None -> BookObject.sourcePath o = None) /\
    (~ purchased w user id -> BookObject.sourcePath o = None) /\
    (purchased w user id -> BookObject.sourcePath o = Some (Book.sourcePath book)).
Proof.
  intros Hbook.
  unfold getBookById, tryCatch, andThen, read, pure. rewrite Hbook.
  destruct user as [u|].
  - destruct (scanOrders id _) eqn:Hscan.
    + apply scanOrders_purchased in Hscan.
      exists (toObject book). repeat split; try reflexivity; try discriminate.
      intros Hnot. contradiction.
    + exists (withoutSourcePath (toObject book)).
      repeat split; try reflexivity.
      intros Hp. apply scanOrders_purchased in Hp. congruence.
  - exists (withoutSourcePath (toObject book)).
    repeat split; try reflexivity.
    intros (u & ? & ? & Hu & _). discriminate.
Qed.

Lemma getBookById_projection_witness :
  exists o,
    getBookById 10 (Some 7) Sample.world = (Json 200 (BookBody o), Sample.world) /\
    BookObject.coverImage o = Book.coverImage Sample.dune /\
    BookObject.samplePdf o = Book.samplePdf Sample.dune /\
    (Some 7 = None -> BookObject.sourcePath o = None) /\
    (~ purchased Sample.world (Some 7) 10 -> BookObject.sourcePath o = None) /\
    (purchased Sample.world (Some 7) 10 ->
     BookObject.sourcePath o = Some (Book.sourcePath Sample.dune)).
Proof.
  apply (getBookById_projection 10 (Some 7) Sample.world Sample.dune). reflexivity.
Defined.

(** C10: an id that names no author is answered with status 200 and the
    body [null], where [getBookById] answers an id that names no book
    with 404. *)
Theorem getAuthorById_missing_is_null (id : ObjectId) (w : World) :
  Model.findById id (authors w) = None ->
  getAuthorById id w = (Json 200 (PopulatedBody None), w) /\
  (forall user, Model.findById id (books w) = None ->
     getBookById id user w = (Json 404 (ErrorBody "Book not found"), w)).
Proof.
  intros Hnone. split.
  - unfold getAuthorById, tryCatch, andThen, read, pure. now rewrite Hnone.
  - intros user Hbook.
    unfold getBookById, tryCatch, andThen, read, respond. now rewrite Hbook.
Qed.

Lemma getAuthorById_missing_is_null_witness :
  getAuthorById 5 Sample.world = (Json 200 (PopulatedBody None), Sample.world).
Proof.
  apply (getAuthorById_missing_is_null 5 Sample.world). reflexivity.
Defined.

End Reads.

(** ** Creating a book *)

Section Creation.

Variable getSignedUrl : string -> string.

Lemma In_save {A} `{Document A} (d : A) (coll : list A) : In d (Model.save d coll).
Proof.
  unfold Model.save. destruct (Model.findById (docId d) coll) as [x|] eqn:Hfind.
  - unfold Model.findById, Model.findOne in Hfind.
    apply find_some in Hfind as [Hin Hid].
    unfold Model.replace. apply in_map_iff. exists x. now rewrite Hid.
  - apply in_or_app. right. now left.
Qed.

(** The checks of [createBook] pass exactly when the three files, the
    author and the category are there; they write nothing. *)
Lemma createBookChecks_passes (body : BookFields) (files : Files) (w : World)
      (bookFile coverFile sampleFile : File) (more1 more2 more3 : list File)
      (author : Author.t) (category : Category.t) :
  file files = Some (bookFile :: more1) ->
  cover files = Some (coverFile :: more2) ->
  sample files = Some (sampleFile :: more3) ->
  Model.findOne (fun a => String.eqb (Author.name a) (r_authorName body)) (authors w)
    = Some author ->
  Model.findOne (fun c => String.eqb (Category.title c) (r_category body)) (categories w)
    = Some category ->
  createBookChecks body files w
  = (Normal (bookFile, coverFile, sampleFile, author, category), w).
Proof.
  intros Hf Hc Hs Ha Hcat. unfold createBookChecks, andThen, index0, read, pure.
  rewrite Hf, Hc, Hs. cbn [List.head]. now rewrite Ha, Hcat.
Qed.

Lemma createBookChecks_inv (body : BookFields) (files : Files) (w w' : World)
      (c : Completion (File * File * File * Author.t * Category.t)) :
  createBookChecks body files w = (c, w') ->
  w' = w /\
  match c with
  | Normal (bookFile, coverFile, sampleFile, author, category) =>
      List.head (default [] (file files)) = Some bookFile /\
      List.head (default [] (cover files)) = Some coverFile /\
      List.head (default [] (sample files)) = Some sampleFile /\
      Model.findOne (fun a => String.eqb (Author.name a) (r_authorName body)) (authors w)
        = Some author /\
      Model.findOne (fun c => String.eqb (Category.title c) (r_category body))
                    (categories w)
        = Some category
  | Returned r => isValidationError r
  | Thrown e => exists msg, e = TypeError msg
  end.
Proof.
  unfold createBookChecks, andThen, index0, read, respond, pure, throw.
  destruct (file files) as [[|bookFile ?]|], (cover files) as [[|coverFile ?]|],
    (sample files) as [[|sampleFile ?]|]; cbn [List.head];
    try (intros H; apply pair_equal_spec in H as [<- <-]; split; [reflexivity|];
         first [now eexists | simpl; lia]).
  destruct (Model.findOne _ (authors w)) as [author|] eqn:Ha;
    [|intros H; apply pair_equal_spec in H as [<- <-]; split; [reflexivity | simpl; lia]].
  destruct (Model.findOne _ (categories w)) as [category|] eqn:Hcat;
    intros H; apply pair_equal_spec in H as [<- <-]; split; try reflexivity.
  - now repeat split.
  - simpl; lia.
Qed.

(** What [createBook] persists when it answers 201. *)
Lemma createBook_created (body : BookFields) (files : Files) (w w' : World)
      (o : BookObject.t) (a : string) :
  createBook getSignedUrl body files w = (Json 201 (CreatedBody o a), w') ->
  exists b,
    In b (books w') /\ toObject b = o /\
    Book.price b = JsNum.ofOption (r_price body) /\
    Book.discountPercentage b =
      JsNum.or (JsNum.ofOption (r_discountPercentage body)) JsNum.zero /\
    Book.discountedPrice b =
      JsNum.sub (JsNum.ofOption (r_price body))
        (JsNum.mul (JsNum.ofOption (r_price body))
           (JsNum.div (JsNum.ofOption (r_discountPercentage body)) JsNum.hundred)).
Proof.
  intros H. unfold createBook, createBookWhen in H.
  destruct (createBookChecks body files w) as [c w0] eqn:Hc.
  apply createBookChecks_inv in Hc as [-> Hc].
  destruct c as [[[[[bookFile coverFile] sampleFile] author] category]|r|e].
  - unfold createBookStreams in H. cbv zeta in H.
    apply pair_equal_spec in H as [Hr <-]. inversion Hr; subst; clear Hr.
    eexists. split; [|repeat split; reflexivity].
    cbn. apply In_save.
  - apply pair_equal_spec in H as [-> _]. simpl in Hc. lia.
  - discriminate.
Qed.

Lemma findById_updateMany {A} `{Document A} (id : ObjectId) (f : A -> A)
      (coll : list A) :
  (forall x, docId (f x) = docId x) ->
  Model.findById id (Model.updateMany (Model.hasId id) f coll)
  = option_map f (Model.findById id coll).
Proof.
  intros Hid. unfold Model.findById, Model.findOne, Model.updateMany.
  induction coll as [|y coll IH]; simpl; [reflexivity|].
  destruct (Model.hasId id y) eqn:Hy; simpl.
  - unfold Model.hasId in *. now rewrite Hid, Hy.
  - now rewrite Hy.
Qed.

Lemma findOne_findById {A} `{Document A} (cond : A -> bool) (coll : list A) (d : A) :
  Model.findOne cond coll = Some d ->
  exists d0, Model.findById (docId d) coll = Some d0.
Proof.
  intros Hfind. apply find_some in Hfind as [Hin _].
  destruct (Model.findById (docId d) coll) as [d0|] eqn:Hd; [now exists d0|].
  unfold Model.findById, Model.findOne in Hd.
  apply (find_none _ _ Hd) in Hin. unfold Model.hasId in Hin.
  now rewrite Nat.eqb_refl in Hin.
Qed.

(** [createBook] keeps the two lists in step: the new book is pushed on
    the list of the author and of the category it found. *)
Lemma createBook_lists_the_book (body : BookFields) (files : Files) (w w' : World)
      (o : BookObject.t) (a : string) :
  createBook getSignedUrl body files w = (Json 201 (CreatedBody o a), w') ->
  exists author category author' category',
    Model.findOne (fun a => String.eqb (Author.name a) (r_authorName body)) (authors w)
      = Some author /\
    Model.findOne (fun c => String.eqb (Category.title c) (r_category body)) (categories w)
      = Some category /\
    Model.findById (Author._id author) (authors w') = Some author' /\
    In (BookRef.mk (BookObject._id o)) (Author.books author') /\
    Model.findById (Category._id category) (categories w') = Some category' /\
    In (BookObject._id o) (Category.books category').
Proof.
  intros H. unfold createBook, createBookWhen in H.
  destruct (createBookChecks body files w) as [c w0] eqn:Hc.
  apply createBookChecks_inv in Hc as [-> Hc].
  destruct c as [[[[[bookFile coverFile] sampleFile] author] category]|r|e];
    [|apply pair_equal_spec in H as [-> _]; simpl in Hc; lia | discriminate].
  destruct Hc as (_ & _ & _ & Hauthor & Hcategory).
  unfold createBookStreams in H. cbv zeta in H.
  apply pair_equal_spec in H as [Hr <-]. inversion Hr; subst; clear Hr.
  destruct (findOne_findById _ _ _ Hauthor) as [author0 Hauthor0].
  destruct (findOne_findById _ _ _ Hcategory) as [category0 Hcategory0].
  eexists author, category, _, _.
  split; [assumption|]. split; [assumption|].
  cbn [finishedAt inOrder Moment_eqb coverFinishes sampleFinishes sampleFirst
       streamFinished authors categories setAuthors setCategories setBooks setBucket
       logEffect tick BookObject._id toObject Book._id].
  rewrite !findById_updateMany by reflexivity.
  change (@docId Author.t _ author) with (Author._id author) in Hauthor0.
  change (@docId Category.t _ category) with (Category._id category) in Hcategory0.
  rewrite Hauthor0, Hcategory0. simpl.
  repeat split; apply in_or_app; right; now left.
Qed.

(** With a numeric price and a numeric discount, the persisted
    [discountedPrice] is the specification's formula. *)
Lemma createBook_numeric_discount (body : BookFields) (files : Files) (w w' : World)
      (o : BookObject.t) (a : string) (p d : Q) :
  r_price body = Some (Fin p) ->
  r_discountPercentage body = Some (Fin d) ->
  createBook getSignedUrl body files w = (Json 201 (CreatedBody o a), w') ->
  BookObject.discountedPrice o ==n specSalePrice (Fin p) (Fin d).
Proof.
  intros Hp Hd H. apply createBook_created in H as (b & _ & <- & _ & _ & Hsale).
  rewrite Hp, Hd in Hsale. simpl. rewrite Hsale. simpl. field.
Qed.

(** C1, at the input where it fails: when the request carries no
    [discountPercentage], the book that [createBook] persists has
    [discountPercentage] 0 but a [discountedPrice] that is not a
    number, whatever the price. *)
Theorem createBook_undefined_discount_is_NaN (body : BookFields) (files : Files)
        (w w' : World) (o : BookObject.t) (a : string) :
  r_discountPercentage body = None ->
  createBook getSignedUrl body files w = (Json 201 (CreatedBody o a), w') ->
  BookObject.discountPercentage o = Fin 0 /\
  BookObject.discountedPrice o = NaN /\
  exists b, In b (books w') /\ toObject b = o.
Proof.
  intros Hd H.
  apply createBook_created in H as (b & Hin & <- & _ & Hdisc & Hsale).
  rewrite Hd in Hdisc, Hsale. simpl in *. repeat split.
  - exact Hdisc.
  - rewrite Hsale. now destruct (JsNum.ofOption (r_price body)).
  - exists b. auto.
Qed.

(** C6, at the input where it fails: when [req.files] lacks the key of
    one of the three fields, reading [[0]] throws before the check of
    line 137; the handler calls [next] with a [TypeError] and writes
    nothing. *)
Theorem createBook_missing_file_key (body : BookFields) (files : Files) (w : World) :
  file files = None \/ cover files = None \/ sample files = None ->
  exists msg,
    createBook getSignedUrl body files w = (Next (TypeError msg), w) /\
    ~ isValidationError (Next (TypeError msg)).
Proof.
  intros Hmissing. eexists. split; [|intros []].
  unfold createBook, createBookWhen, createBookChecks, andThen, index0, pure, throw.
  destruct Hmissing as [-> | [-> | ->]].
  - reflexivity.
  - now destruct (file files).
  - now destruct (file files), (cover files).
Qed.

(** When the three keys are there, a missing file, author or category
    is answered with a 4xx error before anything is written. *)
Lemma createBook_rejects_before_writing (body : BookFields) (files : Files) (w : World)
      (fs cs ss : list File) :
  file files = Some fs -> cover files = Some cs -> sample files = Some ss ->
  fs = [] \/ cs = [] \/ ss = [] \/
  Model.findOne (fun a => String.eqb (Author.name a) (r_authorName body)) (authors w) = None \/
  Model.findOne (fun c => String.eqb (Category.title c) (r_category body)) (categories w) = None ->
  isValidationError (fst (createBook getSignedUrl body files w)) /\
  snd (createBook getSignedUrl body files w) = w.
Proof.
  intros Hf Hc Hs Hbad.
  unfold createBook, createBookWhen, createBookChecks, andThen, index0, read, respond,
    pure, throw.
  rewrite Hf, Hc, Hs.
  destruct fs as [|f fs'], cs as [|c cs'], ss as [|s' ss']; simpl;
    try (split; [lia | reflexivity]).
  destruct Hbad as [?|[?|[?|[Ha|Hcat]]]]; try discriminate.
  - rewrite Ha. simpl. split; [lia | reflexivity].
  - destruct (Model.findOne _ (authors w)); simpl.
    + rewrite Hcat. simpl. split; [lia | reflexivity].
    + split; [lia | reflexivity].
Qed.

End Creation.

Lemma createBook_undefined_discount_is_NaN_witness :
  exists o a w',
    createBook Sample.signer (Sample.emma None) Sample.allFiles Sample.world
      = (Json 201 (CreatedBody o a), w') /\
    BookObject.discountPercentage o = Fin 0 /\
    BookObject.discountedPrice o = NaN /\
    specSalePrice (Fin 10) JsNum.zero ==n Fin 10.
Proof.
  destruct (createBook Sample.signer (Sample.emma None) Sample.allFiles Sample.world)
    as [r w'] eqn:Hrun.
  vm_compute in Hrun. injection Hrun as <- <-.
  eexists _, _, _. split; [reflexivity|].
  pose proof (createBook_undefined_discount_is_NaN Sample.signer
                (Sample.emma None) Sample.allFiles Sample.world) as Hthm.
  edestruct Hthm as (H0 & Hnan & _); [reflexivity | vm_compute; reflexivity |].
  split; [exact H0 | split; [exact Hnan | vm_compute; reflexivity]].
Defined.

Lemma createBook_missing_file_key_witness :
  exists msg,
    createBook Sample.signer (Sample.emma (Some (Fin 10)))
      (mkFiles None (Some [Sample.png "emma.png"]) (Some [Sample.pdf "emma.pdf"]))
      Sample.world
    = (Next (TypeError msg), Sample.world) /\
    ~ isValidationError (Next (TypeError msg)).
Proof.
  apply (createBook_missing_file_key Sample.signer). left. reflexivity.
Defined.

(** ** Updating a book *)

Section Update.

Variable getSignedUrl : string -> string.

Lemma findById_In {A} `{Document A} (id : ObjectId) (coll : list A) (d : A) :
  Model.findById id coll = Some d -> In d coll /\ docId d = id.
Proof.
  unfold Model.findById, Model.findOne, Model.hasId. intros Hfind.
  apply find_some in Hfind as [Hin Hid]. split; [assumption|].
  now apply Nat.eqb_eq.
Qed.

(** An update without files that names no author: the fields are
    merged, the two prices are the computed ones, the book is saved. *)
Lemma updateBookById_fields (id : ObjectId) (body : BookUpdate) (w : World) (book : Book.t) :
  Model.findById id (books w) = Some book ->
  JsString.truthyOpt (u_authorName body) = false ->
  let originalPrice := default (Book.price book) (u_price body) in
  let discountedPrice :=
    JsNum.sub originalPrice
      (JsNum.div
         (JsNum.mul originalPrice
            (JsNum.or (JsNum.ofOption (u_discountPercentage body))
                      (Book.discountPercentage book)))
         JsNum.hundred) in
  let book' := assign book body originalPrice discountedPrice in
  updateBookById getSignedUrl id body None w
  = (Json 200 (BookBody (toObject book')),
     logEffect (BookSaved book') (setBooks (Model.save book') w)).
Proof.
  intros Hbook Hname. unfold updateBookById, tryCatch, andThen, read, write, pure.
  rewrite Hbook, Hname. simpl. now destruct (u_price body).
Qed.

(** C2, at the input where it fails: an update that supplies only
    [discountPercentage = 0] stores the discount 0 together with a
    [discountedPrice] still computed from the discount the record had
    before. *)
Theorem updateBookById_zero_discount_ignored (id : ObjectId) (body : BookUpdate)
        (w : World) (book : Book.t) (p d : Q) :
  Model.findById id (books w) = Some book ->
  Book.price book = Fin p ->
  Book.discountPercentage book = Fin d ->
  u_price body = None ->
  u_discountPercentage body = Some (Fin 0) ->
  JsString.truthyOpt (u_authorName body) = false ->
  exists b w',
    updateBookById getSignedUrl id body None w = (Json 200 (BookBody (toObject b)), w') /\
    In b (books w') /\
    Book.discountPercentage b = Fin 0 /\
    Book.discountedPrice b ==n specSalePrice (Fin p) (Fin d).
Proof.
  intros Hbook Hp Hd Hprice Hzero Hname.
  pose proof (updateBookById_fields id body w book Hbook Hname) as Hrun.
  cbv zeta in Hrun. rewrite Hrun. clear Hrun.
  eexists _, _. split; [reflexivity|].
  split; [apply In_save|].
  unfold assign. simpl. rewrite Hprice, Hzero, Hp, Hd. simpl.
  split; [reflexivity | field].
Qed.

(** An update that supplies only a non-zero number as the discount, or
    only a price, does follow the formula. *)
Lemma updateBookById_one_supplied (id : ObjectId) (body : BookUpdate)
      (w : World) (book : Book.t) (p d : Q) :
  Model.findById id (books w) = Some book ->
  JsString.truthyOpt (u_authorName body) = false ->
  (u_price body = None /\ Book.price book = Fin p /\
   u_discountPercentage body = Some (Fin d) /\ ~ (d == 0)%Q) \/
  (u_price body = Some (Fin p) /\ u_discountPercentage body = None /\
   Book.discountPercentage book = Fin d) ->
  exists b w',
    updateBookById getSignedUrl id body None w = (Json 200 (BookBody (toObject b)), w') /\
    In b (books w') /\
    Book.discountedPrice b ==n specSalePrice (Fin p) (Fin d).
Proof.
  intros Hbook Hname Hcase.
  pose proof (updateBookById_fields id body w book Hbook Hname) as Hrun.
  cbv zeta in Hrun. rewrite Hrun. clear Hrun.
  eexists _, _. split; [reflexivity|].
  split; [apply In_save|].
  unfold assign. simpl.
  destruct Hcase as [(Hprice & Hp & Hd & Hnz) | (Hprice & Hd & Hbd)].
  - rewrite Hprice, Hd, Hp. unfold JsNum.or. simpl.
    destruct (Qeq_bool d 0) eqn:Hq; [apply Qeq_bool_iff in Hq; contradiction|].
    simpl. field.
  - rewrite Hprice, Hd, Hbd. unfold JsNum.or. simpl. field.
Qed.

(** C9, at the input where it fails: [updateBookById] with the name of
    another author stores that name in the book and touches no author,
    so the relation between books and authors' lists does not survive
    it. *)
Theorem updateBookById_breaks_author_sync (id : ObjectId) (body : BookUpdate)
        (w : World) (book : Book.t) (other : Author.t) (name : string) :
  authorsSynced w ->
  Model.findById id (books w) = Some book ->
  u_authorName body = Some name ->
  JsString.truthy name = true ->
  Model.findOne (fun a => String.eqb (Author.name a) name) (authors w) = Some other ->
  Book.author book <> name ->
  exists b w',
    updateBookById getSignedUrl id body None w = (Json 200 (BookBody (toObject b)), w') /\
    authors w' = authors w /\
    ~ authorsSynced w'.
Proof.
  intros Hsync Hbook Hname Htruthy Hother Hne.
  apply findById_In in Hbook as Hin. destruct Hin as [Hin _].
  apply find_some in Hother as Hfound. destruct Hfound as [Hain Haname].
  apply String.eqb_eq in Haname.
  unfold updateBookById, tryCatch, andThen, read, write, respond, pure.
  rewrite Hbook, Hname. simpl. rewrite Htruthy, Hother. simpl.
  eexists _, _. split; [reflexivity|]. split; [reflexivity|].
  intros Hsync'.
  match goal with
  | H : authorsSynced (logEffect (BookSaved ?b') _) |- _ =>
      specialize (H other b' Hain (In_save b' (books w)))
  end.
  simpl in Hsync'. rewrite Haname in Hsync'.
  assert (In (BookRef.mk (Book._id book)) (Author.books other)) as Hlisted
    by (apply Hsync'; reflexivity).
  apply (Hsync other book Hain Hin) in Hlisted. congruence.
Qed.

End Update.

Lemma updateBookById_zero_discount_ignored_witness :
  exists b w',
    updateBookById Sample.signer 10 (Sample.discountOnly (Fin 0)) None Sample.world
      = (Json 200 (BookBody (toObject b)), w') /\
    In b (books w') /\
    Book.discountPercentage b = Fin 0 /\
    Book.discountedPrice b ==n specSalePrice (Fin 20) (Fin 50).
Proof.
  apply (updateBookById_zero_discount_ignored Sample.signer 10
           (Sample.discountOnly (Fin 0)) Sample.world Sample.dune 20 50);
    reflexivity.
Defined.

(** The same run in numbers: the record had price 20 and discount 50; the
    update to discount 0 leaves the sale price 10, where the formula for
    price 20 and discount 0 gives 20. *)
Example updateBookById_zero_discount_numbers :
  exists b w',
    updateBookById Sample.signer 10 (Sample.discountOnly (Fin 0)) None Sample.world
      = (Json 200 (BookBody (toObject b)), w') /\
    Book.price b = Fin 20 /\
    Book.discountPercentage b = Fin 0 /\
    Book.discountedPrice b ==n Fin 10 /\
    ~ (Book.discountedPrice b ==n specSalePrice (Book.price b) (Book.discountPercentage b)).
Proof.
  pose proof (updateBookById_fields Sample.signer 10 (Sample.discountOnly (Fin 0))
                Sample.world Sample.dune eq_refl eq_refl) as Hrun.
  cbv zeta in Hrun. eexists _, _. split; [exact Hrun|].
  vm_compute. repeat split; try reflexivity; discriminate.
Qed.

Lemma Sample_authorsSynced : authorsSynced Sample.world.
Proof.
  intros a b [<- | [<- | []]] [<- | []]; simpl.
  - split; [reflexivity | intros _; now left].
  - split; [intros [] | discriminate].
Qed.

Lemma updateBookById_breaks_author_sync_witness :
  exists b w',
    updateBookById Sample.signer 10 (Sample.authorOnly "Bob") None Sample.world
      = (Json 200 (BookBody (toObject b)), w') /\
    authors w' = authors Sample.world /\
    ~ authorsSynced w'.
Proof.
  apply (updateBookById_breaks_author_sync Sample.signer 10 (Sample.authorOnly "Bob")
           Sample.world Sample.dune Sample.bob "Bob").
  - exact Sample_authorsSynced.
  - reflexivity.
  - reflexivity.
  - reflexivity.
  - reflexivity.
  - discriminate.
Defined.

(** ** Sorting *)

Section SortingFacts.
Context {A : Type} (le : A -> A -> bool).
Hypothesis le_total : forall a b, le a b = true \/ le b a = true.
Hypothesis le_trans : forall a b c, le a b = true -> le b c = true -> le a c = true.

Lemma insertSorted_perm (x : A) (l : list A) :
  Permutation (insertSorted le x l) (x :: l).
Proof.
  induction l as [|y l IH]; simpl.
  - reflexivity.
  - destruct (le x y); [reflexivity|].
    rewrite IH. apply perm_swap.
Qed.

Lemma sortWith_perm (l : list A) : Permutation (sortWith le l) l.
Proof.
  induction l as [|x l IH]; simpl.
  - reflexivity.
  - rewrite insertSorted_perm. now apply perm_skip.
Qed.

Lemma insertSorted_sorted (x : A) (l : list A) :
  StronglySorted (fun a b => le a b = true) l ->
  StronglySorted (fun a b => le a b = true) (insertSorted le x l).
Proof.
  induction 1 as [|y l Hsorted IH Hall]; simpl.
  - constructor; constructor.
  - destruct (le x y) eqn:Hxy.
    + constructor; [now constructor|].
      constructor; [assumption|].
      eapply Forall_impl; [exact Hall|]. intros z Hyz. simpl in Hyz. eauto.
    + constructor; [assumption|].
      assert (Permutation (insertSorted le x l) (x :: l)) as Hperm
        by apply insertSorted_perm.
      eapply Permutation_Forall; [symmetry; exact Hperm|].
      constructor; [|assumption].
      destruct (le_total x y) as [Habs|Hyx]; [congruence | assumption].
Qed.

Lemma sortWith_sorted (l : list A) :
  StronglySorted (fun a b => le a b = true) (sortWith le l).
Proof.
  induction l as [|x l IH]; simpl.
  - constructor.
  - now apply insertSorted_sorted.
Qed.
End SortingFacts.

Lemma JsNum_leb_total (a b : Num) : JsNum.leb a b = true \/ JsNum.leb b a = true.
Proof.
  destruct a as [x|], b as [y|]; simpl; auto.
  destruct (Qlt_le_dec y x) as [Hlt|Hle].
  - right. apply Qle_bool_iff. now apply Qlt_le_weak.
  - left. now apply Qle_bool_iff.
Qed.

Lemma JsNum_leb_trans (a b c : Num) :
  JsNum.leb a b = true -> JsNum.leb b c = true -> JsNum.leb a c = true.
Proof.
  destruct a as [x|], b as [y|], c as [z|]; simpl; auto; try discriminate.
  rewrite !Qle_bool_iff. apply Qle_trans.
Qed.

(** ** Listing books *)

Section Queries.

Variable regexTest : string -> string -> bool.

Lemma getBooks_run (q : BooksQuery) (w : World) :
  let page := default 1%Z (q_page q) in
  let limit := default 12%Z (q_limit q) in
  let fs := sortCase (default "default" (q_sortBy q)) (baseFilter q) in
  let found := Model.find (matchesFilter regexTest (fst fs)) (books w) in
  (0 <= (page - 1) * limit)%Z ->
  getBooks regexTest q w
  = (Json 200 (PageBody (pageOf q (applySort (snd fs) found))
                 (ceilDiv (Z.of_nat (length found)) limit) page),
     w).
Proof.
  intros page limit fs found Hskip.
  unfold getBooks, tryCatch, andThen, read, pure, throw, pageOf.
  fold page limit. fold fs. destruct fs as [filter sort] eqn:Hfs. simpl.
  destruct (Z.ltb_spec ((page - 1) * limit) 0) as [Hneg|_]; [lia|].
  reflexivity.
Qed.

Lemma matchesFilter_onSale (q : BooksQuery) (b : Book.t) :
  matchesFilter regexTest (onSale (baseFilter q)) b
  = matchesFilter regexTest (baseFilter q) b
    && JsNum.gt (Book.discountPercentage b) JsNum.zero.
Proof.
  unfold matchesFilter. simpl. now rewrite andb_true_r.
Qed.

Lemma keyLeb_total (k : SortKey) (a b : Book.t) :
  keyLeb k a b = true \/ keyLeb k b a = true.
Proof.
  destruct k; simpl.
  - destruct (Nat.leb_spec (Book.createdAt a) (Book.createdAt b)); [now left|].
    right. apply Nat.leb_le. lia.
  - apply JsNum_leb_total.
Qed.

Lemma keyLeb_trans (k : SortKey) (a b c : Book.t) :
  keyLeb k a b = true -> keyLeb k b c = true -> keyLeb k a c = true.
Proof.
  destruct k; simpl.
  - rewrite !Nat.leb_le. lia.
  - apply JsNum_leb_trans.
Qed.

(** The first page holds the whole answer when the limit allows it. *)
Lemma pageOf_whole (q : BooksQuery) (full : list Book.t) :
  default 1%Z (q_page q) = 1%Z ->
  (Z.of_nat (length full) <= Z.abs (default 12 (q_limit q)))%Z ->
  pageOf q full = List.map (fun b => withoutSourcePath (toObject b)) full.
Proof.
  intros Hpage Hlen. unfold pageOf, applyLimit. rewrite Hpage.
  set (limit := default 12%Z (q_limit q)) in *.
  change (Z.to_nat ((1 - 1) * limit)) with 0. rewrite skipn_O.
  destruct (limit =? 0)%Z; [reflexivity|].
  rewrite firstn_all2; [reflexivity | lia].
Qed.

(** C8, as amended: when the skip [(page - 1) * limit] is negative the
    call fails with the store's error.  Otherwise, with
    [sortBy = on-sale] the answer is the requested page of the list of
    exactly the books that match the other parameters and have a
    discount above 0, ordered by ascending sale price; with
    [price-low-to-high] and [price-high-to-low] it is the requested
    page of the list of exactly the matching books, ordered by
    ascending and by descending sale price.  For a positive limit the
    requested page is what follows the first [(page - 1) * limit]
    entries of the list, at most [limit] of them; it is the whole list
    when it is the first page and the list is not longer than the
    limit. *)
Theorem getBooks_sale_and_price_orders (q : BooksQuery) (w : World) :
  ((default 1 (q_page q) - 1) * default 12 (q_limit q) < 0 ->
   getBooks regexTest q w = (Next (MongoError "Skip value must be non-negative"), w))%Z /\
  ((0 <= (default 1 (q_page q) - 1) * default 12 (q_limit q))%Z ->
   (q_sortBy q = Some "on-sale" ->
    answersWith regexTest q w
      (fun b => matchesFilter regexTest (baseFilter q) b
                && JsNum.gt (Book.discountPercentage b) JsNum.zero)
      salePriceAscending) /\
   (q_sortBy q = Some "price-low-to-high" ->
    answersWith regexTest q w (matchesFilter regexTest (baseFilter q))
      salePriceAscending) /\
   (q_sortBy q = Some "price-high-to-low" ->
    answersWith regexTest q w (matchesFilter regexTest (baseFilter q))
      salePriceDescending)) /\
  (forall full,
     (0 < default 12 (q_limit q))%Z ->
     pageOf q full
     = List.map (fun b => withoutSourcePath (toObject b))
         (List.firstn (Z.to_nat (default 12%Z (q_limit q)))
            (List.skipn
               (Z.to_nat ((default 1 (q_page q) - 1) * default 12 (q_limit q))%Z)
               full))) /\
  (forall full,
     default 1%Z (q_page q) = 1%Z ->
     (Z.of_nat (length full) <= Z.abs (default 12 (q_limit q)))%Z ->
     pageOf q full = List.map (fun b => withoutSourcePath (toObject b)) full).
Proof.
  split; [|split; [|split; [|apply pageOf_whole]]].
  3:{ intros full Hlimit. unfold pageOf, applyLimit.
      destruct (Z.eqb_spec (default 12%Z (q_limit q)) 0) as [Hzero|_]; [lia|].
      now rewrite Z.abs_eq by lia. }
  { intros Hskip. unfold getBooks, tryCatch, andThen, read, pure, throw.
    destruct (sortCase _ _) as [filter sort]. cbv zeta.
    apply Z.ltb_lt in Hskip. now rewrite Hskip. }
  intros Hskip. pose proof (getBooks_run q w) as Hrun. cbv zeta in Hrun.
  specialize (Hrun Hskip).
  repeat split; intros Hsort; rewrite Hsort in Hrun; simpl in Hrun;
    unfold answersWith;
    match type of Hrun with
    | context [pageOf q ?full] => exists full
    end;
    (split; [|split; [|rewrite Hrun, (Permutation_length (sortWith_perm _ _));
                       reflexivity]]).
  - rewrite sortWith_perm. unfold Model.find.
    erewrite filter_ext; [reflexivity|]. intros b. apply matchesFilter_onSale.
  - apply (sortWith_sorted (keyLeb discountedPriceKey)).
    + apply keyLeb_total.
    + apply keyLeb_trans.
  - apply sortWith_perm.
  - apply (sortWith_sorted (keyLeb discountedPriceKey)).
    + apply keyLeb_total.
    + apply keyLeb_trans.
  - apply sortWith_perm.
  - apply (sortWith_sorted (fun a b => keyLeb discountedPriceKey b a)).
    + intros a b. apply keyLeb_total.
    + intros a b c Hab Hbc. eapply keyLeb_trans; eassumption.
Qed.

End Queries.

Lemma getBooks_sale_and_price_orders_witness :
  answersWith Sample.regex (Sample.sortedBy "on-sale") Fixtures.sale
    (fun b => matchesFilter Sample.regex (baseFilter (Sample.sortedBy "on-sale")) b
              && JsNum.gt (Book.discountPercentage b) JsNum.zero)
    salePriceAscending /\
  (getBooks Sample.regex (withPage 0 (Sample.sortedBy "on-sale")) Fixtures.sale
   = (Next (MongoError "Skip value must be non-negative"), Fixtures.sale)).
Proof.
  split.
  - apply (getBooks_sale_and_price_orders Sample.regex (Sample.sortedBy "on-sale")
             Fixtures.sale); [vm_compute; discriminate | reflexivity].
  - apply (getBooks_sale_and_price_orders Sample.regex
             (withPage 0 (Sample.sortedBy "on-sale")) Fixtures.sale).
    vm_compute. reflexivity.
Defined.

(** The claim C8 as it was stated fails: thirteen books are on sale and
    match; the answer to the first call holds the twelve cheapest of
    them and not the thirteenth, and the call for page 0 is answered
    with the store's error. *)
Lemma getBooks_on_sale_counterexample :
  let q := Sample.sortedBy "on-sale" in
  let missing := Fixtures.saleBook 0 in
  In missing (books Fixtures.sale) /\
  matchesFilter Sample.regex (baseFilter q) missing = true /\
  JsNum.gt (Book.discountPercentage missing) JsNum.zero = true /\
  (exists items,
     getBooks Sample.regex q Fixtures.sale
     = (Json 200 (PageBody items (Some 2%Z) 1%Z), Fixtures.sale) /\
     List.map BookObject._id items = [52; 51; 50; 49; 48; 47; 46; 45; 44; 43; 42; 41] /\
     ~ In (Book._id missing) (List.map BookObject._id items)) /\
  getBooks Sample.regex (withPage 0 q) Fixtures.sale
  = (Next (MongoError "Skip value must be non-negative"), Fixtures.sale).
Proof.
  cbv zeta. split; [right; left; reflexivity|].
  split; [reflexivity|]. split; [reflexivity|]. split.
  - eexists. split; [vm_compute; reflexivity|].
    split; [reflexivity|]. vm_compute. intuition discriminate.
  - vm_compute. reflexivity.
Qed.

(** The query scenario of the specification. *)
Example getBooks_on_sale_scenario :
  getBooks Sample.regex (Sample.sortedBy "on-sale") Sample.shelf
  = (Json 200 (PageBody [withoutSourcePath (toObject Sample.bookB)] (Some 1%Z) 1%Z),
     Sample.shelf).
Proof. vm_compute. reflexivity. Qed.

Example getBooks_price_low_to_high_scenario :
  getBooks Sample.regex (Sample.sortedBy "price-low-to-high") Sample.shelf
  = (Json 200 (PageBody [withoutSourcePath (toObject Sample.bookA);
                         withoutSourcePath (toObject Sample.bookB)] (Some 1%Z) 1%Z),
     Sample.shelf).
Proof. vm_compute. reflexivity. Qed.

(** ** Deleting blobs *)

Section Blobs.

Lemma deleteObject_stored (key : string) (w : World) :
  stored w key -> deleteObject key w = (Normal tt, dropBlob key w).
Proof.
  intros [blob Hblob]. unfold deleteObject. now rewrite Hblob.
Qed.

Lemma deleteObject_absent (key : string) (w : World) :
  bucket w !! key = None -> deleteObject key w = (Thrown (StorageError 404 key), w).
Proof.
  intros Hnone. unfold deleteObject. now rewrite Hnone.
Qed.

Lemma stored_dropBlob (k key : string) (w : World) :
  stored (dropBlob k w) key <-> stored w key /\ key <> k.
Proof.
  unfold stored, dropBlob. simpl. split.
  - intros [blob Hblob]. apply lookup_delete_Some in Hblob as [Hne Hblob]. eauto.
  - intros [[blob Hblob] Hne]. exists blob. now apply lookup_delete_Some.
Qed.

Lemma absent_dropBlob (k key : string) (w : World) :
  bucket w !! key = None -> bucket (dropBlob k w) !! key = None.
Proof.
  intros Hnone. unfold dropBlob. simpl. apply lookup_delete_None. now right.
Qed.

Lemma absent_dropBlobs (keys : list string) (key : string) (w : World) :
  bucket w !! key = None -> bucket (dropBlobs keys w) !! key = None.
Proof.
  revert w. induction keys as [|k keys IH]; intros w Hnone; simpl.
  - assumption.
  - apply IH. now apply absent_dropBlob.
Qed.


Lemma stored_dropBlobs (keys : list string) (key : string) (w : World) :
  stored (dropBlobs keys w) key <-> stored w key /\ ~ In key keys.
Proof.
  revert w. induction keys as [|k keys IH]; intros w; simpl.
  - tauto.
  - rewrite IH, stored_dropBlob. intuition congruence.
Qed.

Lemma sameDocuments_refl (w : World) : sameDocuments w w.
Proof. repeat split. Qed.

Lemma sameDocuments_trans (w1 w2 w3 : World) :
  sameDocuments w1 w2 -> sameDocuments w2 w3 -> sameDocuments w1 w3.
Proof.
  unfold sameDocuments. intros (?&?&?&?&?&?) (?&?&?&?&?&?).
  repeat split; congruence.
Qed.

Lemma sameDocuments_dropBlob (key : string) (w : World) :
  sameDocuments w (dropBlob key w).
Proof. repeat split. Qed.

Lemma sameDocuments_dropBlobs (keys : list string) (w : World) :
  sameDocuments w (dropBlobs keys w).
Proof.
  revert w. induction keys as [|k keys IH]; intros w; simpl.
  - apply sameDocuments_refl.
  - eapply sameDocuments_trans; [apply sameDocuments_dropBlob | apply IH].
Qed.


(** The three objects of a book are in three different folders. *)
Lemma blobKeys_NoDup (b : Book.t) : NoDup (blobKeys b).
Proof.
  unfold blobKeys, objectKey.
  repeat constructor; rewrite ?list_elem_of_In; simpl.
  - intros [H | [H | []]]; discriminate.
  - intros [H | []]; discriminate.
  - intros [].
Qed.

Lemma deleteBlobs_stored (b : Book.t) (w : World) :
  Forall (stored w) (blobKeys b) ->
  deleteBlobs b w = (Normal tt, dropBlobs (blobKeys b) w).
Proof.
  intros Hall. unfold blobKeys in *.
  apply Forall_cons in Hall as [H1 Hall].
  apply Forall_cons in Hall as [H2 Hall].
  apply Forall_cons in Hall as [H3 _].
  unfold deleteBlobs, andThen.
  rewrite (deleteObject_stored _ _ H1).
  rewrite deleteObject_stored
    by (apply stored_dropBlob; split; [assumption | discriminate]).
  rewrite deleteObject_stored
    by (rewrite !stored_dropBlob; repeat split; [assumption | discriminate..]).
  reflexivity.
Qed.

Lemma deleteBlobs_absent (b : Book.t) (w : World) :
  ~ Forall (stored w) (blobKeys b) ->
  exists key w',
    In key (blobKeys b) /\
    deleteBlobs b w = (Thrown (StorageError 404 key), w') /\
    sameDocuments w w' /\
    bucket w' !! key = None /\
    (forall k, bucket w !! k = None -> bucket w' !! k = None).
Proof.
  intros Hnot. unfold deleteBlobs, andThen, blobKeys in *.
  set (k1 := objectKey "books" _) in *.
  set (k2 := objectKey "covers" _) in *.
  set (k3 := objectKey "samples" _) in *.
  destruct (bucket w !! k1) as [b1|] eqn:H1.
  - rewrite (deleteObject_stored k1 w) by (now exists b1).
    destruct (bucket w !! k2) as [b2|] eqn:H2.
    + rewrite (deleteObject_stored k2)
        by (apply stored_dropBlob; split; [now exists b2 | discriminate]).
      destruct (bucket w !! k3) as [b3|] eqn:H3.
      * exfalso. apply Hnot. repeat constructor; eexists; eassumption.
      * exists k3, (dropBlob k2 (dropBlob k1 w)).
        assert (bucket (dropBlob k2 (dropBlob k1 w)) !! k3 = None) as Hgone
          by (now do 2 apply absent_dropBlob).
        rewrite (deleteObject_absent k3) by assumption.
        repeat split; [simpl; auto | assumption |].
        intros k Hk. now do 2 apply absent_dropBlob.
    + exists k2, (dropBlob k1 w).
      assert (bucket (dropBlob k1 w) !! k2 = None) as Hgone
        by (now apply absent_dropBlob).
      rewrite (deleteObject_absent k2) by assumption.
      repeat split; [simpl; auto | assumption |].
      intros k Hk. now apply absent_dropBlob.
  - exists k1, w. rewrite (deleteObject_absent k1) by assumption.
    repeat split; [simpl; auto | assumption | auto].
Qed.

End Blobs.

(** ** Deleting a book *)

Section DeleteBook.

Lemma findById_replace {A} `{Document A} (d x : A) (coll : list A) :
  Model.findById (docId d) coll = Some x ->
  Model.findById (docId d) (Model.replace d coll) = Some d.
Proof.
  unfold Model.findById, Model.findOne, Model.replace.
  induction coll as [|y coll IH]; simpl; [discriminate|].
  destruct (Model.hasId (docId d) y) eqn:Hy; simpl.
  - intros _. unfold Model.hasId. now rewrite Nat.eqb_refl.
  - rewrite Hy. exact IH.
Qed.

Lemma findById_append {A} `{Document A} (d : A) (coll : list A) :
  Model.findById (docId d) coll = None ->
  Model.findById (docId d) (coll ++ [d]) = Some d.
Proof.
  unfold Model.findById, Model.findOne.
  induction coll as [|y coll IH]; simpl.
  - intros _. unfold Model.hasId. now rewrite Nat.eqb_refl.
  - destruct (Model.hasId (docId d) y); [discriminate | exact IH].
Qed.

(** A saved document is the one read back under its id. *)
Lemma findById_save {A} `{Document A} (d : A) (coll : list A) :
  Model.findById (docId d) (Model.save d coll) = Some d.
Proof.
  unfold Model.save. destruct (Model.findById (docId d) coll) as [x|] eqn:Hfind.
  - now apply findById_replace with x.
  - now apply findById_append.
Qed.


Lemma In_deleteById {A} `{Document A} (id : ObjectId) (coll : list A) (x : A) :
  In x (Model.deleteById id coll) <-> In x coll /\ docId x <> id.
Proof.
  unfold Model.deleteById, Model.hasId. rewrite filter_In.
  rewrite negb_true_iff, Nat.eqb_neq. reflexivity.
Qed.





Lemma pullReferences_keeps (book : Book.t) (w : World) :
  books (pullReferences book w) = books w /\
  bucket (pullReferences book w) = bucket w.
Proof.
  unfold pullReferences, pullFromLineItems, pullFromAuthor, pullFromCategory.
  destruct (Model.findOne _ (categories w)); simpl;
    destruct (Model.findOne _ (authors _)); simpl; auto.
Qed.

(** [deleteBookById] on an existing book: the references are pulled,
    then the blobs are deleted, then the record. *)
Lemma deleteBookById_run (id : ObjectId) (w : World) (book : Book.t) :
  Model.findById id (books w) = Some book ->
  deleteBookById id w =
  match deleteBlobs book (pullReferences book w) with
  | (Normal _, w') =>
      (Json 200 (MessageBody "Book and related data deleted"), dropBook book w')
  | (Returned r, w') => (r, w')
  | (Thrown e, w') =>
      (Next (AppError ("Failed to delete book: " ++ errorToString e) 500), w')
  end.
Proof.
  intros Hbook.
  unfold deleteBookById, tryCatch, andThen, read, write, pure. rewrite Hbook.
  unfold pullReferences, pullFromLineItems, pullFromAuthor, pullFromCategory.
  destruct (Model.findOne _ (categories w)); simpl;
    destruct (Model.findOne _ (authors _)); simpl;
    destruct (deleteBlobs book _) as [[[]|r|e] w']; reflexivity.
Qed.

Lemma bucket_dropBook (b : Book.t) (w : World) :
  bucket (dropBook b w) = bucket w.
Proof. reflexivity. Qed.


Lemma stored_pullReferences (book : Book.t) (w : World) (key : string) :
  stored (pullReferences book w) key <-> stored w key.
Proof.
  unfold stored. now rewrite (proj2 (pullReferences_keeps book w)).
Qed.



End DeleteBook.



(** ** Deleting an author *)

Section DeleteAuthor.

Lemma deleteOwned_stored (b : Book.t) (w : World) :
  Forall (stored w) (blobKeys b) ->
  deleteOwned b w = (Normal tt, dropBook b (dropBlobs (blobKeys b) w)).
Proof.
  intros Hall. unfold deleteOwned, andThen.
  now rewrite (deleteBlobs_stored b w Hall).
Qed.

Lemma deleteOwned_absent (b : Book.t) (w : World) :
  ~ Forall (stored w) (blobKeys b) ->
  exists key w',
    In key (blobKeys b) /\
    deleteOwned b w = (Thrown (StorageError 404 key), w') /\
    sameDocuments w w' /\
    bucket w' !! key = None /\
    (forall k, bucket w !! k = None -> bucket w' !! k = None).
Proof.
  intros Hnot.
  destruct (deleteBlobs_absent b w Hnot) as (key & w' & Hkey & Hrun & Hrest).
  exists key, w'. split; [assumption|]. split; [|assumption].
  unfold deleteOwned, andThen. now rewrite Hrun.
Qed.

Lemma dropOwned_cons (b : Book.t) (owned : list Book.t) (w : World) :
  dropOwned (b :: owned) w = dropOwned owned (dropBook b (dropBlobs (blobKeys b) w)).
Proof. reflexivity. Qed.

Lemma books_dropBook (b : Book.t) (w : World) :
  books (dropBook b w) = Model.deleteById (Book._id b) (books w).
Proof. reflexivity. Qed.


Lemma stored_dropOne (b : Book.t) (w : World) (key : string) :
  stored (dropBook b (dropBlobs (blobKeys b) w)) key <->
  stored w key /\ ~ In key (blobKeys b).
Proof.
  unfold stored. rewrite bucket_dropBook. apply stored_dropBlobs.
Qed.


Lemma dropOwned_documents (owned : list Book.t) (w : World) :
  authors (dropOwned owned w) = authors w /\
  categories (dropOwned owned w) = categories w /\
  carts (dropOwned owned w) = carts w /\
  favorites (dropOwned owned w) = favorites w /\
  orders (dropOwned owned w) = orders w.
Proof.
  revert w. induction owned as [|b owned IH]; intros w.
  - repeat split.
  - rewrite dropOwned_cons.
    destruct (IH (dropBook b (dropBlobs (blobKeys b) w))) as (-> & -> & -> & -> & ->).
    destruct (sameDocuments_dropBlobs (blobKeys b) w) as (_ & ? & ? & ? & ? & ?).
    unfold dropBook. simpl. auto.
Qed.




Lemma findById_None {A} `{Document A} (id : ObjectId) (coll : list A) :
  Model.findById id coll = None <-> forall x, In x coll -> docId x <> id.
Proof.
  unfold Model.findById, Model.findOne, Model.hasId. split.
  - intros Hnone x Hin Hid.
    apply (find_none _ _ Hnone) in Hin. apply Nat.eqb_neq in Hin. contradiction.
  - intros Hall. destruct (find _ coll) as [x|] eqn:Hfind; [|reflexivity].
    apply find_some in Hfind as [Hin Hid]. apply Nat.eqb_eq in Hid.
    now apply Hall in Hin.
Qed.

(** [deleteAuthor] on an existing author: the loop, then the two writes
    to the author. *)
Lemma deleteAuthor_run (id : ObjectId) (w : World) (a : Author.t) :
  Model.findById id (authors w) = Some a ->
  deleteAuthor id w =
  match forEach (ownedBooks a w) deleteOwned w with
  | (Normal _, w') =>
      (Json 200 (MessageBody "Author and their books deleted successfully"),
       dropAuthor a w')
  | (Returned r, w') => (r, w')
  | (Thrown e, w') =>
      (Next (AppError ("Failed to delete author and books: " ++ errorToString e) 500),
       w')
  end.
Proof.
  intros Ha. destruct (findById_In _ _ _ Ha) as [_ Hid].
  change (Author._id a = id) in Hid.
  unfold deleteAuthor, tryCatch, andThen, read, write, pure. rewrite Ha.
  fold (ownedBooks a w).
  destruct (forEach (ownedBooks a w) deleteOwned w) as [[[]|r|e] w'];
    try reflexivity.
  unfold dropAuthor, clearedAuthor. now rewrite Hid.
Qed.


Lemma In_firstn {A} (n : nat) (l : list A) (x : A) : In x (firstn n l) -> In x l.
Proof.
  intros Hin. rewrite <- (firstn_skipn n l). apply in_or_app. now left.
Qed.

Lemma In_skipn {A} (n : nat) (l : list A) (x : A) : In x (skipn n l) -> In x l.
Proof.
  intros Hin. rewrite <- (firstn_skipn n l). apply in_or_app. now right.
Qed.

Lemma In_applySort (sort : SortSpec) (l : list Book.t) (x : Book.t) :
  In x (applySort sort l) -> In x l.
Proof.
  destruct sort as [[k []]|]; simpl; [| |tauto];
    apply Permutation_in, sortWith_perm.
Qed.

(** Every entry of a listing is the redacted form of a stored book. *)
Lemma listedBooks_stored (regexTest : string -> string -> bool) (q : BooksQuery)
      (w : World) (o : BookObject.t) :
  In o (listedBooks regexTest q w) ->
  exists b, In b (books w) /\ o = withoutSourcePath (toObject b).
Proof.
  unfold listedBooks, getBooks, tryCatch, andThen, read, pure, throw.
  destruct (sortCase _ _) as [filter sort]. simpl.
  destruct (_ <? 0)%Z; simpl; [intros []|].
  intros Hin. apply in_map_iff in Hin as (b & <- & Hb). exists b. split; [|reflexivity].
  unfold applyLimit in Hb.
  assert (In b (skipn (Z.to_nat ((default 1%Z (q_page q) - 1) * default 12%Z (q_limit q)))
                  (applySort sort (Model.find (matchesFilter regexTest filter) (books w)))))
    as Hskip by (destruct (_ =? 0)%Z; [assumption | now apply In_firstn in Hb]).
  apply In_skipn, In_applySort in Hskip. unfold Model.find in Hskip.
  now apply filter_In in Hskip.
Qed.

Lemma documents_dropAuthor (a : Author.t) (w : World) :
  books (dropAuthor a w) = books w /\ bucket (dropAuthor a w) = bucket w /\
  authors (dropAuthor a w)
  = Model.deleteById (Author._id a) (Model.save (clearedAuthor a) (authors w)) /\
  effects (dropAuthor a w)
  = (effects w ++ [AuthorSaved (clearedAuthor a); AuthorDeleted (Author._id a)])%list.
Proof.
  unfold dropAuthor, logEffect, setAuthors. simpl. repeat split.
  now rewrite <- app_assoc.
Qed.


End DeleteAuthor.



(** ** A blob that is already absent *)

Section AbsentBlob.

Lemma NoDup_map_injective {A B} (f : A -> B) (l : list A) (x y : A) :
  NoDup (List.map f l) -> In x l -> In y l -> f x = f y -> x = y.
Proof.
  induction l as [|z l IH]; simpl; [intros _ []|].
  intros Hdup Hx Hy Heq. apply NoDup_cons in Hdup as [Hz Hdup].
  rewrite list_elem_of_In in Hz.
  destruct Hx as [->|Hx], Hy as [->|Hy]; auto.
  - exfalso. apply Hz. rewrite Heq. now apply in_map.
  - exfalso. apply Hz. rewrite <- Heq. now apply in_map.
Qed.

Lemma stored_absent (w : World) (key : string) :
  ~ stored w key <-> bucket w !! key = None.
Proof.
  unfold stored. rewrite <- eq_None_not_Some. reflexivity.
Qed.

(** The loop of [deleteAuthor] stops with a rejection as soon as one of
    the books has an object that is not in the bucket.  Until then it
    only deleted books all of whose objects were there. *)
Lemma forEach_deleteOwned_absent (owned : list Book.t) (w : World)
      (b : Book.t) (key : string) :
  In b owned -> In key (blobKeys b) -> bucket w !! key = None ->
  exists key' w',
    forEach owned deleteOwned w = (Thrown (StorageError 404 key'), w') /\
    authors w' = authors w /\
    (forall k, bucket w !! k = None -> bucket w' !! k = None) /\
    (forall x, In x (books w) ->
       (forall y, In y owned -> Book._id y = Book._id x ->
                  ~ Forall (stored w) (blobKeys y)) ->
       In x (books w')).
Proof.
  revert w. induction owned as [|b0 owned IH]; intros w Hb Hkey Hnone; [destruct Hb|].
  change (forEach (b0 :: owned) deleteOwned w)
    with (andThen (deleteOwned b0) (fun _ => forEach owned deleteOwned) w).
  unfold andThen.
  destruct (decide (Forall (stored w) (blobKeys b0))) as [Hall|Hnot].
  - rewrite (deleteOwned_stored b0 w Hall).
    set (w2 := dropBook b0 (dropBlobs (blobKeys b0) w)).
    assert (forall k, bucket w !! k = None -> bucket w2 !! k = None) as Hmono.
    { intros k Hk. unfold w2. rewrite bucket_dropBook. now apply absent_dropBlobs. }
    destruct Hb as [->|Hb].
    { exfalso. rewrite Forall_forall in Hall. apply list_elem_of_In in Hkey.
      destruct (Hall key Hkey) as [blob Hblob]. congruence. }
    destruct (IH w2 Hb Hkey (Hmono key Hnone)) as (key' & w' & Hrun & Hauthors & Hmono' & Hkeep).
    exists key', w'. split; [exact Hrun|]. split; [|split].
    + rewrite Hauthors. unfold w2.
      destruct (sameDocuments_dropBlobs (blobKeys b0) w) as (_ & Ha & _).
      now rewrite <- Ha.
    + intros k Hk. apply Hmono', Hmono, Hk.
    + intros x Hx Hcond. apply Hkeep.
      * unfold w2. rewrite books_dropBook.
        destruct (sameDocuments_dropBlobs (blobKeys b0) w) as (Hbooks & _).
        rewrite Hbooks. apply In_deleteById. split; [assumption|].
        intros Heq. apply (Hcond b0); [now left | now symmetry | assumption].
      * intros y Hy Heq Hstored. apply (Hcond y); [now right | assumption |].
        eapply Forall_impl; [exact Hstored|].
        intros k Hk. unfold w2 in Hk. now apply stored_dropOne in Hk.
  - destruct (deleteOwned_absent b0 w Hnot)
      as (key' & w' & _ & Hrun & (Hbooks & Hauthors & _) & _ & Hmono).
    rewrite Hrun. exists key', w'. split; [reflexivity|].
    split; [assumption|]. split; [assumption|].
    intros x Hx _. now rewrite Hbooks.
Qed.

Lemma deleteBookById_absent (id : ObjectId) (w : World) (book : Book.t) (key : string) :
  Model.findById id (books w) = Some book ->
  In key (blobKeys book) ->
  ~ stored w key ->
  exists msg w',
    deleteBookById id w = (Next (AppError msg 500), w') /\
    Model.findById id (books w') = Some book /\
    ~ stored w' key.
Proof.
  intros Hbook Hkey Habsent.
  rewrite (deleteBookById_run id w book Hbook).
  assert (~ Forall (stored (pullReferences book w)) (blobKeys book)) as Hnot.
  { intros Hall. rewrite Forall_forall in Hall. apply Habsent.
    apply (stored_pullReferences book). apply Hall. now apply list_elem_of_In. }
  destruct (deleteBlobs_absent _ _ Hnot)
    as (key' & w' & _ & Hrun & (Hbooks & _) & _ & Hmono).
  rewrite Hrun. eexists _, w'. split; [reflexivity|]. split.
  - now rewrite Hbooks, (proj1 (pullReferences_keeps book w)).
  - apply stored_absent, Hmono.
    rewrite (proj2 (pullReferences_keeps book w)). now apply stored_absent.
Qed.

Lemma deleteAuthor_absent (id : ObjectId) (w : World) (a : Author.t)
      (b : Book.t) (key : string) :
  Model.findById id (authors w) = Some a ->
  In b (ownedBooks a w) ->
  In key (blobKeys b) ->
  ~ stored w key ->
  exists msg w',
    deleteAuthor id w = (Next (AppError msg 500), w') /\
    Model.findById id (authors w') = Some a /\
    ~ stored w' key /\
    (uniqueBookIds w -> In b (ownedBooks a w')).
Proof.
  intros Ha Hb Hkey Habsent. apply stored_absent in Habsent.
  rewrite (deleteAuthor_run id w a Ha).
  destruct (forEach_deleteOwned_absent _ w b key Hb Hkey Habsent)
    as (key' & w' & Hrun & Hauthors & Hmono & Hkeep).
  rewrite Hrun. eexists _, w'. split; [reflexivity|]. split; [|split].
  - now rewrite Hauthors.
  - apply stored_absent. now apply Hmono.
  - intros Hunique. unfold ownedBooks, Model.find in Hb |- *.
    apply filter_In in Hb as [Hin Hname]. apply filter_In. split; [|assumption].
    apply Hkeep; [assumption|].
    intros y Hy Heq Hall. apply filter_In in Hy as [Hy _].
    assert (y = b) as -> by (now apply (NoDup_map_injective Book._id (books w))).
    rewrite Forall_forall in Hall. apply list_elem_of_In in Hkey.
    destruct (Hall key Hkey) as [blob Hblob]. congruence.
Qed.

(** C7, as amended: when an object one of the slots names is not in the
    bucket, [deleteBookById] and [deleteAuthor] do not take its
    deletion for done: the rejection ends the handler, the answer is
    the 500 error, the book (the author) is still there, and the same
    request sent again is answered with the 500 error again. *)
Theorem delete_absent_blob_is_an_error :
  (forall id w book key,
      Model.findById id (books w) = Some book ->
      In key (blobKeys book) ->
      ~ stored w key ->
      exists msg w',
        deleteBookById id w = (Next (AppError msg 500), w') /\
        Model.findById id (books w') = Some book /\
        exists msg' w'', deleteBookById id w' = (Next (AppError msg' 500), w'')) /\
  (forall id w a b key,
      Model.findById id (authors w) = Some a ->
      In b (ownedBooks a w) ->
      In key (blobKeys b) ->
      ~ stored w key ->
      exists msg w',
        deleteAuthor id w = (Next (AppError msg 500), w') /\
        Model.findById id (authors w') = Some a /\
        (uniqueBookIds w ->
         exists msg' w'', deleteAuthor id w' = (Next (AppError msg' 500), w''))).
Proof.
  split.
  - intros id w book key Hbook Hkey Habsent.
    destruct (deleteBookById_absent id w book key Hbook Hkey Habsent)
      as (msg & w' & Hrun & Hbook' & Habsent').
    exists msg, w'. split; [assumption|]. split; [assumption|].
    destruct (deleteBookById_absent id w' book key Hbook' Hkey Habsent')
      as (msg' & w'' & Hrun' & _).
    now exists msg', w''.
  - intros id w a b key Ha Hb Hkey Habsent.
    destruct (deleteAuthor_absent id w a b key Ha Hb Hkey Habsent)
      as (msg & w' & Hrun & Ha' & Habsent' & Hb').
    exists msg, w'. split; [assumption|]. split; [assumption|].
    intros Hunique.
    destruct (deleteAuthor_absent id w' a b key Ha' (Hb' Hunique) Hkey Habsent')
      as (msg' & w'' & Hrun' & _).
    now exists msg', w''.
Qed.

End AbsentBlob.

Lemma Sample_cover_lost : ~ stored Sample.coverLost "covers/dune.png".
Proof. intros [blob Hblob]. vm_compute in Hblob. discriminate. Qed.

Lemma delete_absent_blob_is_an_error_witness :
  (exists msg w',
      deleteBookById 10 Sample.coverLost = (Next (AppError msg 500), w') /\
      Model.findById 10 (books w') = Some Sample.dune /\
      exists msg' w'', deleteBookById 10 w' = (Next (AppError msg' 500), w'')) /\
  (exists msg w',
      deleteAuthor 1 Sample.coverLost = (Next (AppError msg 500), w') /\
      Model.findById 1 (authors w') = Some Sample.ann /\
      (uniqueBookIds Sample.coverLost ->
       exists msg' w'', deleteAuthor 1 w' = (Next (AppError msg' 500), w''))).
Proof.
  destruct delete_absent_blob_is_an_error as [Hbook Hauthor]. split.
  - apply (Hbook 10 Sample.coverLost Sample.dune "covers/dune.png").
    + reflexivity.
    + right. left. reflexivity.
    + exact Sample_cover_lost.
  - apply (Hauthor 1 Sample.coverLost Sample.ann Sample.dune "covers/dune.png").
    + reflexivity.
    + left. reflexivity.
    + right. left. reflexivity.
    + exact Sample_cover_lost.
Defined.

(** The claim C7 as it was stated fails.  The cover of Dune is not in the
    bucket.  The first [deleteBookById] deletes the source object and is
    rejected at the cover; the retry finds the source object absent
    and is answered with a 500 error as well, and the book is still
    there.  [deleteAuthor] for its author is answered in the same way. *)
Lemma delete_absent_blob_counterexample :
  let w1 := snd (deleteBookById 10 Sample.coverLost) in
  let w2 := snd (deleteBookById 10 w1) in
  fst (deleteBookById 10 Sample.coverLost)
    = Next (AppError "Failed to delete book: Error: No such object: covers/dune.png" 500) /\
  bucket w1 !! "books/dune.pdf" = None /\
  fst (deleteBookById 10 w1)
    = Next (AppError "Failed to delete book: Error: No such object: books/dune.pdf" 500) /\
  Model.findById 10 (books w2) = Some Sample.dune /\
  fst (deleteAuthor 1 w1)
    = Next (AppError
              "Failed to delete author and books: Error: No such object: books/dune.pdf"
              500).
Proof. vm_compute. repeat split; reflexivity. Qed.

(** * Further properties of the controllers *)

(** ** File names and object keys *)

Section FileNames.

Import JsString.

Lemma split_not_nil (c : ascii) (s : string) : split c s <> [].
Proof.
  destruct s as [|a s]; simpl; [discriminate|].
  destruct (eqb_ascii a c); [discriminate|].
  destruct (split c s); discriminate.
Qed.

Lemma split_without (c : ascii) (s : string) :
  hasChar c s = false -> split c s = [s].
Proof.
  induction s as [|a s IH]; simpl; [reflexivity|].
  destruct (eqb_ascii a c); simpl; [discriminate|].
  intros Hs. now rewrite (IH Hs).
Qed.

Lemma last_cons_not_nil {A} (x d : A) (l : list A) :
  l <> [] -> List.last (x :: l) d = List.last l d.
Proof. destruct l; [congruence | reflexivity]. Qed.

Lemma split_with_separator (c : ascii) (s t : string) :
  exists h h' tl, split c (s ++ String c t) = h :: h' :: tl.
Proof.
  induction s as [|a s (h & h' & tl & IH)]; simpl.
  - unfold eqb_ascii. rewrite Ascii.eqb_refl.
    destruct (split c t) as [|x l] eqn:Ht; [now apply split_not_nil in Ht|].
    now exists EmptyString, x, l.
  - rewrite IH. destruct (eqb_ascii a c); eauto.
Qed.

Lemma pop_split_after (c : ascii) (s t : string) :
  pop (split c (s ++ String c t)) = pop (split c t).
Proof.
  unfold pop. induction s as [|a s IH]; simpl.
  - unfold eqb_ascii. rewrite Ascii.eqb_refl.
    apply last_cons_not_nil, split_not_nil.
  - destruct (split_with_separator c s t) as (h & h' & tl & Hsplit).
    rewrite Hsplit in *. destruct (eqb_ascii a c); exact IH.
Qed.

Lemma first_split_before (c : ascii) (s t : string) :
  hasChar c s = false -> first (split c (s ++ String c t)) = s.
Proof.
  unfold first. induction s as [|a s IH]; simpl.
  - unfold eqb_ascii. now rewrite Ascii.eqb_refl.
  - destruct (eqb_ascii a c); simpl; [discriminate|].
    intros Hs. specialize (IH Hs).
    destruct (split_with_separator c s t) as (h & h' & tl & Hsplit).
    rewrite Hsplit in *. simpl in *. now rewrite IH.
Qed.

Lemma first_split_without (c : ascii) (s : string) :
  hasChar c s = false -> first (split c s) = s.
Proof. intros Hs. now rewrite split_without. Qed.

Lemma hasChar_app (c : ascii) (s t : string) :
  hasChar c (s ++ t) = hasChar c s || hasChar c t.
Proof.
  induction s as [|a s IH]; simpl; [reflexivity|].
  now rewrite IH, orb_assoc.
Qed.

(** The name read back from a signed URL is the name the object was
    stored under. *)
Lemma fileNameOfUrl_signed_url (base name query : string) :
  hasChar "/" name = false ->
  hasChar "?" name = false ->
  hasChar "/" query = false ->
  trim name = name ->
  fileNameOfUrl (base ++ "/" ++ name ++ "?" ++ query) = name.
Proof.
  intros Hslash Hquestion Hquery Htrim. unfold fileNameOfUrl.
  change (base ++ "/" ++ name ++ "?" ++ query)
    with (base ++ String "/" (name ++ String "?" query)).
  rewrite pop_split_after, (split_without "/" (name ++ String "?" query))
    by (rewrite hasChar_app; simpl; now rewrite Hslash, Hquery).
  change (pop [name ++ String "?" query]) with (name ++ String "?" query).
  now rewrite first_split_before.
Qed.

Lemma split_at_separator (c : ascii) (s t : string) :
  hasChar c s = false -> split c (s ++ String c t) = s :: split c t.
Proof.
  induction s as [|a s IH]; simpl.
  - unfold eqb_ascii. now rewrite Ascii.eqb_refl.
  - destruct (eqb_ascii a c); simpl; [discriminate|].
    intros Hs. now rewrite (IH Hs).
Qed.

Lemma hasChar_pop_split (c : ascii) (s : string) :
  hasChar c (pop (split c s)) = false.
Proof.
  unfold pop. induction s as [|a s IH]; simpl; [reflexivity|].
  destruct (eqb_ascii a c) eqn:Ha.
  - now rewrite last_cons_not_nil by apply split_not_nil.
  - destruct (split c s) as [|h [|h' tl]] eqn:Hsplit.
    + now apply split_not_nil in Hsplit.
    + simpl in *. now rewrite Ha, IH.
    + exact IH.
Qed.

Lemma hasChar_first_split (c : ascii) (s : string) :
  hasChar c (first (split c s)) = false.
Proof.
  unfold first. induction s as [|a s IH]; simpl; [reflexivity|].
  destruct (eqb_ascii a c) eqn:Ha; [reflexivity|].
  destruct (split c s) as [|h tl]; simpl in *; now rewrite Ha.
Qed.

Lemma hasChar_first_split_within (e c : ascii) (s : string) :
  hasChar e s = false -> hasChar e (first (split c s)) = false.
Proof.
  unfold first. induction s as [|a s IH]; simpl; [reflexivity|].
  intros Hs. apply orb_false_iff in Hs as [Ha Hs]. specialize (IH Hs).
  destruct (eqb_ascii a c); [reflexivity|].
  destruct (split c s) as [|h tl]; simpl in *; now rewrite Ha.
Qed.

Lemma startsWith_cons_inv (a b : ascii) (p s : string) :
  startsWith (String a p) (String b s) = true -> a = b /\ startsWith p s = true.
Proof.
  cbn [startsWith]. intros H. apply andb_true_iff in H as [Hab Hps].
  apply Ascii.eqb_eq in Hab. now split.
Qed.

Lemma startsWith_cons (a : ascii) (p s : string) :
  startsWith p s = true -> startsWith (String a p) (String a s) = true.
Proof.
  cbn [startsWith]. intros ->. unfold eqb_ascii. now rewrite Ascii.eqb_refl.
Qed.

Lemma whiteSpace_shape :
  Forall (fun p => hasChar "_" p = false /\ p <> EmptyString) whiteSpace.
Proof.
  repeat constructor; discriminate.
Qed.

Lemma spaceWidth_zero (s : string) :
  spaceWidth s = 0 <-> forall p, In p whiteSpace -> startsWith p s = false.
Proof.
  unfold spaceWidth. split.
  - destruct (List.find _ _) as [p|] eqn:Hfind.
    + apply find_some in Hfind as [Hin _].
      pose proof whiteSpace_shape as Hshape.
      rewrite List.Forall_forall in Hshape. apply Hshape in Hin as [_ Hne].
      destruct p; [contradiction | discriminate].
    + intros _ p Hp. exact (find_none _ _ Hfind p Hp).
  - intros Hnone. destruct (List.find _ _) as [p|] eqn:Hfind; [|reflexivity].
    apply find_some in Hfind as [Hin Hpre]. rewrite (Hnone p Hin) in Hpre.
    discriminate.
Qed.

Lemma hasChar_dropSpaces (e : ascii) (skip : nat) (s : string) :
  hasChar e s = false -> hasChar e (dropSpaces skip s) = false.
Proof.
  revert skip. induction s as [|a s IH]; intros skip; [reflexivity|].
  intros Hs. cbn [dropSpaces].
  assert (hasChar e s = false) as Htail
    by (cbn [hasChar] in Hs; now apply orb_false_iff in Hs as [_ Hs]).
  destruct skip; [|now apply IH].
  destruct (spaceWidth (String a s)); [exact Hs | now apply IH].
Qed.

Lemma hasChar_trimEnd (e : ascii) (s : string) :
  hasChar e s = false -> hasChar e (trimEnd s) = false.
Proof.
  induction s as [|a s IH]; [reflexivity|].
  intros Hs. cbn [hasChar] in Hs. apply orb_false_iff in Hs as [Ha Hs].
  cbn [trimEnd]. destruct (allSpace (String a s)); [reflexivity|].
  cbn [hasChar]. now rewrite Ha, IH.
Qed.

Lemma hasChar_trim (e : ascii) (s : string) :
  hasChar e s = false -> hasChar e (trim s) = false.
Proof. intros Hs. now apply hasChar_trimEnd, hasChar_dropSpaces. Qed.

(** X2: The name read from a url never has a slash or a question mark, so
    the object a handler deletes for a slot lies directly in the folder
    of that slot. *)
Theorem fileNameOfUrl_stays_in_folder (folder url : string) :
  hasChar "/" (fileNameOfUrl url) = false /\
  hasChar "?" (fileNameOfUrl url) = false /\
  (hasChar "/" folder = false ->
   split "/" (objectKey folder (fileNameOfUrl url)) = [folder; fileNameOfUrl url]).
Proof.
  assert (hasChar "/" (fileNameOfUrl url) = false) as Hslash.
  { unfold fileNameOfUrl.
    apply hasChar_trim, hasChar_first_split_within, hasChar_pop_split. }
  split; [exact Hslash|]. split.
  - unfold fileNameOfUrl. apply hasChar_trim, hasChar_first_split.
  - intros Hfolder. unfold objectKey.
    change (folder ++ "/" ++ fileNameOfUrl url)
      with (folder ++ String "/" (fileNameOfUrl url)).
    now rewrite split_at_separator, split_without.
Qed.

Lemma spaceWidth_underscore (t : string) : spaceWidth (String "_" t) = 0.
Proof.
  apply spaceWidth_zero. intros p Hp.
  pose proof whiteSpace_shape as Hshape. rewrite List.Forall_forall in Hshape.
  apply Hshape in Hp as [Hnone Hne].
  destruct p as [|a p]; [contradiction|].
  cbn [hasChar startsWith] in *. apply orb_false_iff in Hnone as [Ha _].
  now rewrite Ha.
Qed.

(** What [replaceRuns] writes before its first underscore is what it
    read. *)
Lemma prefix_replaceRuns (q s : string) :
  hasChar "_" q = false ->
  startsWith q (replaceRuns false 0 s) = true -> startsWith q s = true.
Proof.
  revert s. induction q as [|c q IH]; intros s Hq Hpre; [now destruct s|].
  cbn [hasChar] in Hq. apply orb_false_iff in Hq as [Hc Hq].
  destruct s as [|a s]; [discriminate|].
  cbn [replaceRuns] in Hpre. destruct (spaceWidth (String a s)).
  - apply startsWith_cons_inv in Hpre as [-> Hpre]. apply startsWith_cons. now apply IH.
  - apply startsWith_cons_inv in Hpre as [-> _]. discriminate.
Qed.

Lemma spaceWidth_kept (a : ascii) (s : string) :
  spaceWidth (String a s) = 0 -> spaceWidth (String a (replaceRuns false 0 s)) = 0.
Proof.
  rewrite !spaceWidth_zero. intros Hnone p Hp.
  destruct (startsWith p _) eqn:Hpre; [|reflexivity].
  rewrite <- (Hnone p Hp).
  pose proof whiteSpace_shape as Hshape. rewrite List.Forall_forall in Hshape.
  apply Hshape in Hp as [Hunder Hne].
  destruct p as [|c p]; [contradiction|].
  cbn [hasChar] in Hunder. apply orb_false_iff in Hunder as [_ Hunder].
  apply startsWith_cons_inv in Hpre as [-> Hpre]. symmetry. apply startsWith_cons.
  now apply prefix_replaceRuns.
Qed.

Lemma anySpace_replaceRuns (inRun : bool) (skip : nat) (s : string) :
  anySpace (replaceRuns inRun skip s) = false.
Proof.
  revert inRun skip. induction s as [|a s IH]; intros inRun skip; [reflexivity|].
  cbn [replaceRuns]. destruct skip as [|k]; [|apply IH].
  destruct (spaceWidth (String a s)) as [|k] eqn:Hwidth.
  - cbn [anySpace]. now rewrite spaceWidth_kept, IH.
  - destruct inRun; [apply IH|].
    cbn [anySpace]. now rewrite spaceWidth_underscore, IH.
Qed.

Lemma anySpace_head (a : ascii) (s : string) :
  anySpace (String a s) = false -> spaceWidth (String a s) = 0 /\ anySpace s = false.
Proof.
  cbn [anySpace]. intros H. apply orb_false_iff in H as [Hhead Htail].
  split; [|exact Htail]. apply negb_false_iff, Nat.eqb_eq in Hhead. exact Hhead.
Qed.

Lemma trimStart_without_space (s : string) : anySpace s = false -> trimStart s = s.
Proof.
  destruct s as [|a s]; [reflexivity|].
  intros Hs. apply anySpace_head in Hs as [Hhead _].
  unfold trimStart. cbn [dropSpaces]. now rewrite Hhead.
Qed.

Lemma trimEnd_without_space (s : string) : anySpace s = false -> trimEnd s = s.
Proof.
  induction s as [|a s IH]; [reflexivity|].
  intros Hs. apply anySpace_head in Hs as [Hhead Hs].
  cbn [trimEnd]. unfold allSpace. cbn [onlySpaces]. rewrite Hhead.
  now rewrite (IH Hs).
Qed.

Lemma replaceRuns_without_space (inRun : bool) (s : string) :
  anySpace s = false -> replaceRuns inRun 0 s = s.
Proof.
  revert inRun. induction s as [|a s IH]; intros inRun; [reflexivity|].
  intros Hs. apply anySpace_head in Hs as [Hhead Hs].
  cbn [replaceRuns]. now rewrite Hhead, (IH _ Hs).
Qed.

Lemma trim_sanitized (s : string) : trim (replaceSpaces s) = replaceSpaces s.
Proof.
  assert (anySpace (replaceSpaces s) = false) as Hnone by apply anySpace_replaceRuns.
  unfold trim. now rewrite trimStart_without_space, trimEnd_without_space.
Qed.

(** X1: A sanitized file name has no white space left, of the whole class
    [\s]; trimming it or sanitizing it again changes nothing, and a name
    without white space is its own sanitized name. *)
Theorem replaceSpaces_sanitizes (s : string) :
  anySpace (replaceSpaces s) = false /\
  trim (replaceSpaces s) = replaceSpaces s /\
  replaceSpaces (replaceSpaces s) = replaceSpaces s /\
  (anySpace s = false -> replaceSpaces s = s).
Proof.
  assert (anySpace (replaceSpaces s) = false) as Hnone
    by apply anySpace_replaceRuns.
  split; [exact Hnone|]. split; [apply trim_sanitized|]. split.
  - now apply replaceRuns_without_space.
  - apply replaceRuns_without_space.
Qed.

Example replaceSpaces_no_break_space :
  replaceSpaces ("nb" ++ bytes [194; 160] ++ "sp.png") = "nb_sp.png" /\
  replaceSpaces ("em" ++ bytes [226; 128; 131; 32; 227; 128; 128] ++ "sp.png") = "em_sp.png" /\
  trim (bytes [239; 187; 191] ++ "a b" ++ bytes [226; 128; 169; 10]) = "a b" /\
  replaceSpaces ("caf" ++ bytes [195; 169; 32; 195; 160] ++ ".png")
  = ("caf" ++ bytes [195; 169] ++ "_" ++ bytes [195; 160] ++ ".png").
Proof. repeat split; reflexivity. Qed.

End FileNames.

(** ** Creating a book, from the upload to the record *)

Section CreateAndDelete.

Variable getSignedUrl : string -> string.

(** X3: The two upload routines store a file under the same key, with the
    content and the content type it came with. *)
Theorem uploads_use_the_sanitized_name (folder : string) (f : File) (w : World) :
  exists w',
    uploadAs folder f w = (Normal (uploadKey folder f), w') /\
    uploadFileToFirebase getSignedUrl (Some f) folder w
      = (Normal (getSignedUrl (uploadKey folder f)), w') /\
    bucket w' !! uploadKey folder f = Some (blobOfFile f) /\
    (forall key, key <> uploadKey folder f -> bucket w' !! key = bucket w !! key) /\
    sameDocuments w w'.
Proof.
  eexists. split; [reflexivity|]. split; [|split; [|split]].
  - unfold uploadFileToFirebase, uploadKey. now rewrite trim_sanitized.
  - apply lookup_insert_eq.
  - intros key Hkey. now apply lookup_insert_ne.
  - repeat split.
Qed.

Lemma createBook_run (body : BookFields) (files : Files) (w : World)
      (bookFile coverFile sampleFile : File) (more1 more2 more3 : list File)
      (author : Author.t) (category : Category.t) :
  file files = Some (bookFile :: more1) ->
  cover files = Some (coverFile :: more2) ->
  sample files = Some (sampleFile :: more3) ->
  Model.findOne (fun a => String.eqb (Author.name a) (r_authorName body)) (authors w)
    = Some author ->
  Model.findOne (fun c => String.eqb (Category.title c) (r_category body)) (categories w)
    = Some category ->
  let b := createdBook getSignedUrl body bookFile coverFile sampleFile author w in
  exists w',
    createBook getSignedUrl body files w
      = (Json 201 (CreatedBody (toObject b) (Author.name author)), w') /\
    bucket w' = <[uploadKey "samples" sampleFile := blobOfFile sampleFile]>
                  (<[uploadKey "covers" coverFile := blobOfFile coverFile]>
                     (<[uploadKey "books" bookFile := blobOfFile bookFile]> (bucket w))) /\
    books w' = Model.save b (books w) /\
    orders w' = orders w /\
    nextId w' = S (nextId w) /\
    effects w' = (effects w ++
                  [BlobWritten (uploadKey "books" bookFile);
                   BlobWritten (uploadKey "covers" coverFile);
                   BlobWritten (uploadKey "samples" sampleFile);
                   BookSaved b;
                   CategoryPushed (Category._id category) (nextId w);
                   AuthorPushed (Author._id author) (nextId w)])%list /\
    authors w'
    = Model.updateMany (Model.hasId (Author._id author))
        (fun a => Author.mk (Author._id a) (Author.name a) (Author.image a)
                    (Author.books a ++ [BookRef.mk (nextId w)]))
        (authors w).
Proof.
  intros Hfile Hcover Hsample Hauthor Hcategory b.
  unfold createBook, createBookWhen.
  rewrite (createBookChecks_passes body files w _ _ _ _ _ _ _ _
             Hfile Hcover Hsample Hauthor Hcategory).
  unfold createBookStreams. cbv zeta.
  eexists. split; [reflexivity|].
  cbn [finishedAt inOrder Moment_eqb coverFinishes sampleFinishes sampleFirst
       streamFinished categories authors books orders setBucket setBooks setCategories
       setAuthors logEffect tick nextId clock bucket effects fst snd].
  repeat split.
  now rewrite <- !app_assoc.
Qed.

Ltac lookups :=
  repeat first
    [ rewrite lookup_insert_eq
    | rewrite lookup_insert_ne by (first [assumption | apply not_eq_sym; assumption]) ];
  try reflexivity.

(** X5: With the three files, an author of that name and a category of that
    title, [createBook] answers 201 whenever the streams of the cover and
    of the sample finish.  The record has the signed URLs of the three
    objects in its slots, its id is appended to the list of every
    category and author with the id of the ones found, and nothing else
    is written to the documents.  The books object is in the bucket
    when the answer is sent; the other two are there exactly when their
    streams have finished by then.  The listener stores the books
    object, saves, pushes on the category and pushes on the author in
    this order.  Once the streams that were open have finished, the
    bucket is the one [createBook] leaves. *)
Theorem createBook_stores_then_saves (s : Schedule) (body : BookFields) (files : Files)
        (w : World) (bookFile coverFile sampleFile : File)
        (more1 more2 more3 : list File) (author : Author.t) (category : Category.t) :
  file files = Some (bookFile :: more1) ->
  cover files = Some (coverFile :: more2) ->
  sample files = Some (sampleFile :: more3) ->
  Model.findOne (fun a => String.eqb (Author.name a) (r_authorName body)) (authors w)
    = Some author ->
  Model.findOne (fun c => String.eqb (Category.title c) (r_category body)) (categories w)
    = Some category ->
  let b := createdBook getSignedUrl body bookFile coverFile sampleFile author w in
  let bookKey := uploadKey "books" bookFile in
  let coverKey := uploadKey "covers" coverFile in
  let sampleKey := uploadKey "samples" sampleFile in
  exists w' log,
    createBookWhen getSignedUrl s body files w
      = (Json 201 (CreatedBody (toObject b) (Author.name author)), w') /\
    Book._id b = nextId w /\
    Book.createdAt b = clock w /\
    Book.author b = Author.name author /\
    Book.category b = r_category body /\
    Book.sourcePath b = getSignedUrl bookKey /\
    Book.coverImage b = getSignedUrl coverKey /\
    Book.samplePdf b = getSignedUrl sampleKey /\
    books w' = Model.save b (books w) /\
    categories w'
    = List.map (fun c => if Nat.eqb (Category._id c) (Category._id category)
                         then Category.mk (Category._id c) (Category.title c)
                                (Category.books c ++ [nextId w])
                         else c)
               (categories w) /\
    authors w'
    = List.map (fun a => if Nat.eqb (Author._id a) (Author._id author)
                         then Author.mk (Author._id a) (Author.name a) (Author.image a)
                                (Author.books a ++ [BookRef.mk (nextId w)])
                         else a)
               (authors w) /\
    carts w' = carts w /\ favorites w' = favorites w /\ orders w' = orders w /\
    bucket w' !! bookKey = Some (blobOfFile bookFile) /\
    bucket w' !! coverKey
    = (if Moment_eqb (coverFinishes s) AfterAnswer then bucket w !! coverKey
       else Some (blobOfFile coverFile)) /\
    bucket w' !! sampleKey
    = (if Moment_eqb (sampleFinishes s) AfterAnswer then bucket w !! sampleKey
       else Some (blobOfFile sampleFile)) /\
    (forall key, ~ In key [bookKey; coverKey; sampleKey] ->
                 bucket w' !! key = bucket w !! key) /\
    effects w' = (effects w ++ log)%list /\
    List.filter (awaited coverKey sampleKey) log
    = [BlobWritten bookKey; BookSaved b;
       CategoryPushed (Category._id category) (nextId w);
       AuthorPushed (Author._id author) (nextId w)] /\
    let w'' := finishedAt s AfterAnswer coverKey coverFile sampleKey sampleFile w' in
    sameDocuments w' w'' /\
    bucket w'' = bucket (snd (createBook getSignedUrl body files w)).
Proof.
  intros Hfile Hcover Hsample Hauthor Hcategory. cbv zeta.
  unfold createBook, createBookWhen, createdBook.
  rewrite (createBookChecks_passes body files w _ _ _ _ _ _ _ _
             Hfile Hcover Hsample Hauthor Hcategory).
  unfold createBookStreams. cbv zeta.
  fold (uploadKey "books" bookFile) (uploadKey "covers" coverFile)
       (uploadKey "samples" sampleFile).
  assert (uploadKey "books" bookFile <> uploadKey "covers" coverFile
          /\ uploadKey "books" bookFile <> uploadKey "samples" sampleFile
          /\ uploadKey "covers" coverFile <> uploadKey "samples" sampleFile)
    as (Hbc & Hbs & Hcs) by (repeat split; discriminate).
  remember (uploadKey "books" bookFile) as bookKey eqn:Ebook.
  remember (uploadKey "covers" coverFile) as coverKey eqn:Ecover.
  remember (uploadKey "samples" sampleFile) as sampleKey eqn:Esample.
  clear Ebook Ecover Esample.
  assert (awaited coverKey sampleKey (BlobWritten bookKey) = true) as Hbook.
  { unfold awaited. apply negb_true_iff, orb_false_iff.
    split; now apply String.eqb_neq. }
  assert (awaited coverKey sampleKey (BlobWritten coverKey) = false) as Hcov.
  { unfold awaited. now rewrite String.eqb_refl. }
  assert (awaited coverKey sampleKey (BlobWritten sampleKey) = false) as Hsam.
  { unfold awaited. now rewrite String.eqb_refl, orb_true_r. }
  destruct s as [c p f].
  destruct c, p, f.
  all: cbn [finishedAt inOrder Moment_eqb coverFinishes sampleFinishes sampleFirst
       streamFinished categories authors books carts favorites orders setBucket setBooks
       setCategories setAuthors logEffect tick nextId clock bucket effects fst snd].
  all: eexists _, _.
  all: split; [reflexivity|].
  all: cbn [finishedAt inOrder Moment_eqb coverFinishes sampleFinishes sampleFirst
       streamFinished categories authors books carts favorites orders setBucket setBooks
       setCategories setAuthors logEffect tick nextId clock bucket effects fst snd
       Book._id].
  all: do 13 (split; [reflexivity|]).
  all: split; [lookups|].
  all: split; [lookups|].
  all: split; [lookups|].
  all: split;
    [intros key Hkey; cbn [In] in Hkey;
     assert (key <> bookKey /\ key <> coverKey /\ key <> sampleKey) as (? & ? & ?)
       by (repeat split; intros ->; tauto);
     lookups|].
  all: split; [rewrite <- !app_assoc; reflexivity|].
  all: split;
    [cbn [List.filter app]; rewrite ?Hbook, ?Hcov, ?Hsam; reflexivity|].
  all: cbv zeta.
  all: cbn [finishedAt inOrder Moment_eqb coverFinishes sampleFinishes sampleFirst
       streamFinished].
  all: split;
    [unfold sameDocuments;
     cbn [categories authors books carts favorites orders setBucket setBooks
          setCategories setAuthors logEffect streamFinished tick];
     repeat split|].
  all: cbn [bucket setBucket setBooks setCategories setAuthors logEffect
            streamFinished tick].
  all: apply map_eq; intros key.
  all: destruct (decide (key = bookKey)) as [Hb|Hb]; [rewrite Hb; now lookups|].
  all: destruct (decide (key = coverKey)) as [Hc|Hc]; [rewrite Hc; now lookups|].
  all: destruct (decide (key = sampleKey)) as [Hs|Hs]; [rewrite Hs; now lookups|].
  all: now lookups.
Qed.
(** X6: A book that was just created is answered by [getBookById] under its
    new id, without [sourcePath] for a requester who did not buy it. *)
Theorem createBook_then_getBookById (body : BookFields) (files : Files) (w : World)
        (bookFile coverFile sampleFile : File) (more1 more2 more3 : list File)
        (author : Author.t) (category : Category.t) :
  file files = Some (bookFile :: more1) ->
  cover files = Some (coverFile :: more2) ->
  sample files = Some (sampleFile :: more3) ->
  Model.findOne (fun a => String.eqb (Author.name a) (r_authorName body)) (authors w)
    = Some author ->
  Model.findOne (fun c => String.eqb (Category.title c) (r_category body)) (categories w)
    = Some category ->
  Model.findById (nextId w) (books w) = None ->
  exists o w',
    createBook getSignedUrl body files w
      = (Json 201 (CreatedBody o (Author.name author)), w') /\
    BookObject._id o = nextId w /\
    forall user,
      ~ purchased w user (nextId w) ->
      getBookById (nextId w) user w' = (Json 200 (BookBody (withoutSourcePath o)), w').
Proof.
  intros Hfile Hcover Hsample Hauthor Hcategory Hfresh.
  destruct (createBook_run body files w _ _ _ _ _ _ _ _
              Hfile Hcover Hsample Hauthor Hcategory)
    as (w' & Hrun & _ & Hbooks & Horders & _).
  set (b := createdBook getSignedUrl body bookFile coverFile sampleFile author w) in *.
  exists (toObject b), w'. split; [exact Hrun|]. split; [reflexivity|].
  intros user Hnot.
  assert (Model.findById (nextId w) (books w') = Some b) as Hfound.
  { rewrite Hbooks. unfold Model.save.
    change (docId b) with (nextId w). rewrite Hfresh.
    exact (findById_append b (books w) Hfresh). }
  unfold getBookById, tryCatch, andThen, read, pure. rewrite Hfound.
  destruct user as [u|]; [|reflexivity].
  destruct (scanOrders _ _) eqn:Hscan; [|reflexivity].
  exfalso. apply Hnot. apply scanOrders_purchased. now rewrite <- Horders.
Qed.

Lemma hasChar_replaceRuns (e : ascii) (inRun : bool) (skip : nat) (s : string) :
  JsString.eqb_ascii "_" e = false ->
  hasChar e s = false -> hasChar e (JsString.replaceRuns inRun skip s) = false.
Proof.
  intros He. revert inRun skip.
  induction s as [|a s IH]; intros inRun skip; [reflexivity|].
  intros Hs. cbn [hasChar] in Hs. apply orb_false_iff in Hs as [Ha Hs].
  cbn [JsString.replaceRuns]. destruct skip; [|now apply IH].
  destruct (JsString.spaceWidth (String a s)).
  - cbn [hasChar]. now rewrite Ha, IH.
  - destruct inRun; [now apply IH|]. cbn [hasChar]. now rewrite He, IH.
Qed.

Lemma delete_key_is_upload_key (folder : string) (f : File) :
  signsLikeStorage getSignedUrl ->
  hasChar "/" (originalname f) = false ->
  hasChar "?" (originalname f) = false ->
  objectKey folder (fileNameOfUrl (getSignedUrl (uploadKey folder f)))
  = uploadKey folder f.
Proof.
  intros Hsigns Hslash Hquestion. unfold uploadKey.
  destruct (Hsigns folder (JsString.replaceSpaces (originalname f)))
    as (base & query & -> & Hquery).
  rewrite fileNameOfUrl_signed_url; [reflexivity | | | assumption |].
  - now apply hasChar_replaceRuns.
  - now apply hasChar_replaceRuns.
  - apply trim_sanitized.
Qed.

(** X4: A file that was uploaded can be deleted through its URL: when the
    storage signs URLs of the usual form and the file name has no slash
    and no question mark, the key a handler computes from the URL is the
    key of the upload, and deleting it takes the object away again. *)
Theorem upload_then_delete_object (folder : string) (f : File) (w : World) :
  signsLikeStorage getSignedUrl ->
  hasChar "/" (originalname f) = false ->
  hasChar "?" (originalname f) = false ->
  exists url w' w'',
    uploadFileToFirebase getSignedUrl (Some f) folder w = (Normal url, w') /\
    objectKey folder (fileNameOfUrl url) = uploadKey folder f /\
    deleteObject (objectKey folder (fileNameOfUrl url)) w' = (Normal tt, w'') /\
    bucket w'' = delete (uploadKey folder f) (bucket w).
Proof.
  intros Hsigns Hslash Hquestion.
  pose proof (delete_key_is_upload_key folder f Hsigns Hslash Hquestion) as Hkey.
  unfold uploadFileToFirebase, andThen, writeObject, write, pure.
  rewrite trim_sanitized. fold (uploadKey folder f).
  eexists _, _, _. split; [reflexivity|]. split; [exact Hkey|].
  rewrite Hkey. split.
  - apply deleteObject_stored. unfold stored.
    cbn [bucket setBucket logEffect]. rewrite lookup_insert_eq. now eexists.
  - unfold dropBlob. cbn [bucket setBucket logEffect]. apply delete_insert_eq.
Qed.

Lemma deleteById_absent {A} `{Document A} (id : ObjectId) (coll : list A) :
  Model.findById id coll = None -> Model.deleteById id coll = coll.
Proof.
  intros Hnone. unfold Model.deleteById.
  induction coll as [|x coll IH]; simpl; [reflexivity|].
  unfold Model.findById, Model.findOne in Hnone. simpl in Hnone.
  destruct (Model.hasId id x); [discriminate|]. simpl. now rewrite IH.
Qed.

Lemma deleteById_appended {A} `{Document A} (d : A) (coll : list A) :
  Model.findById (docId d) coll = None ->
  Model.deleteById (docId d) (coll ++ [d]) = coll.
Proof.
  intros Hnone. unfold Model.deleteById. rewrite List.filter_app. simpl.
  unfold Model.hasId at 2. rewrite Nat.eqb_refl. simpl. rewrite app_nil_r.
  now apply deleteById_absent.
Qed.

(** X7: A book created from files with plain names can be deleted again:
    [deleteBookById] finds the three objects that [createBook] stored,
    answers 200, and leaves the books as they were before the creation
    and the bucket without the three objects. *)
Theorem createBook_then_deleteBookById (body : BookFields) (files : Files) (w : World)
        (bookFile coverFile sampleFile : File) (more1 more2 more3 : list File)
        (author : Author.t) (category : Category.t) :
  signsLikeStorage getSignedUrl ->
  Forall (fun f => hasChar "/" (originalname f) = false /\
                   hasChar "?" (originalname f) = false)
         [bookFile; coverFile; sampleFile] ->
  file files = Some (bookFile :: more1) ->
  cover files = Some (coverFile :: more2) ->
  sample files = Some (sampleFile :: more3) ->
  Model.findOne (fun a => String.eqb (Author.name a) (r_authorName body)) (authors w)
    = Some author ->
  Model.findOne (fun c => String.eqb (Category.title c) (r_category body)) (categories w)
    = Some category ->
  Model.findById (nextId w) (books w) = None ->
  exists o w' w'',
    createBook getSignedUrl body files w
      = (Json 201 (CreatedBody o (Author.name author)), w') /\
    deleteBookById (BookObject._id o) w'
      = (Json 200 (MessageBody "Book and related data deleted"), w'') /\
    books w'' = books w /\
    forall key,
      stored w'' key <->
      stored w key /\
      ~ In key [uploadKey "books" bookFile; uploadKey "covers" coverFile;
                uploadKey "samples" sampleFile].
Proof.
  intros Hsigns Hnames Hfile Hcover Hsample Hauthor Hcategory Hfresh.
  apply Forall_cons in Hnames as [[Hb1 Hb2] Hnames].
  apply Forall_cons in Hnames as [[Hc1 Hc2] Hnames].
  apply Forall_cons in Hnames as [[Hs1 Hs2] _].
  destruct (createBook_run body files w _ _ _ _ _ _ _ _
              Hfile Hcover Hsample Hauthor Hcategory)
    as (w' & Hrun & Hbucket & Hbooks & _).
  set (b := createdBook getSignedUrl body bookFile coverFile sampleFile author w) in *.
  set (keys := [uploadKey "books" bookFile; uploadKey "covers" coverFile;
                uploadKey "samples" sampleFile]).
  assert (blobKeys b = keys) as Hkeys.
  { unfold blobKeys, keys, b, createdBook. cbn [Book.sourcePath Book.coverImage Book.samplePdf].
    now rewrite !delete_key_is_upload_key. }
  assert (forall key, stored w' key <-> In key keys \/ stored w key) as Hstored.
  { intros key. unfold stored. rewrite Hbucket, !lookup_insert_is_Some.
    unfold keys. simpl. split.
    - intros [<-|[_ [<-|[_ [<-|[_ H]]]]]]; auto.
    - intros [[<-|[<-|[<-|[]]]]|H].
      + destruct (decide (uploadKey "samples" sampleFile = uploadKey "books" bookFile));
          [now left|].
        right. split; [assumption|].
        destruct (decide (uploadKey "covers" coverFile = uploadKey "books" bookFile));
          [now left|].
        right. split; [assumption|]. now left.
      + destruct (decide (uploadKey "samples" sampleFile = uploadKey "covers" coverFile));
          [now left|].
        right. split; [assumption|]. now left.
      + now left.
      + destruct (decide (uploadKey "samples" sampleFile = key)); [now left|].
        right. split; [assumption|].
        destruct (decide (uploadKey "covers" coverFile = key)); [now left|].
        right. split; [assumption|].
        destruct (decide (uploadKey "books" bookFile = key)); [now left|].
        right. now split. }
  assert (Model.findById (nextId w) (books w') = Some b) as Hfound.
  { rewrite Hbooks. unfold Model.save. change (docId b) with (nextId w).
    rewrite Hfresh. exact (findById_append b (books w) Hfresh). }
  exists (toObject b), w'. eexists. split; [exact Hrun|].
  change (BookObject._id (toObject b)) with (nextId w).
  rewrite (deleteBookById_run (nextId w) w' b Hfound).
  rewrite deleteBlobs_stored.
  2:{ rewrite Hkeys. apply Forall_forall. intros key Hkey.
      apply stored_pullReferences, Hstored. left. now apply list_elem_of_In. }
  split; [reflexivity|]. split.
  - rewrite books_dropBook.
    destruct (sameDocuments_dropBlobs (blobKeys b) (pullReferences b w')) as (-> & _).
    rewrite (proj1 (pullReferences_keeps b w')), Hbooks. unfold Model.save.
    change (docId b) with (nextId w). rewrite Hfresh.
    exact (deleteById_appended b (books w) Hfresh).
  - intros key. unfold stored at 1. rewrite bucket_dropBook.
    fold (stored (dropBlobs (blobKeys b) (pullReferences b w')) key).
    rewrite stored_dropBlobs, stored_pullReferences, Hstored, Hkeys. tauto.
Qed.

(** X8: A created book shows up, resolved, at the end of the list that
    [getAuthorById] answers for its author. *)
Theorem createBook_then_getAuthorById (body : BookFields) (files : Files) (w : World)
        (bookFile coverFile sampleFile : File) (more1 more2 more3 : list File)
        (author : Author.t) (category : Category.t) :
  file files = Some (bookFile :: more1) ->
  cover files = Some (coverFile :: more2) ->
  sample files = Some (sampleFile :: more3) ->
  Model.findOne (fun a => String.eqb (Author.name a) (r_authorName body)) (authors w)
    = Some author ->
  Model.findOne (fun c => String.eqb (Category.title c) (r_category body)) (categories w)
    = Some category ->
  Model.findById (nextId w) (books w) = None ->
  Model.findById (Author._id author) (authors w) = Some author ->
  exists b w' listed,
    createBook getSignedUrl body files w
      = (Json 201 (CreatedBody (toObject b) (Author.name author)), w') /\
    getAuthorById (Author._id author) w' = (Json 200 (PopulatedBody (Some listed)), w') /\
    PopulatedAuthor.name listed = Author.name author /\
    PopulatedAuthor.books listed
    = (List.map (fun r => Model.findById (BookRef.bookId r) (books w'))
                (Author.books author) ++ [Some b])%list.
Proof.
  intros Hfile Hcover Hsample Hauthor Hcategory Hfresh Hunique.
  destruct (createBook_run body files w _ _ _ _ _ _ _ _
              Hfile Hcover Hsample Hauthor Hcategory)
    as (w' & Hrun & _ & Hbooks & _ & _ & _ & Hauthors).
  set (b := createdBook getSignedUrl body bookFile coverFile sampleFile author w) in *.
  assert (Model.findById (nextId w) (books w') = Some b) as Hfound.
  { rewrite Hbooks. unfold Model.save. change (docId b) with (nextId w).
    rewrite Hfresh. exact (findById_append b (books w) Hfresh). }
  exists b, w'. eexists. split; [exact Hrun|].
  unfold getAuthorById, tryCatch, andThen, read, pure.
  rewrite Hauthors, findById_updateMany by reflexivity. rewrite Hunique.
  cbn [option_map]. split; [reflexivity|]. split; [reflexivity|].
  unfold populate. cbn [PopulatedAuthor.books Author.books].
  rewrite List.map_app. cbn [List.map BookRef.bookId]. now rewrite Hfound.
Qed.

End CreateAndDelete.

(** ** Listings: redaction, order and pages *)

Section Listings.

Variable regexTest : string -> string -> bool.

(** X9: No listing of [getBooks] and no entry of [getAllBookswithoutSource]
    carries [sourcePath]; [getAllBooks] answers every stored book with
    its [sourcePath].  None of the three writes anything. *)
Theorem listings_and_sourcePath (q : BooksQuery) (w : World) :
  (forall o, In o (listedBooks regexTest q w) -> BookObject.sourcePath o = None) /\
  snd (getBooks regexTest q w) = w /\
  getAllBookswithoutSource w
    = (Json 200 (BooksBody (List.map redacted (books w))), w) /\
  (forall o, In o (booksOf (fst (getAllBookswithoutSource w))) ->
             BookObject.sourcePath o = None) /\
  snd (getAllBooks w) = w /\
  (forall b, In b (books w) ->
     exists o, In o (booksOf (fst (getAllBooks w))) /\
               BookObject._id o = Book._id b /\
               BookObject.sourcePath o = Some (Book.sourcePath b)).
Proof.
  split; [|split; [|split; [|split; [|split]]]].
  - intros o Ho. apply listedBooks_stored in Ho as (b & _ & ->). reflexivity.
  - unfold getBooks, tryCatch, andThen, read, pure, throw.
    destruct (sortCase _ _) as [filter sort]. simpl.
    now destruct (_ <? 0)%Z.
  - reflexivity.
  - intros o Ho. simpl in Ho. apply in_map_iff in Ho as (b & <- & _). reflexivity.
  - reflexivity.
  - intros b Hb. exists (toObject b). split; [|split; reflexivity].
    simpl. now apply in_map.
Qed.

Lemma StronglySorted_weaken {A} (R R' : A -> A -> Prop) (l : list A) :
  (forall a b, R a b -> R' a b) -> StronglySorted R l -> StronglySorted R' l.
Proof.
  intros Himpl. induction 1 as [|x l Hsorted IH Hall]; constructor; [assumption|].
  eapply Forall_impl; [exact Hall|]. auto.
Qed.

Lemma sortCase_other (sortBy : string) (f : BookFilter) :
  ~ In sortBy ["oldest"; "newest"; "on-sale"; "price-low-to-high"; "price-high-to-low"] ->
  sortCase sortBy f = (f, None).
Proof.
  intros Hother. unfold sortCase.
  repeat match goal with
         | |- context [String.eqb sortBy ?s] =>
             destruct (String.eqb_spec sortBy s) as [->|_];
             [exfalso; apply Hother; simpl; tauto|]
         end.
  reflexivity.
Qed.

(** X10: [oldest] and [newest] order the matching books by creation time,
    ascending and descending; with any other value of [sortBy] that is
    not one of the five names, and with none, the matching books come in
    the order of the collection. *)
Theorem getBooks_creation_and_natural_order (q : BooksQuery) (w : World) :
  (0 <= (default 1 (q_page q) - 1) * default 12 (q_limit q))%Z ->
  (q_sortBy q = Some "oldest" ->
   answersWith regexTest q w (matchesFilter regexTest (baseFilter q))
     (fun a b => Book.createdAt a <= Book.createdAt b)) /\
  (q_sortBy q = Some "newest" ->
   answersWith regexTest q w (matchesFilter regexTest (baseFilter q))
     (fun a b => Book.createdAt b <= Book.createdAt a)) /\
  (~ In (default "default" (q_sortBy q))
        ["oldest"; "newest"; "on-sale"; "price-low-to-high"; "price-high-to-low"] ->
   getBooks regexTest q w
   = (Json 200
        (PageBody
           (pageOf q (List.filter (matchesFilter regexTest (baseFilter q)) (books w)))
           (ceilDiv
              (Z.of_nat (length (List.filter (matchesFilter regexTest (baseFilter q))
                                             (books w))))
              (default 12%Z (q_limit q)))
           (default 1%Z (q_page q))),
      w)).
Proof.
  intros Hskip. pose proof (getBooks_run regexTest q w) as Hrun. cbv zeta in Hrun.
  specialize (Hrun Hskip). split; [|split].
  - intros Hsort. rewrite Hsort in Hrun. simpl in Hrun. unfold answersWith.
    match type of Hrun with
    | context [pageOf q ?full] => exists full
    end.
    split; [|split; [|rewrite Hrun, (Permutation_length (sortWith_perm _ _));
                      reflexivity]].
    + apply sortWith_perm.
    + eapply StronglySorted_weaken;
        [|apply (sortWith_sorted (keyLeb createdAtKey));
          [apply keyLeb_total | apply keyLeb_trans]].
      intros a b Hab. simpl in Hab. now apply Nat.leb_le.
  - intros Hsort. rewrite Hsort in Hrun. simpl in Hrun. unfold answersWith.
    match type of Hrun with
    | context [pageOf q ?full] => exists full
    end.
    split; [|split; [|rewrite Hrun, (Permutation_length (sortWith_perm _ _));
                      reflexivity]].
    + apply sortWith_perm.
    + eapply StronglySorted_weaken;
        [|apply (sortWith_sorted (fun a b => keyLeb createdAtKey b a));
          [intros a b; apply keyLeb_total
          |intros a b c Hab Hbc; eapply keyLeb_trans; eassumption]].
      intros a b Hab. simpl in Hab. now apply Nat.leb_le.
  - intros Hother. rewrite (sortCase_other _ _ Hother) in Hrun. exact Hrun.
Qed.

Lemma concat_chunks {A} (size n : nat) (l : list A) :
  length l <= n * size ->
  List.concat (List.map (fun i => firstn size (skipn (i * size) l)) (seq 0 n)) = l.
Proof.
  revert l. induction n as [|n IH]; intros l Hlen.
  - destruct l; [reflexivity | simpl in Hlen; lia].
  - cbn [seq]. rewrite <- List.seq_shift. cbn [List.map List.concat].
    rewrite List.map_map. cbn [Nat.mul]. rewrite skipn_O.
    transitivity (firstn size l ++ skipn size l)%list; [|apply firstn_skipn].
    f_equal. etransitivity; [|apply (IH (skipn size l)); rewrite length_skipn; lia].
    f_equal. apply List.map_ext. intros i.
    rewrite skipn_skipn. f_equal. f_equal. lia.
Qed.

Lemma ceilDiv_bounds (a b : Z) :
  (0 < b)%Z ->
  exists n, ceilDiv a b = Some n /\ ((n - 1) * b < a <= n * b)%Z.
Proof.
  intros Hb. unfold ceilDiv.
  destruct (Z.eqb_spec b 0) as [?|_]; [lia|].
  eexists. split; [reflexivity|].
  pose proof (Z.div_mod (- a) b ltac:(lia)) as Hdiv.
  pose proof (Z.mod_pos_bound (- a) b Hb) as Hmod. nia.
Qed.

Lemma listedBooks_page (q : BooksQuery) (w : World) (p size : Z) :
  q_limit q = Some size -> (0 < size)%Z -> (1 <= p)%Z ->
  getBooks regexTest (withPage p q) w
  = (Json 200 (PageBody
                 (List.map redacted
                    (firstn (Z.to_nat size)
                       (skipn (Z.to_nat (p - 1) * Z.to_nat size)
                              (selected regexTest q w))))
                 (ceilDiv (Z.of_nat (length (selected regexTest q w))) size) p),
     w).
Proof.
  intros Hlimit Hsize Hp.
  pose proof (getBooks_run regexTest (withPage p q) w) as Hrun. cbv zeta in Hrun.
  unfold pageOf, selected in *.
  change (q_page (withPage p q)) with (Some p) in Hrun.
  change (q_limit (withPage p q)) with (q_limit q) in Hrun.
  change (q_sortBy (withPage p q)) with (q_sortBy q) in Hrun.
  change (baseFilter (withPage p q)) with (baseFilter q) in Hrun.
  rewrite Hlimit in Hrun.
  change (default 1%Z (Some p)) with p in Hrun.
  change (default 12%Z (Some size)) with size in Hrun.
  rewrite Hrun by nia. unfold applyLimit.
  destruct (Z.eqb_spec size 0) as [?|_]; [lia|].
  replace (Z.to_nat (Z.abs size)) with (Z.to_nat size) by lia.
  replace (Z.to_nat ((p - 1) * size)) with (Z.to_nat (p - 1) * Z.to_nat size) by nia.
  destruct (sortCase _ _) as [filter sort]. cbn [fst snd].
  assert (length (applySort sort (Model.find (matchesFilter regexTest filter) (books w)))
          = length (Model.find (matchesFilter regexTest filter) (books w))) as ->.
  { destruct sort as [[k []]|]; simpl; try reflexivity;
      apply Permutation_length, sortWith_perm. }
  reflexivity.
Qed.

(** X11: Pages: with a positive [limit], page [p] holds at most [limit]
    books, [totalPages] is the least number of pages that hold every
    selected book, the pages 1 to [totalPages] put one after the other
    are the selected books in their order, each once, and every later
    page is empty. *)
Theorem getBooks_pages_partition (q : BooksQuery) (w : World) (size : Z) :
  q_limit q = Some size -> (0 < size)%Z ->
  exists total,
    ((total - 1) * size < Z.of_nat (length (selected regexTest q w)) <= total * size)%Z /\
    (forall p, (1 <= p)%Z ->
       exists items,
         getBooks regexTest (withPage p q) w
           = (Json 200 (PageBody items (Some total) p), w) /\
         (Z.of_nat (length items) <= size)%Z /\
         ((total < p)%Z -> items = [])) /\
    List.concat
      (List.map (fun i => listedBooks regexTest (withPage (Z.of_nat (S i)) q) w)
                (seq 0 (Z.to_nat total)))
    = List.map redacted (selected regexTest q w).
Proof.
  intros Hlimit Hsize.
  destruct (ceilDiv_bounds (Z.of_nat (length (selected regexTest q w))) size Hsize)
    as (total & Hceil & Hbounds).
  exists total. split; [exact Hbounds|]. split.
  - intros p Hp. eexists. split; [|split].
    + rewrite (listedBooks_page q w p size Hlimit Hsize Hp), Hceil. reflexivity.
    + rewrite length_map, length_firstn. lia.
    + intros Hlate. rewrite skipn_all2; [now rewrite firstn_nil|]. nia.
  - erewrite List.map_ext.
    2:{ intros i. unfold listedBooks.
        rewrite (listedBooks_page q w (Z.of_nat (S i)) size Hlimit Hsize) by lia.
        cbn [fst]. replace (Z.to_nat (Z.of_nat (S i) - 1)) with i by lia.
        reflexivity. }
    rewrite <- (List.map_map (fun i => firstn (Z.to_nat size)
                                         (skipn (i * Z.to_nat size)
                                                (selected regexTest q w)))
                             (List.map redacted)).
    rewrite <- List.concat_map. f_equal. apply concat_chunks. nia.
Qed.

End Listings.

(** ** Unknown ids, and what a delete leaves *)

Section NotFound.

Variable getSignedUrl : string -> string.

(** X12: An id that names no document is answered 404 by the four handlers
    that change or delete one, and so is an update that names an author
    who does not exist; nothing is written, whatever files came with the
    request. *)
Theorem unknown_id_is_not_found (id : ObjectId) (w : World) :
  (Model.findById id (books w) = None ->
   (forall body files,
       updateBookById getSignedUrl id body files w
       = (Json 404 (ErrorBody "Book not found"), w)) /\
   deleteBookById id w = (Json 404 (ErrorBody "Book not found"), w)) /\
  (Model.findById id (authors w) = None ->
   (forall body files,
       updateAuthor getSignedUrl id body files w
       = (Json 404 (ErrorBody "Author not found"), w)) /\
   deleteAuthor id w = (Json 404 (ErrorBody "Author not found"), w)) /\
  (forall book body files name,
      Model.findById id (books w) = Some book ->
      u_authorName body = Some name ->
      JsString.truthy name = true ->
      Model.findOne (fun a => String.eqb (Author.name a) name) (authors w) = None ->
      updateBookById getSignedUrl id body files w
      = (Json 404 (ErrorBody "Author not found"), w)).
Proof.
  split; [|split].
  - intros Hnone. split.
    + intros body files.
      unfold updateBookById, tryCatch, andThen, read, respond. now rewrite Hnone.
    + unfold deleteBookById, tryCatch, andThen, read, respond. now rewrite Hnone.
  - intros Hnone. split.
    + intros body files.
      unfold updateAuthor, tryCatch, andThen, read, respond. now rewrite Hnone.
    + unfold deleteAuthor, tryCatch, andThen, read, respond. now rewrite Hnone.
  - intros book body files name Hbook Hname Htruthy Hauthor.
    unfold updateBookById, tryCatch, andThen, read, respond.
    rewrite Hbook, Hname. cbn [JsString.truthyOpt].
    change (default "" (Some name)) with name. now rewrite Htruthy, Hauthor.
Qed.




End NotFound.

(** ** What [deleteAuthor] does not clean up *)

Section AuthorCascade.

Lemma forEach_deleteOwned_documents (owned : list Book.t) (w w' : World)
      (c : Completion unit) :
  forEach owned deleteOwned w = (c, w') ->
  authors w' = authors w /\ categories w' = categories w /\ carts w' = carts w /\
  favorites w' = favorites w /\ orders w' = orders w.
Proof.
  revert w. induction owned as [|b owned IH]; intros w Hrun.
  - apply pair_equal_spec in Hrun as [_ <-]. repeat split.
  - change (forEach (b :: owned) deleteOwned w)
      with (andThen (deleteOwned b) (fun _ => forEach owned deleteOwned) w) in Hrun.
    unfold andThen in Hrun.
    destruct (decide (Forall (stored w) (blobKeys b))) as [Hall|Hnot].
    + rewrite (deleteOwned_stored b w Hall) in Hrun.
      destruct (IH _ Hrun) as (-> & -> & -> & -> & ->).
      destruct (sameDocuments_dropBlobs (blobKeys b) w) as (_ & ? & ? & ? & ? & ?).
      unfold dropBook, logEffect, setBooks.
      cbn [authors categories carts favorites orders]. auto.
    + destruct (deleteOwned_absent b w Hnot)
        as (key & w1 & _ & Hthrown & (_ & ? & ? & ? & ? & ?) & _).
      rewrite Hthrown in Hrun. apply pair_equal_spec in Hrun as [_ <-]. auto.
Qed.

Lemma forEach_deleteOwned_shrinks (owned : list Book.t) (w w' : World)
      (c : Completion unit) :
  forEach owned deleteOwned w = (c, w') ->
  forall y, In y (books w') -> In y (books w).
Proof.
  revert w. induction owned as [|b owned IH]; intros w Hrun y Hy.
  - apply pair_equal_spec in Hrun as [_ <-]. exact Hy.
  - change (forEach (b :: owned) deleteOwned w)
      with (andThen (deleteOwned b) (fun _ => forEach owned deleteOwned) w) in Hrun.
    unfold andThen in Hrun.
    destruct (decide (Forall (stored w) (blobKeys b))) as [Hall|Hnot].
    + rewrite (deleteOwned_stored b w Hall) in Hrun.
      apply (IH _ Hrun) in Hy. rewrite books_dropBook in Hy.
      apply In_deleteById in Hy as [Hy _].
      destruct (sameDocuments_dropBlobs (blobKeys b) w) as (Hb & _).
      now rewrite Hb in Hy.
    + destruct (deleteOwned_absent b w Hnot) as (key & w1 & _ & Hthrown & (Hb & _) & _).
      rewrite Hthrown in Hrun. apply pair_equal_spec in Hrun as [_ <-].
      now rewrite Hb in Hy.
Qed.

Lemma forEach_deleteOwned_done (owned : list Book.t) (w w' : World) :
  forEach owned deleteOwned w = (Normal tt, w') ->
  forall b x, In b owned -> In x (books w') -> Book._id x <> Book._id b.
Proof.
  revert w. induction owned as [|b0 owned IH]; intros w Hrun b x Hb Hx; [destruct Hb|].
  change (forEach (b0 :: owned) deleteOwned w)
    with (andThen (deleteOwned b0) (fun _ => forEach owned deleteOwned) w) in Hrun.
  unfold andThen in Hrun.
  destruct (decide (Forall (stored w) (blobKeys b0))) as [Hall|Hnot].
  - rewrite (deleteOwned_stored b0 w Hall) in Hrun.
    destruct Hb as [<-|Hb]; [|now apply (IH _ Hrun b x)].
    apply (forEach_deleteOwned_shrinks _ _ _ _ Hrun) in Hx.
    rewrite books_dropBook in Hx. now apply In_deleteById in Hx as [_ Hx].
  - destruct (deleteOwned_absent b0 w Hnot) as (key & w1 & _ & Hthrown & _).
    rewrite Hthrown in Hrun. discriminate.
Qed.

Lemma forEach_deleteOwned_falls_through (owned : list Book.t) (w w' : World)
      (r : Response) :
  forEach owned deleteOwned w <> (Returned r, w').
Proof.
  revert w. induction owned as [|b owned IH]; intros w Hrun; [discriminate|].
  change (forEach (b :: owned) deleteOwned w)
    with (andThen (deleteOwned b) (fun _ => forEach owned deleteOwned) w) in Hrun.
  unfold andThen in Hrun.
  destruct (decide (Forall (stored w) (blobKeys b))) as [Hall|Hnot].
  - rewrite (deleteOwned_stored b w Hall) in Hrun. now apply IH in Hrun.
  - destruct (deleteOwned_absent b w Hnot) as (key & w1 & _ & Hthrown & _).
    rewrite Hthrown in Hrun. discriminate.
Qed.

(** X15: [deleteAuthor] writes to the books, the bucket and the authors only:
    the categories, carts, favorites lists and orders are as before,
    whatever the answer.  So after a delete answered 200, a category
    that listed one of the author's books still lists its id, while the
    book is gone. *)
Theorem deleteAuthor_leaves_references (id : ObjectId) (w w' : World) (a : Author.t)
        (r : Response) :
  Model.findById id (authors w) = Some a ->
  deleteAuthor id w = (r, w') ->
  categories w' = categories w /\ carts w' = carts w /\
  favorites w' = favorites w /\ orders w' = orders w /\
  (r = Json 200 (MessageBody "Author and their books deleted successfully") ->
   forall b, In b (ownedBooks a w) ->
     Model.findById (Book._id b) (books w') = None /\
     (forall c, In c (categories w) -> In (Book._id b) (Category.books c) ->
                In c (categories w'))).
Proof.
  intros Ha Hrun. rewrite (deleteAuthor_run id w a Ha) in Hrun.
  destruct (forEach (ownedBooks a w) deleteOwned w) as [c w1] eqn:Hloop.
  destruct (forEach_deleteOwned_documents _ _ _ _ Hloop)
    as (_ & Hcategories & Hcarts & Hfavorites & Horders).
  assert (categories w' = categories w /\ carts w' = carts w /\
          favorites w' = favorites w /\ orders w' = orders w) as Hsame.
  { destruct c as [[]|r1|e]; apply pair_equal_spec in Hrun as [_ <-];
      unfold dropAuthor, logEffect, setAuthors;
      cbn [categories carts favorites orders]; auto. }
  destruct Hsame as (Hc & Hcart & Hfav & Hord).
  repeat (split; [assumption|]).
  intros -> b Hb.
  destruct c as [[]|r1|e];
    [|now apply forEach_deleteOwned_falls_through in Hloop | discriminate].
  apply pair_equal_spec in Hrun as [_ <-]. split.
  - apply findById_None. intros x Hx.
    rewrite (proj1 (documents_dropAuthor a w1)) in Hx.
    now apply (forEach_deleteOwned_done _ _ _ Hloop b x).
  - intros c0 Hc0 _. unfold dropAuthor, logEffect, setAuthors. cbn [categories].
    now rewrite Hcategories.
Qed.

End AuthorCascade.

(** ** Updating a book with a new file *)

Section UpdateFiles.

Variable getSignedUrl : string -> string.

(** [req.files] with a cover only. *)
Lemma updateBookById_cover_run (id : ObjectId) (body : BookUpdate) (w : World)
      (book : Book.t) (coverFile : File) (more : list File) :
  Model.findById id (books w) = Some book ->
  JsString.truthyOpt (u_authorName body) = false ->
  JsString.truthy (Book.coverImage book) = true ->
  let old := objectKey "covers" (fileNameOfUrl (Book.coverImage book)) in
  let new := uploadKey "covers" coverFile in
  let originalPrice := default (Book.price book) (u_price body) in
  let discountedPrice :=
    JsNum.sub originalPrice
      (JsNum.div
         (JsNum.mul originalPrice
            (JsNum.or (JsNum.ofOption (u_discountPercentage body))
                      (Book.discountPercentage book)))
         JsNum.hundred) in
  let book' :=
    assign book (setUrls (u_sourcePath body) (Some (getSignedUrl new)) (u_samplePdf body) body)
           originalPrice discountedPrice in
  updateBookById getSignedUrl id body
    (Some (mkFiles None (Some (coverFile :: more)) None)) w
  = match bucket w !! old with
    | Some _ =>
        (Json 200 (BookBody (toObject book')),
         logEffect (BookSaved book')
           (setBooks (Model.save book')
              (logEffect (BlobWritten new)
                 (setBucket (insert new (blobOfFile coverFile)) (dropBlob old w)))))
    | None =>
        (Next (AppError ("Failed to update book: "
                         ++ errorToString (StorageError 404 old)) 500),
         logEffect (BlobWritten new) (setBucket (insert new (blobOfFile coverFile)) w))
    end.
Proof.
  intros Hbook Hname Htruthy old new originalPrice discountedPrice book'.
  unfold updateBookById, tryCatch, andThen, read, write, respond, pure.
  rewrite Hbook, Hname.
  unfold replaceSlot. cbn [file cover sample]. rewrite Htruthy.
  unfold andThen, settle, pure, uploadFileToFirebase. cbn [List.head].
  rewrite trim_sanitized.
  fold new. fold old.
  unfold deleteObject. destruct (bucket w !! old) as [blob|] eqn:Hold.
  - unfold write, writeObject, andThen, write, pure. cbn [promisesOf omap awaitAll].
    subst book' originalPrice discountedPrice. now destruct (u_price body).
  - unfold throw, writeObject, andThen, write, pure. reflexivity.
Qed.


(** X17: The same update when the old cover is not in the bucket: the answer
    is the 500 error and the record is not changed, but the new file has
    been stored all the same, because its upload was started before the
    deletions were awaited. *)
Theorem updateBookById_failed_delete_still_uploads (id : ObjectId) (body : BookUpdate)
        (w : World) (book : Book.t) (coverFile : File) (more : list File) :
  Model.findById id (books w) = Some book ->
  JsString.truthyOpt (u_authorName body) = false ->
  JsString.truthy (Book.coverImage book) = true ->
  ~ stored w (objectKey "covers" (fileNameOfUrl (Book.coverImage book))) ->
  exists msg w',
    updateBookById getSignedUrl id body
      (Some (mkFiles None (Some (coverFile :: more)) None)) w
    = (Next (AppError msg 500), w') /\
    books w' = books w /\
    bucket w' = <[uploadKey "covers" coverFile := blobOfFile coverFile]> (bucket w) /\
    effects w' = (effects w ++ [BlobWritten (uploadKey "covers" coverFile)])%list.
Proof.
  intros Hbook Hname Htruthy Habsent. apply stored_absent in Habsent.
  pose proof (updateBookById_cover_run id body w book coverFile more Hbook Hname Htruthy)
    as Hrun.
  cbv zeta in Hrun. rewrite Habsent in Hrun. rewrite Hrun.
  eexists _, _. split; [reflexivity|]. repeat split.
Qed.

End UpdateFiles.

(** ** What an update of a book can write *)

Section UpdateFrame.

Variable getSignedUrl : string -> string.

Lemma andThen_inv {A B} (m : Action A) (k : A -> Action B) (w w' : World)
      (c : Completion B) :
  andThen m k w = (c, w') ->
  (exists a w1, m w = (Normal a, w1) /\ k a w1 = (c, w')) \/
  (exists r, m w = (Returned r, w') /\ c = Returned r) \/
  (exists e, m w = (Thrown e, w') /\ c = Thrown e).
Proof.
  unfold andThen. destruct (m w) as [[a|r|e] w1]; intros H.
  - left. eauto.
  - right. left. apply pair_equal_spec in H as [<- <-]. eauto.
  - right. right. apply pair_equal_spec in H as [<- <-]. eauto.
Qed.

Lemma sameDocuments_write_bucket (e : Effect) (f : gmap string Blob -> gmap string Blob)
      (w : World) :
  sameDocuments w (logEffect e (setBucket f w)).
Proof. repeat split. Qed.

Lemma settle_deleteObject (key : string) (w : World) :
  exists v w', settle (deleteObject key) w = (Normal v, w') /\ sameDocuments w w'.
Proof.
  unfold settle, deleteObject. destruct (bucket w !! key).
  - eexists _, _. split; [reflexivity|]. apply sameDocuments_write_bucket.
  - eexists _, _. split; [reflexivity|]. apply sameDocuments_refl.
Qed.

Lemma settle_upload (f : option File) (folder : string) (w : World) :
  exists v w',
    settle (uploadFileToFirebase getSignedUrl f folder) w = (Normal v, w') /\
    sameDocuments w w'.
Proof.
  unfold settle, uploadFileToFirebase. destruct f as [f|].
  - eexists _, _. split; [reflexivity|]. apply sameDocuments_write_bucket.
  - eexists _, _. split; [reflexivity|]. apply sameDocuments_refl.
Qed.

Lemma replaceSlot_settles (folder : string) (slot : option (list File))
      (previous : string) (w : World) :
  exists v w',
    replaceSlot getSignedUrl folder slot previous w = (Normal v, w') /\
    sameDocuments w w'.
Proof.
  unfold replaceSlot. destruct slot as [arr|].
  - destruct (JsString.truthy previous).
    + destruct (settle_deleteObject (objectKey folder (fileNameOfUrl previous)) w)
        as (d & w1 & Hd & Hsame1).
      destruct (settle_upload (List.head arr) folder w1) as (u & w2 & Hu & Hsame2).
      unfold andThen. rewrite Hd, Hu. eexists _, _. split; [reflexivity|].
      eapply sameDocuments_trans; eassumption.
    + eexists _, _. split; [reflexivity|]. apply sameDocuments_refl.
  - eexists _, _. split; [reflexivity|]. apply sameDocuments_refl.
Qed.

Lemma awaitAll_reads {A} (settled : list (JsError + A)) (w : World) :
  (exists xs, awaitAll settled w = (Normal xs, w)) \/
  (exists e, awaitAll settled w = (Thrown e, w)).
Proof.
  induction settled as [|[e|a] rest IH]; simpl.
  - left. now exists [].
  - right. now exists e.
  - unfold andThen. destruct IH as [[xs ->]|[e ->]].
    + left. now eexists.
    + right. now eexists.
Qed.

Lemma setUrls_same (body : BookUpdate) :
  setUrls (u_sourcePath body) (u_coverImage body) (u_samplePdf body) body = body.
Proof. now destruct body. Qed.

Lemma In_save_other {A} `{Document A} (d x : A) (coll : list A) :
  docId x <> docId d -> (In x (Model.save d coll) <-> In x coll).
Proof.
  intros Hne. unfold Model.save.
  destruct (Model.findById (docId d) coll) as [d0|].
  - unfold Model.replace. rewrite in_map_iff. split.
    + intros (y & Hy & Hin). destruct (Model.hasId (docId d) y) eqn:Hid.
      * subst. contradiction.
      * now subst.
    + intros Hin. exists x. split; [|assumption].
      unfold Model.hasId. apply Nat.eqb_neq in Hne. now rewrite Hne.
  - rewrite in_app_iff. simpl. intuition (subst; contradiction).
Qed.

(** The part of [updateBookById] after the book was found: either it
    stops before the save, with the documents as they were, or it saves
    the merged record. *)
Lemma updateBookById_outcome (id : ObjectId) (body : BookUpdate) (files : option Files)
      (w w' : World) (r : Response) (book : Book.t) :
  Model.findById id (books w) = Some book ->
  updateBookById getSignedUrl id body files w = (r, w') ->
  (sameDocuments w w' /\ forall o, r <> Json 200 (BookBody o)) \/
  (exists body' w1,
      u_price body' = u_price body /\
      u_discountPercentage body' = u_discountPercentage body /\
      u_createdAt body' = u_createdAt body /\
      sameDocuments w w1 /\
      let originalPrice := default (Book.price book) (u_price body') in
      let discountedPrice :=
        JsNum.sub originalPrice
          (JsNum.div
             (JsNum.mul originalPrice
                (JsNum.or (JsNum.ofOption (u_discountPercentage body'))
                          (Book.discountPercentage book)))
             JsNum.hundred) in
      let book' := assign book body' originalPrice discountedPrice in
      r = Json 200 (BookBody (toObject book')) /\
      w' = logEffect (BookSaved book') (setBooks (Model.save book') w1)).
Proof.
  intros Hbook Hrun.
  unfold updateBookById, tryCatch in Hrun.
  match type of Hrun with
  | (let (_, _) := ?body w in _) = _ => destruct (body w) as [c w0] eqn:Hbody
  end.
  apply andThen_inv in Hbody as [(found & w1 & Hread & Hbody)|[(r0 & Hread & _)|(e & Hread & _)]];
    try (unfold read in Hread; discriminate).
  unfold read in Hread. apply pair_equal_spec in Hread as [Hfound <-].
  rewrite Hbook in Hfound. injection Hfound as <-.
  apply andThen_inv in Hbody
    as [(body1 & w1 & Hauthor & Hbody)|[(r0 & Hauthor & ->)|(e & Hauthor & ->)]].
  - assert (w1 = w /\ u_price body1 = u_price body
            /\ u_discountPercentage body1 = u_discountPercentage body
            /\ u_createdAt body1 = u_createdAt body) as (-> & Hp1 & Hd1 & Hc1).
    { destruct (JsString.truthyOpt (u_authorName body)).
      - unfold andThen, read, respond, pure in Hauthor.
        destruct (Model.findOne _ (authors w)); [|discriminate].
        apply pair_equal_spec in Hauthor as [Hb <-]. injection Hb as <-. repeat split.
      - unfold pure in Hauthor. apply pair_equal_spec in Hauthor as [Hb <-].
        injection Hb as <-. repeat split. }
    cbv zeta in Hbody.
    apply andThen_inv in Hbody
      as [(body2 & w2 & Hfiles & Hbody)|[(r0 & Hfiles & ->)|(e & Hfiles & ->)]].
    + assert (sameDocuments w w2 /\ u_price body2 = u_price body1
              /\ u_discountPercentage body2 = u_discountPercentage body1
              /\ u_createdAt body2 = u_createdAt body1)
        as (Hsame & Hp2 & Hd2 & Hc2).
      { destruct files as [fs|].
        - destruct (replaceSlot_settles "books" (file fs) (Book.sourcePath book) w)
            as (s1 & v1 & H1 & Hs1).
          destruct (replaceSlot_settles "covers" (cover fs) (Book.coverImage book) v1)
            as (s2 & v2 & H2 & Hs2).
          destruct (replaceSlot_settles "samples" (sample fs) (Book.samplePdf book) v2)
            as (s3 & v3 & H3 & Hs3).
          unfold andThen in Hfiles. rewrite H1, H2, H3 in Hfiles.
          destruct (promisesOf [s1; s2; s3]) as [deletePromises uploadPromises].
          destruct (awaitAll_reads deletePromises v3) as [[xs Hd]|[e Hd]];
            rewrite Hd in Hfiles; [|discriminate].
          destruct (awaitAll_reads uploadPromises v3) as [[ys Hu]|[e Hu]];
            rewrite Hu in Hfiles; [|discriminate].
          unfold pure in Hfiles. apply pair_equal_spec in Hfiles as [Hb <-].
          injection Hb as <-. split; [|repeat split; reflexivity].
          eapply sameDocuments_trans; [eassumption|].
          eapply sameDocuments_trans; eassumption.
        - unfold pure in Hfiles. apply pair_equal_spec in Hfiles as [Hb <-].
          injection Hb as <-. split; [apply sameDocuments_refl | repeat split; reflexivity]. }
      unfold andThen, write, pure in Hbody. apply pair_equal_spec in Hbody as [<- <-].
      apply pair_equal_spec in Hrun as [<- <-].
      right. exists body2, w2. do 3 (split; [congruence|]). split; [assumption|].
      cbv zeta. rewrite Hp2, Hd2. split; reflexivity.
    + exfalso. destruct files as [fs|]; [|discriminate].
      destruct (replaceSlot_settles "books" (file fs) (Book.sourcePath book) w)
        as (s1 & v1 & H1 & Hs1).
      destruct (replaceSlot_settles "covers" (cover fs) (Book.coverImage book) v1)
        as (s2 & v2 & H2 & Hs2).
      destruct (replaceSlot_settles "samples" (sample fs) (Book.samplePdf book) v2)
        as (s3 & v3 & H3 & Hs3).
      unfold andThen in Hfiles. rewrite H1, H2, H3 in Hfiles.
      destruct (promisesOf [s1; s2; s3]) as [deletePromises uploadPromises].
      destruct (awaitAll_reads deletePromises v3) as [[xs Hd]|[e Hd]];
        rewrite Hd in Hfiles; [|discriminate].
      destruct (awaitAll_reads uploadPromises v3) as [[ys Hu]|[e Hu]];
        rewrite Hu in Hfiles; discriminate.
    + left. apply pair_equal_spec in Hrun as [<- <-]. split; [|discriminate].
      destruct files as [fs|]; [|discriminate].
      destruct (replaceSlot_settles "books" (file fs) (Book.sourcePath book) w)
        as (s1 & v1 & H1 & Hs1).
      destruct (replaceSlot_settles "covers" (cover fs) (Book.coverImage book) v1)
        as (s2 & v2 & H2 & Hs2).
      destruct (replaceSlot_settles "samples" (sample fs) (Book.samplePdf book) v2)
        as (s3 & v3 & H3 & Hs3).
      unfold andThen in Hfiles. rewrite H1, H2, H3 in Hfiles.
      destruct (promisesOf [s1; s2; s3]) as [deletePromises uploadPromises].
      assert (w0 = v3) as ->.
      { destruct (awaitAll_reads deletePromises v3) as [[xs Hd]|[e0 Hd]];
          rewrite Hd in Hfiles; [|now apply pair_equal_spec in Hfiles as [_ <-]].
        destruct (awaitAll_reads uploadPromises v3) as [[ys Hu]|[e0 Hu]];
          rewrite Hu in Hfiles; now apply pair_equal_spec in Hfiles as [_ <-]. }
      eapply sameDocuments_trans; [eassumption|].
      eapply sameDocuments_trans; eassumption.
  - left. apply pair_equal_spec in Hrun as [<- <-].
    destruct (JsString.truthyOpt (u_authorName body)); [|discriminate].
    unfold andThen, read, respond, pure in Hauthor.
    destruct (Model.findOne _ (authors w)); [discriminate|].
    apply pair_equal_spec in Hauthor as [Hr <-]. injection Hr as <-.
    split; [apply sameDocuments_refl | discriminate].
  - exfalso. destruct (JsString.truthyOpt (u_authorName body)); [|discriminate].
    unfold andThen, read, respond, pure in Hauthor.
    destruct (Model.findOne _ (authors w)); discriminate.
Qed.

(** X18: Whatever the request and the answer, [updateBookById] leaves the
    authors, the categories, the carts, the favorites lists, the orders
    and every other book as they are.  The book it answers with 200 is
    the one now stored under the id.  Its [createdAt] and its [price]
    are the body's when the body names them and the old ones otherwise;
    its [originalPrice] is its [price] and its [discountedPrice] is the
    one computed from the price and the discount, whatever the body
    says of [originalPrice] and [discountedPrice]. *)
Theorem updateBookById_writes_one_book (id : ObjectId) (body : BookUpdate)
        (files : option Files) (w w' : World) (r : Response) (book : Book.t) :
  Model.findById id (books w) = Some book ->
  updateBookById getSignedUrl id body files w = (r, w') ->
  authors w' = authors w /\ categories w' = categories w /\ carts w' = carts w /\
  favorites w' = favorites w /\ orders w' = orders w /\
  (forall x, Book._id x <> id -> (In x (books w') <-> In x (books w))) /\
  (forall o, r = Json 200 (BookBody o) ->
     (exists b, Model.findById id (books w') = Some b /\ toObject b = o) /\
     BookObject.createdAt o = default (Book.createdAt book) (u_createdAt body) /\
     BookObject.price o = default (Book.price book) (u_price body) /\
     BookObject.originalPrice o = BookObject.price o /\
     BookObject.discountedPrice o
     = JsNum.sub (BookObject.price o)
         (JsNum.div
            (JsNum.mul (BookObject.price o)
               (JsNum.or (JsNum.ofOption (u_discountPercentage body))
                         (Book.discountPercentage book)))
            JsNum.hundred)).
Proof.
  intros Hbook Hrun.
  destruct (findById_In _ _ _ Hbook) as [_ Hid]. change (Book._id book = id) in Hid.
  destruct (updateBookById_outcome id body files w w' r book Hbook Hrun)
    as [[(Hb & Ha & Hc & Hcart & Hfav & Hord) Hnot]
       |(body' & w1 & Hprice & Hdiscount & Hcreated
         & (Hb & Ha & Hc & Hcart & Hfav & Hord) & Hr & Hw)].
  - repeat (split; [assumption|]). split.
    + intros x _. now rewrite Hb.
    + intros o Ho. now apply Hnot in Ho.
  - cbv zeta in Hr, Hw. subst r w'.
    cbn [authors categories carts favorites orders books setBooks logEffect].
    repeat (split; [assumption|]). split.
    + intros x Hx. rewrite Hb. apply In_save_other.
      change (Book._id x <> Book._id book). congruence.
    + intros o Ho. injection Ho as <-. split.
      * eexists. split; [|reflexivity]. rewrite <- Hid.
        match goal with
        | |- Model.findById _ (Model.save ?b _) = _ => exact (findById_save b _)
        end.
      * unfold assign, objectAssign, withPrices, toObject.
        cbn [BookObject.createdAt BookObject.price BookObject.originalPrice
             BookObject.discountedPrice u_createdAt u_price u_originalPrice
             u_discountedPrice default from_option].
        rewrite Hprice, Hdiscount, Hcreated. repeat split.
Qed.

End UpdateFrame.

(** ** The author handlers *)

Section Authors.

Variable getSignedUrl : string -> string.

(** X19: [createAuthor] without a name is answered 400, and without
    [req.files] (a request that is not multipart) it is answered with the
    500 error even when a name is given; nothing is written in either
    case, whatever file came with the request. *)
Theorem createAuthor_rejections (name : option string) (w : World) :
  (JsString.truthyOpt name = false ->
   forall files,
     createAuthor getSignedUrl name (Some files) w
     = (Json 400 (ErrorBody "Author name must be provided"), w)) /\
  (exists msg, createAuthor getSignedUrl name None w = (Next (AppError msg 500), w)).
Proof.
  split.
  - intros Hname files. unfold createAuthor, tryCatch, andThen, pure, respond.
    rewrite Hname. now destruct (file files).
  - eexists. reflexivity.
Qed.

(** The image [createAuthor] stores for a request. *)
Lemma createAuthor_run (name : string) (files : Files) (w : World) :
  JsString.truthy name = true ->
  let imageFile := match file files with
                   | Some arr => List.head arr
                   | None => None
                   end in
  let a := Author.mk (nextId w) name
             (option_map (fun f => getSignedUrl (uploadKey "authors" f)) imageFile) [] in
  exists w',
    createAuthor getSignedUrl (Some name) (Some files) w
      = (Json 201 (AuthorBody (Some a)), w') /\
    authors w' = Model.save a (authors w) /\
    books w' = books w /\
    (forall f, imageFile = Some f ->
               bucket w' !! uploadKey "authors" f = Some (blobOfFile f)) /\
    (imageFile = None -> bucket w' = bucket w).
Proof.
  intros Hname imageFile a.
  unfold createAuthor, tryCatch, andThen, pure, respond, uploadAs, writeObject, write,
    newDocument.
  cbn [JsString.truthyOpt]. rewrite Hname. cbn [negb].
  subst a imageFile.
  destruct (file files) as [[|f more]|]; cbn [List.head option_map];
    eexists; (split; [reflexivity|]);
    cbn [authors books bucket setAuthors setBucket logEffect tick];
    repeat split; try discriminate.
  intros f0 Hf0. injection Hf0 as <-. apply lookup_insert_eq.
Qed.

(** X20: A new author, with a name no author has yet, is appended with an
    empty list of books and can be read back under the new id. *)
Theorem createAuthor_then_getAuthorById (name : string) (files : Files) (w : World) :
  JsString.truthy name = true ->
  Model.findOne (fun a => String.eqb (Author.name a) name) (authors w) = None ->
  Model.findById (nextId w) (authors w) = None ->
  exists a w',
    createAuthor getSignedUrl (Some name) (Some files) w
      = (Json 201 (AuthorBody (Some a)), w') /\
    Author._id a = nextId w /\ Author.name a = name /\ Author.books a = [] /\
    listedAuthors w' = (authors w ++ [a])%list /\
    getAuthorById (nextId w) w'
    = (Json 200 (PopulatedBody
                   (Some (PopulatedAuthor.mk (nextId w) name (Author.image a) []))),
       w').
Proof.
  intros Hname _ Hfresh.
  destruct (createAuthor_run name files w Hname) as (w' & Hrun & Hauthors & _).
  cbv zeta in Hrun, Hauthors.
  match type of Hrun with
  | context [AuthorBody (Some ?x)] => set (a := x) in *
  end.
  exists a, w'. split; [exact Hrun|].
  repeat (split; [reflexivity|]).
  assert (authors w' = (authors w ++ [a])%list) as Happend.
  { rewrite Hauthors. unfold Model.save. change (docId a) with (nextId w).
    now rewrite Hfresh. }
  split; [exact Happend|].
  unfold getAuthorById, tryCatch, andThen, read, pure. rewrite Happend.
  pose proof (findById_append a (authors w) Hfresh) as Hread.
  change (docId a) with (nextId w) in Hread. now rewrite Hread.
Qed.






End Authors.

(** ** The further properties on the sample catalog *)

Lemma append_associative (s t u : string) : (s ++ t) ++ u = s ++ (t ++ u).
Proof.
  induction s as [|a s IH]; [reflexivity|].
  change (String a ((s ++ t) ++ u) = String a (s ++ (t ++ u))). now f_equal.
Qed.

Lemma Sample_signer_signsLikeStorage : signsLikeStorage Sample.signer.
Proof.
  intros folder name.
  exists ("https://storage.example/v0/b/store/o/" ++ folder),
         "GoogleAccessId=svc&Expires=16447017600&Signature=abc".
  split; [|reflexivity].
  unfold Sample.signer, objectKey. now rewrite !append_associative.
Qed.

Lemma fileNameOfUrl_stays_in_folder_witness :
  JsString.split "/" (objectKey "covers" (fileNameOfUrl (Sample.signer "covers/dune.png")))
  = ["covers"; fileNameOfUrl (Sample.signer "covers/dune.png")].
Proof.
  apply (fileNameOfUrl_stays_in_folder "covers" (Sample.signer "covers/dune.png")).
  reflexivity.
Defined.

Lemma upload_then_delete_object_witness :
  exists url w' w'',
    uploadFileToFirebase Sample.signer (Some Fixtures.newCover) "covers" Sample.world
      = (Normal url, w') /\
    objectKey "covers" (fileNameOfUrl url) = "covers/dune_new_cover.png" /\
    deleteObject (objectKey "covers" (fileNameOfUrl url)) w' = (Normal tt, w'').
Proof.
  destruct (upload_then_delete_object Sample.signer "covers" Fixtures.newCover Sample.world)
    as (url & w' & w'' & Hup & Hkey & Hdel & _).
  - exact Sample_signer_signsLikeStorage.
  - reflexivity.
  - reflexivity.
  - exists url, w', w''. split; [exact Hup|]. split; [|exact Hdel].
    rewrite Hkey. reflexivity.
Defined.

Lemma replaceSpaces_sanitizes_witness :
  JsString.replaceSpaces "dune_sample.pdf" = "dune_sample.pdf".
Proof.
  apply (replaceSpaces_sanitizes "dune_sample.pdf"). reflexivity.
Defined.

Lemma createBook_stores_then_saves_witness :
  exists w',
    fst (createBookWhen Sample.signer Fixtures.coverLate (Sample.emma None)
           Sample.allFiles Sample.world)
    = fst (createBook Sample.signer (Sample.emma None) Sample.allFiles Sample.world) /\
    w' = snd (createBookWhen Sample.signer Fixtures.coverLate (Sample.emma None)
                Sample.allFiles Sample.world) /\
    categories w' = [Category.mk 3 "Fiction" [10; 100]] /\
    authors w' = [Author.mk 1 "Ann" None [BookRef.mk 10; BookRef.mk 100]; Sample.bob] /\
    bucket w' !! uploadKey "covers" (Sample.png "emma.png") = None /\
    bucket w' !! uploadKey "samples" (Sample.pdf "emma sample.pdf")
    = Some (blobOfFile (Sample.pdf "emma sample.pdf")).
Proof.
  destruct (createBook_stores_then_saves Sample.signer Fixtures.coverLate
              (Sample.emma None) Sample.allFiles
              Sample.world (Sample.pdf "emma.pdf") (Sample.png "emma.png")
              (Sample.pdf "emma sample.pdf") [] [] [] Sample.ann Sample.fiction
              eq_refl eq_refl eq_refl eq_refl eq_refl)
    as (w' & log & Hrun & _ & _ & _ & _ & _ & _ & _ & _ & Hcategories & Hauthors
        & _ & _ & _ & _ & Hcover & Hsample & _).
  exists w'. rewrite Hrun, Hcategories, Hauthors, Hcover, Hsample.
  repeat split; vm_compute; reflexivity.
Defined.

(** The same request answered while the stream of the cover is still
    open: a [deleteBookById] that comes before the stream has finished
    does not find the cover, is answered with the 500 error and leaves
    the new record behind. *)
Example createBook_cover_late_then_delete :
  let w' := snd (createBookWhen Sample.signer Fixtures.coverLate (Sample.emma None)
                   Sample.allFiles Sample.world) in
  fst (deleteBookById 100 w')
  = Next (AppError "Failed to delete book: Error: No such object: covers/emma.png" 500) /\
  is_Some (Model.findById 100 (books (snd (deleteBookById 100 w')))).
Proof. vm_compute. split; [reflexivity | now eexists]. Qed.

Lemma createBook_then_getBookById_witness :
  exists o w',
    createBook Sample.signer (Sample.emma None) Sample.allFiles Sample.world
      = (Json 201 (CreatedBody o "Ann"), w') /\
    getBookById 100 None w' = (Json 200 (BookBody (withoutSourcePath o)), w').
Proof.
  destruct (createBook_then_getBookById Sample.signer (Sample.emma None) Sample.allFiles
              Sample.world (Sample.pdf "emma.pdf") (Sample.png "emma.png")
              (Sample.pdf "emma sample.pdf") [] [] [] Sample.ann Sample.fiction
              eq_refl eq_refl eq_refl eq_refl eq_refl eq_refl)
    as (o & w' & Hrun & _ & Hread).
  exists o, w'. split; [exact Hrun|]. apply Hread.
  intros (u & ? & ? & Hu & _). discriminate.
Defined.

Lemma createBook_then_deleteBookById_witness :
  exists o w' w'',
    createBook Sample.signer (Sample.emma None) Sample.allFiles Sample.world
      = (Json 201 (CreatedBody o "Ann"), w') /\
    deleteBookById (BookObject._id o) w'
      = (Json 200 (MessageBody "Book and related data deleted"), w'') /\
    books w'' = books Sample.world.
Proof.
  destruct (createBook_then_deleteBookById Sample.signer (Sample.emma None) Sample.allFiles
              Sample.world (Sample.pdf "emma.pdf") (Sample.png "emma.png")
              (Sample.pdf "emma sample.pdf") [] [] [] Sample.ann Sample.fiction)
    as (o & w' & w'' & Hrun & Hdel & Hbooks & _);
    try reflexivity.
  - exact Sample_signer_signsLikeStorage.
  - repeat constructor.
  - exists o, w', w''. repeat split; assumption.
Defined.

Lemma createBook_then_getAuthorById_witness :
  exists b w' listed,
    createBook Sample.signer (Sample.emma None) Sample.allFiles Sample.world
      = (Json 201 (CreatedBody (toObject b) "Ann"), w') /\
    getAuthorById 1 w' = (Json 200 (PopulatedBody (Some listed)), w') /\
    List.last (PopulatedAuthor.books listed) None = Some b.
Proof.
  destruct (createBook_then_getAuthorById Sample.signer (Sample.emma None) Sample.allFiles
              Sample.world (Sample.pdf "emma.pdf") (Sample.png "emma.png")
              (Sample.pdf "emma sample.pdf") [] [] [] Sample.ann Sample.fiction
              eq_refl eq_refl eq_refl eq_refl eq_refl eq_refl eq_refl)
    as (b & w' & listed & Hrun & Hread & _ & Hbooks).
  exists b, w', listed. split; [exact Hrun|]. split; [exact Hread|].
  rewrite Hbooks. apply last_last.
Defined.

Lemma getBooks_creation_and_natural_order_witness :
  answersWith Sample.regex (Sample.sortedBy "oldest") Sample.shelf
    (matchesFilter Sample.regex (baseFilter (Sample.sortedBy "oldest")))
    (fun a b => Book.createdAt a <= Book.createdAt b).
Proof.
  apply (getBooks_creation_and_natural_order Sample.regex (Sample.sortedBy "oldest")
           Sample.shelf); [vm_compute; discriminate | reflexivity].
Defined.

Lemma getBooks_pages_partition_witness :
  exists total,
    ((total - 1) * 1
     < Z.of_nat (length (selected Sample.regex Fixtures.onePerPage Sample.shelf))
     <= total * 1)%Z /\
    List.concat
      (List.map (fun i => listedBooks Sample.regex
                            (withPage (Z.of_nat (S i)) Fixtures.onePerPage) Sample.shelf)
                (seq 0 (Z.to_nat total)))
    = List.map redacted (selected Sample.regex Fixtures.onePerPage Sample.shelf).
Proof.
  destruct (getBooks_pages_partition Sample.regex Fixtures.onePerPage Sample.shelf 1%Z
              eq_refl eq_refl)
    as (total & Hbounds & _ & Hpages).
  exists total. split; assumption.
Defined.

Lemma unknown_id_is_not_found_witness :
  deleteBookById 5 Sample.world = (Json 404 (ErrorBody "Book not found"), Sample.world) /\
  deleteAuthor 5 Sample.world = (Json 404 (ErrorBody "Author not found"), Sample.world).
Proof.
  destruct (unknown_id_is_not_found Sample.signer 5 Sample.world) as (Hbook & Hauthor & _).
  split; [apply Hbook | apply Hauthor]; reflexivity.
Defined.




Lemma deleteAuthor_leaves_references_witness :
  categories (snd (deleteAuthor 1 Sample.world)) = categories Sample.world /\
  carts (snd (deleteAuthor 1 Sample.world)) = carts Sample.world.
Proof.
  destruct (deleteAuthor_leaves_references 1 Sample.world
              (snd (deleteAuthor 1 Sample.world)) Sample.ann
              (fst (deleteAuthor 1 Sample.world)) eq_refl (surjective_pairing _))
    as (Hcategories & Hcarts & _).
  now split.
Defined.



Lemma updateBookById_failed_delete_still_uploads_witness :
  exists msg w',
    updateBookById Sample.signer 10 (Sample.discountOnly (Fin 10))
      (Some Fixtures.coverOnly) Sample.coverLost
    = (Next (AppError msg 500), w') /\
    books w' = books Sample.coverLost /\
    bucket w' = <[uploadKey "covers" Fixtures.newCover := blobOfFile Fixtures.newCover]>
                  (bucket Sample.coverLost).
Proof.
  destruct (updateBookById_failed_delete_still_uploads Sample.signer 10
              (Sample.discountOnly (Fin 10)) Sample.coverLost Sample.dune
              Fixtures.newCover [] eq_refl eq_refl eq_refl Sample_cover_lost)
    as (msg & w' & Hrun & Hbooks & Hbucket & _).
  exists msg, w'. repeat split; assumption.
Defined.

Lemma updateBookById_writes_one_book_witness :
  exists o w',
    updateBookById Sample.signer 10 Fixtures.repriced None Sample.world
    = (Json 200 (BookBody o), w') /\
    authors w' = authors Sample.world /\
    BookObject.createdAt o = 7 /\
    BookObject.price o = Fin 30 /\
    BookObject.originalPrice o = Fin 30 /\
    BookObject.discountedPrice o ==n Fin 15.
Proof.
  destruct (updateBookById Sample.signer 10 Fixtures.repriced None Sample.world)
    as [r w'] eqn:Hrun.
  destruct (updateBookById_writes_one_book Sample.signer 10 Fixtures.repriced None
              Sample.world w' r Sample.dune eq_refl Hrun)
    as (Hauthors & _ & _ & _ & _ & _ & Hanswer).
  vm_compute in Hrun. apply pair_equal_spec in Hrun as [Hr _]. subst r.
  destruct (Hanswer _ eq_refl) as (_ & Hcreated & Hprice & Horiginal & Hsale).
  eexists _, w'. split; [reflexivity|]. split; [exact Hauthors|].
  split; [exact Hcreated|]. split; [exact Hprice|].
  split; [rewrite Horiginal; exact Hprice|].
  rewrite Hsale. vm_compute. reflexivity.
Defined.

Lemma createAuthor_rejections_witness :
  createAuthor Sample.signer (Some "") (Some Fixtures.portraitOnly) Sample.world
  = (Json 400 (ErrorBody "Author name must be provided"), Sample.world).
Proof.
  apply (createAuthor_rejections Sample.signer (Some "") Sample.world). reflexivity.
Defined.

Lemma createAuthor_then_getAuthorById_witness :
  exists a w',
    createAuthor Sample.signer (Some "Cleo") (Some Fixtures.portraitOnly) Sample.world
      = (Json 201 (AuthorBody (Some a)), w') /\
    listedAuthors w' = [Sample.ann; Sample.bob; a] /\
    getAuthorById 100 w'
    = (Json 200 (PopulatedBody (Some (PopulatedAuthor.mk 100 "Cleo" (Author.image a) []))),
       w').
Proof.
  destruct (createAuthor_then_getAuthorById Sample.signer "Cleo" Fixtures.portraitOnly
              Sample.world eq_refl eq_refl eq_refl)
    as (a & w' & Hrun & _ & _ & _ & Hlisted & Hread).
  exists a, w'. repeat split; assumption.
Defined.



